(** * cirec_rag front end: query clients and admin client

    A shallow embedding of the three browser scripts of the repository:

      - [src/frontend/static/js/admin.js], the admin page (module [Admin]);
      - [src/frontend/static/js/app.js], the single-shot query client
        (module [App]);
      - the chat-style query client (module [Chat]).

    Module [JS] holds the strings, numbers and objects of JavaScript the
    scripts compute with, module [Browser] the requests, the effects on
    the page and the monad the scripts run in, module [Markup] the way
    markup is read back.  The properties come last. *)

From Stdlib Require Import ZArith NArith QArith Qround Qabs Qpower List String Ascii Bool Lia.
From Stdlib Require Import DecimalString.
From Stdlib Require Import Floats.SpecFloat.
Import ListNotations.

Local Open Scope Z_scope.

(* ================================================================== *)
(** * The JavaScript values the scripts compute with *)
(* ================================================================== *)

Module JS.

(** ** Strings

    A JavaScript string is a finite sequence of 16-bit code units.  The
    scripts look inside strings ([trim], [includes], [split], the HTML
    escaping of text nodes), so strings are lists of code units. *)

Definition code_unit := N.
Definition jsstring := list code_unit.

(** ASCII literals of the source. *)
Definition lit (s : string) : jsstring :=
  map N_of_ascii (list_ascii_of_string s).
Arguments lit s%_string.

Fixpoint eqb (a b : jsstring) : bool :=
  match a, b with
  | [], [] => true
  | x :: a', y :: b' => N.eqb x y && eqb a' b'
  | _, _ => false
  end.

(** [s.startsWith(p)]: the sticky match every search below is built on. *)
Fixpoint starts_with (p s : jsstring) : bool :=
  match p, s with
  | [], _ => true
  | x :: p', y :: s' => N.eqb x y && starts_with p' s'
  | _ :: _, [] => false
  end.

(** [s.includes(p)] *)
Fixpoint includes (s p : jsstring) : bool :=
  starts_with p s ||
  match s with
  | [] => false
  | _ :: s' => includes s' p
  end.

(** [Array.prototype.join('')] *)
Definition join (l : list jsstring) : jsstring := List.concat l.

(** WhiteSpace and LineTerminator code units, which [trim] strips. *)
Definition is_white_space (c : code_unit) : bool :=
  existsb (N.eqb c)
    [9; 10; 11; 12; 13; 32; 160; 5760; 8232; 8233; 8239; 8287; 12288; 65279]%N
  || ((8192 <=? c) && (c <=? 8202))%N.

Fixpoint trim_start (s : jsstring) : jsstring :=
  match s with
  | c :: s' => if is_white_space c then trim_start s' else s
  | [] => []
  end.

(** [s.trim()] *)
Definition trim (s : jsstring) : jsstring :=
  rev (trim_start (rev (trim_start s))).

(** [s.split('\n\n')]: the pieces between the successive occurrences of
    two line feeds, found from left to right; [cur] holds the code units
    of the current piece, last one first. *)
Fixpoint split_blank (cur s : jsstring) : list jsstring :=
  match s with
  | [] => [rev cur]
  | c :: s' =>
      if N.eqb c 10 then
        match s' with
        | c' :: s'' =>
            if N.eqb c' 10 then rev cur :: split_blank [] s''
            else split_blank (c :: cur) s'
        | [] => split_blank (c :: cur) s'
        end
      else split_blank (c :: cur) s'
  end.

Definition is_digit (c : code_unit) : bool := ((48 <=? c) && (c <=? 57))%N.

Fixpoint digits_then_dot (s : jsstring) : bool :=
  match s with
  | c :: s' => if is_digit c then digits_then_dot s' else N.eqb c 46
  | [] => false
  end.

(** [s.match(/^\d+\./)] as a truth value. *)
Definition matches_ordinal (s : jsstring) : bool :=
  match s with
  | c :: s' => is_digit c && digits_then_dot s'
  | [] => false
  end.

(** ** Numbers

    [formatFileSize] and [toFixed(2)] are modelled on the exact value of
    a number, with [NaN] apart: a finite double is a rational, and on the
    integer byte counts below 1024^4 and the quotients by powers of 1024
    that [formatFileSize] forms, the double operations [/], [*] and
    [Math.round] are exact.  [Math.log] is not modelled on its own: the
    script only uses the floor of a quotient of two logarithms
    ([Math_floor_log]), which is taken at its exact real value; this is
    what the doubles give for the byte counts below 1024^4 (beyond, the
    rounding of the two logarithms can push the quotient over the next
    integer).  The percentage of the upload progress is not exact in
    doubles; it is computed in binary64 (see Doubles below). *)

Inductive number : Type :=
| NaN
| Num (q : Q).

Definition of_Z (z : Z) : number := Num (inject_Z z).

(** [x / y] (the scripts never divide by zero on finite values). *)
Definition div (x y : number) : number :=
  match x, y with
  | Num a, Num b => Num (a / b)
  | _, _ => NaN
  end.

Definition mul (x y : number) : number :=
  match x, y with
  | Num a, Num b => Num (a * b)
  | _, _ => NaN
  end.

(** [Math.pow(k, i)] for an integer exponent. *)
Definition Math_pow (k i : number) : number :=
  match k, i with
  | Num a, Num b => Num (Qpower a (Qfloor b))
  | _, _ => NaN
  end.

(** [Math.round(x)]: the integer nearest to [x], ties towards +infinity. *)
Definition Math_round (x : number) : number :=
  match x with
  | Num a => of_Z (Qfloor (a + (1 # 2)))
  | NaN => NaN
  end.

(** [Math.floor(Math.log(x) / Math.log(k))] for an integer [x] and a
    base [k] that is a power of two (the script has [k = 1024]): the
    logarithm of a negative number is [NaN], and for [x >= 1] the floor of
    the quotient is the greatest [i] with [k ^ i <= x].  (The script
    returns before this line when [x] is 0.) *)
Definition Math_floor_log (x k : Z) : number :=
  if x <? 0 then NaN else of_Z (Z.log2 x / Z.log2 k).

(** Decimal digits of a natural number. *)
Definition digits (n : Z) : jsstring :=
  lit (NilZero.string_of_uint (N.to_uint (Z.to_N n))).

(** [String(z)] for an integer below 10^21. *)
Definition int_to_string (z : Z) : jsstring :=
  (if z <? 0 then lit "-" else []) ++ digits (Z.abs z).

(** The decimal text of [h / 100]: the integer part and at most two
    decimals, without trailing zeros. *)
Definition hundredths_to_string (h : Z) : jsstring :=
  let a := Z.abs h in
  let sign := if h <? 0 then lit "-" else [] in
  let ip := digits (a / 100) in
  let fr := a mod 100 in
  if fr =? 0 then sign ++ ip
  else if fr mod 10 =? 0 then sign ++ ip ++ lit "." ++ digits (fr / 10)
  else sign ++ ip ++ lit "." ++ digits (fr / 10) ++ digits (fr mod 10).

(** [String(x)] for a number that is a multiple of 1/100 and below 10^21
    (what [Math.round(..) / 100] yields): the shortest decimal that reads
    back as [x]. *)
Definition number_to_string (x : number) : jsstring :=
  match x with
  | NaN => lit "NaN"
  | Num q => hundredths_to_string (Qfloor (q * 100))
  end.

(** ** Values that may be [undefined] *)

(** [arr[i]] for an array of strings and a numeric index: an element when
    [i] is an integer within bounds, [undefined] ([None]) otherwise. *)
Definition index (arr : list jsstring) (i : number) : option jsstring :=
  match i with
  | NaN => None
  | Num q =>
      let z := Qfloor q in
      if Qeq_bool q (inject_Z z) && (0 <=? z) then nth_error arr (Z.to_nat z)
      else None
  end.

(** String concatenation converts [undefined] to the text "undefined". *)
Definition to_string (v : option jsstring) : jsstring :=
  match v with
  | Some s => s
  | None => lit "undefined"
  end.

(** ** Property lookup on an object literal

    The value of [obj[key]] for an object literal with string-valued
    own properties: an own property, else a property inherited from
    [Object.prototype], else [undefined]. *)

Inductive value :=
| Undefined
| Str (s : jsstring)
| Builtin (name : string)      (** a built-in function object *)
| ObjectPrototype.             (** the object [Object.prototype] *)

(** The properties of [Object.prototype]. *)
Definition Object_prototype : list (jsstring * value) :=
  [ (lit "constructor", Builtin "Object");
    (lit "__defineGetter__", Builtin "__defineGetter__");
    (lit "__defineSetter__", Builtin "__defineSetter__");
    (lit "hasOwnProperty", Builtin "hasOwnProperty");
    (lit "__lookupGetter__", Builtin "__lookupGetter__");
    (lit "__lookupSetter__", Builtin "__lookupSetter__");
    (lit "isPrototypeOf", Builtin "isPrototypeOf");
    (lit "propertyIsEnumerable", Builtin "propertyIsEnumerable");
    (lit "toString", Builtin "toString");
    (lit "valueOf", Builtin "valueOf");
    (lit "__proto__", ObjectPrototype);
    (lit "toLocaleString", Builtin "toLocaleString") ].

Fixpoint lookup {A} (key : jsstring) (props : list (jsstring * A)) : option A :=
  match props with
  | [] => None
  | (k, v) :: props' => if eqb key k then Some v else lookup key props'
  end.

Definition get (own : list (jsstring * jsstring)) (key : jsstring) : value :=
  match lookup key own with
  | Some s => Str s
  | None =>
      match lookup key Object_prototype with
      | Some v => v
      | None => Undefined
      end
  end.

Definition value_truthy (v : value) : bool :=
  match v with
  | Undefined => false
  | Str [] => false
  | _ => true
  end.

(** [a || b] *)
Definition or_else (a b : value) : value :=
  if value_truthy a then a else b.

(** [`${v}`]; the text of a built-in function is the engine's. *)
Definition template_value (native_source : string -> jsstring) (v : value)
  : jsstring :=
  match v with
  | Undefined => lit "undefined"
  | Str s => s
  | Builtin name => native_source name
  | ObjectPrototype => lit "[object Object]"
  end.

(** [x.toFixed(2)] for a finite [x] of absolute value below 10^21: the
    integer [n] with [n / 100] nearest to [x] (the larger one of two),
    written with two decimals.  (From 10^21 on, [toFixed] gives the
    exponent notation of [String(x)], which is not modelled: the
    properties that read the result bound [x].) *)
Definition toFixed2 (x : Q) : jsstring :=
  let sign := if Qle_bool 0 x then [] else lit "-" in
  let n := Qfloor (Qabs x * 100 + (1 # 2)) in
  sign ++ digits (n / 100) ++ lit "." ++ digits (n mod 100 / 10) ++ digits (n mod 10).

(** ** Doubles

    Where the result of an operation is not exact, a number is an IEEE
    754 binary64 value, and [/] and [*] round to nearest, ties to even
    (the operations of [SpecFloat] at precision 53). *)

Definition double : Type := spec_float.

Definition double_div : double -> double -> double := SFdiv 53 1024.

Definition double_mul : double -> double -> double := SFmul 53 1024.

(** The double of an array index or length.  A natural number below
    2^53 is a double: its binary digits, shifted to the 53 bits of the
    mantissa.  (A larger one is rounded.) *)
Definition double_of_nat (n : nat) : double :=
  match Z.of_nat n with
  | Zpos p =>
      let d := Z.log2 (Zpos p) in
      if d <? 53 then S754_finite false (Pos.shiftl p (Z.to_N (52 - d))) (d - 52)
      else binary_normalize 53 1024 (Zpos p) 0 false
  | _ => S754_zero false
  end.

End JS.

Import JS.

(* ================================================================== *)
(** * The browser as the scripts see it *)
(* ================================================================== *)

Module Browser.

(** Template text of the source.  Inside [tpl] the apostrophe stands for
    the quotation mark U+0022, which the markup of the scripts uses for
    every attribute value (the templates contain no apostrophe). *)
Definition tpl (s : string) : jsstring :=
  map (fun c => if N.eqb c 39 then 34%N else c) (lit s).
Arguments tpl s%_string.

(** [!!v] for a value that is [null]/[undefined] or a string. *)
Definition truthy (v : option jsstring) : bool :=
  match v with
  | Some (_ :: _) => true
  | _ => false
  end.

(** [`${v}`] for a value that is [null] or a string. *)
Definition null_to_string (v : option jsstring) : jsstring :=
  match v with
  | Some s => s
  | None => lit "null"
  end.

(** ** Text nodes and markup

    [serialize_text s] is the [innerHTML] of an element whose only child
    is a text node holding [s]: the HTML fragment serialisation escapes
    the ampersand, the no-break space, and the angle brackets; it leaves
    the quotation mark as it is. *)
Definition escape_unit (c : code_unit) : jsstring :=
  if N.eqb c 38 then lit "&amp;"
  else if N.eqb c 160 then lit "&nbsp;"
  else if N.eqb c 60 then lit "&lt;"
  else if N.eqb c 62 then lit "&gt;"
  else [c].

Definition serialize_text (s : jsstring) : jsstring :=
  flat_map escape_unit s.

(** ** Requests and replies *)

Inductive method := GET | POST | DELETE.

Record File := { name : jsstring }.

Inductive body :=
| NoBody
| FormData (field : jsstring) (file : File)
| JsonQuery (question : jsstring) (top_k : Z).

Record request := {
  r_method : method;
  r_url : jsstring;
  r_headers : list (jsstring * jsstring);
  r_body : body }.

(** What [await response.json()] gives: the parsed body, or an exception
    (a [SyntaxError] when the body is not JSON, a [TypeError] when the
    first property access on it fails) with its message. *)
Inductive parsed (A : Type) :=
| Unreadable (msg : jsstring)
| Body (a : A).
Arguments Unreadable {A} msg.
Arguments Body {A} a.

Record response (A : Type) := {
  status : Z;
  text : jsstring;
  json : parsed A }.
Arguments status {A} r.
Arguments text {A} r.
Arguments json {A} r.

(** [response.ok] *)
Definition ok {A} (r : response A) : bool :=
  (200 <=? status r) && (status r <=? 299).

(** How the promise of a [fetch] settles: it rejects (network failure, a
    [TypeError] with a message of the browser's) or fulfils with a
    response of any status. *)
Inductive outcome (A : Type) :=
| Rejected (msg : jsstring)
| Responded (r : response A).
Arguments Rejected {A} msg.
Arguments Responded {A} r.

(** ** Observable effects *)

Record element := {
  e_id : jsstring;
  e_className : jsstring;
  e_innerHTML : jsstring }.

Inductive settlement := Fulfilled (status : Z) | Failed (msg : jsstring).

Inductive event :=
| Dispatch (target type : string) (data : jsstring)
    (** a user event reaches a listener of the page *)
| Fetch (r : request)
    (** [fetch] is called: the request is in flight *)
| Settled (r : request) (s : settlement)
    (** the awaited promise of that request has settled *)
| Navigate (href : jsstring)
    (** [window.location.href = href] *)
| RemoveItem (key : jsstring)
    (** [localStorage.removeItem(key)] *)
| Alert (msg : jsstring)
| ConsoleLog (label : jsstring) (arg : jsstring)
| ConsoleError (label : jsstring) (arg : jsstring)
| SetProp (target prop : string) (value : jsstring)
    (** [target.prop = value]; [textContent] stores literal text,
        [innerHTML] is parsed as markup *)
| SetPercent (target prop : string) (value : double)
    (** [target.prop = `${value}%`] *)
| Append (target : string) (child : element)
    (** [target.appendChild(child)] *)
| RemoveElement (id : jsstring)
| Focus (target : string)
| ScrollIntoView (target : string)
| SetTimeout (ms : Z) (target prop : string) (value : jsstring)
    (** after [ms] milliseconds, [target.prop = value] *).

(** ** The monad of a script

    A script runs against the stored session token, the number of
    requests issued so far (the network answers the n-th request through
    a reply function) and the variables of its page; it returns a value
    or throws, and emits its effects in program order.  An [await] is a
    sequencing point: what follows it runs after the promise settled.
    In this monad a listener is run to its end, awaited replies
    included, before the next event is handled; where a property depends
    on what the browser does during an [await], the listener is given in
    two halves around it ([send] and [settle] below). *)

Record exn := Error { message : jsstring }.

Inductive result (A : Type) :=
| Ok (a : A)
| Throw (e : exn).
Arguments Ok {A} a.
Arguments Throw {A} e.

Record state (P : Type) := {
  stored_token : option jsstring;
  issued : nat;
  page : P }.
Arguments stored_token {P} s.
Arguments issued {P} s.
Arguments page {P} s.
Arguments Build_state {P}.

Definition M (P A : Type) : Type := state P -> result A * state P * list event.

Definition ret {P A} (a : A) : M P A := fun s => (Ok a, s, []).

Definition bind {P A B} (m : M P A) (k : A -> M P B) : M P B :=
  fun s =>
    match m s with
    | (Ok a, s1, e1) => let '(r, s2, e2) := k a s1 in (r, s2, e1 ++ e2)
    | (Throw e, s1, e1) => (Throw e, s1, e1)
    end.

Definition throw {P A} (e : exn) : M P A := fun s => (Throw e, s, []).

(** [try { m } catch (error) { h error }] *)
Definition try_catch {P A} (m : M P A) (h : exn -> M P A) : M P A :=
  fun s =>
    match m s with
    | (Ok a, s1, e1) => (Ok a, s1, e1)
    | (Throw e, s1, e1) => let '(r, s2, e2) := h e s1 in (r, s2, e1 ++ e2)
    end.

(** [try { m } finally { f }] *)
Definition try_finally {P A} (m : M P A) (f : M P unit) : M P A :=
  fun s =>
    let '(r, s1, e1) := m s in
    let '(r', s2, e2) := f s1 in
    (match r' with Ok _ => r | Throw e => Throw e end, s2, e1 ++ e2).

Definition emit {P} (e : event) : M P unit := fun s => (Ok tt, s, [e]).

Definition get_page {P} : M P P := fun s => (Ok (page s), s, []).

Definition put_page {P} (p : P) : M P unit :=
  fun s => (Ok tt, Build_state (stored_token s) (issued s) p, []).

(** [localStorage.removeItem('token')] *)
Definition removeItem_token {P} : M P unit :=
  fun s => (Ok tt, Build_state None (issued s) (page s), [RemoveItem (lit "token")]).

(** [fetch(url, options)] against the reply function of the endpoint:
    the request leaves, and the promise will settle the way the endpoint
    answers the request. *)
Record promise (A : Type) := {
  p_request : request;
  p_outcome : outcome A }.
Arguments p_request {A} p.
Arguments p_outcome {A} p.
Arguments Build_promise {A}.

Definition fetch {P A} (reply : nat -> request -> outcome A) (req : request)
  : M P (promise A) :=
  fun s =>
    (Ok (Build_promise req (reply (issued s) req)),
     Build_state (stored_token s) (S (issued s)) (page s),
     [Fetch req]).

(** [await p] for the promise of a [fetch]: the script goes on when the
    promise has settled, with the response, or with the rejection
    thrown. *)
Definition await {P A} (p : M P (promise A)) : M P (response A) :=
  bind p (fun pr s =>
    match p_outcome pr with
    | Rejected msg => (Throw (Error msg), s, [Settled (p_request pr) (Failed msg)])
    | Responded r => (Ok r, s, [Settled (p_request pr) (Fulfilled (status r))])
    end).

(** The two halves of [await fetch(..)], for a listener during whose
    [await] the browser handles other events: the request leaves
    ([send]); later its promise settles with the outcome [o], and the
    listener goes on with the response or with the rejection thrown
    ([settle]). *)
Definition send {P} (req : request) : M P unit :=
  fun s =>
    (Ok tt, Build_state (stored_token s) (S (issued s)) (page s), [Fetch req]).

Definition settle {P A} (req : request) (o : outcome A) : M P (response A) :=
  fun s =>
    match o with
    | Rejected msg => (Throw (Error msg), s, [Settled req (Failed msg)])
    | Responded r => (Ok r, s, [Settled req (Fulfilled (status r))])
    end.

(** [await response.json()] *)
Definition response_json {P A} (r : response A) : M P A :=
  match json r with
  | Unreadable msg => throw (Error msg)
  | Body a => ret a
  end.

Module Notations.
  Declare Scope js_scope.
  Delimit Scope js_scope with js.
  Notation "x <- m ;; k" := (bind m (fun x => k))
    (at level 61, m at next level, right associativity) : js_scope.
  Notation "m ;; k" := (bind m (fun _ => k))
    (at level 61, right associativity) : js_scope.
End Notations.

(** The effects a run emitted, and the requests among them. *)
Definition events {P A} (x : result A * state P * list event) : list event :=
  snd x.

Definition final {P A} (x : result A * state P * list event) : state P :=
  snd (fst x).

Fixpoint requests (tr : list event) : list request :=
  match tr with
  | [] => []
  | Fetch r :: tr' => r :: requests tr'
  | _ :: tr' => requests tr'
  end.

End Browser.

Import Browser.
Import Browser.Notations.


(* ================================================================== *)
(** * admin.js *)
(* ================================================================== *)

Module Admin.

Local Open Scope js_scope.

Definition API_BASE : jsstring := lit "/api/admin".

(** The backend as the admin page reaches it: one reply function per
    endpoint, asked with the number of requests issued before. *)
Record Document := {
  filename : jsstring;
  type : jsstring;
  size : Z;
  upload_date : jsstring;
  indexed : bool }.

Record UploadJson := { detail : option jsstring }.

Record HealthJson := {
  health_status : option jsstring;
  health_version : option jsstring }.

Record network := {
  upload_reply : nat -> request -> outcome UploadJson;
  documents_reply : nat -> request -> outcome (list Document);
  delete_reply : nat -> request -> outcome unit;
  rebuild_reply : nat -> request -> outcome unit;
  health_reply : nat -> request -> outcome HealthJson }.

(** The variables of the script: [const token] (read from storage when
    the page loads; [authHeaders] is computed from it once) and
    [let fileToDelete]. *)
Record vars := {
  token : option jsstring;
  fileToDelete : option jsstring }.

Definition authHeaders (v : vars) : list (jsstring * jsstring) :=
  [(lit "Authorization", tpl "Bearer " ++ null_to_string (token v))].

Definition set_fileToDelete (f : option jsstring) : M vars unit :=
  v <- get_page ;; put_page {| token := token v; fileToDelete := f |}.

(** [function getBadgeClass(type)] *)
Definition getBadgeClass (type : jsstring) : jsstring :=
  if eqb type (lit ".pdf") then lit "badge-pdf"
  else if eqb type (lit ".docx") || eqb type (lit ".doc") then lit "badge-word"
  else if eqb type (lit ".xlsx") || eqb type (lit ".xls") then lit "badge-excel"
  else lit "badge-pdf".

(** [function formatFileSize(bytes)] *)
Definition formatFileSize (bytes : Z) : jsstring :=
  if bytes =? 0 then lit "0 Bytes" else
  let k := 1024 in
  let sizes := [lit "Bytes"; lit "KB"; lit "MB"; lit "GB"] in
  let i := Math_floor_log bytes k in
  number_to_string
    (div (Math_round (mul (div (of_Z bytes) (Math_pow (of_Z k) i)) (of_Z 100)))
         (of_Z 100))
  ++ lit " " ++ to_string (index sizes i).

(** [function showStatus(message, type = 'info')] *)
Definition showStatus (message type : jsstring) : M vars unit :=
  emit (SetProp "statusMessage" "textContent" message) ;;
  emit (SetProp "statusMessage" "className" (tpl "status-message status-" ++ type)) ;;
  emit (SetProp "statusMessage" "style.display" (lit "block")) ;;
  emit (SetTimeout 3000 "statusMessage" "style.display" (lit "none")).

Section Page.

Variable net : network.

(** Locale-dependent functions of the platform, left abstract:
    [s.toUpperCase()] and [new Date(s).toLocaleString()]. *)
Variable toUpperCase : jsstring -> jsstring.
Variable toLocaleString : jsstring -> jsstring.

(** The HTML parser of the browser, asked the one question the script
    asks about a row: whether the [tr] element whose [innerHTML] was set
    to this markup holds an element of class [delete-btn], so that
    [tr.querySelector('.delete-btn')] is not [null].  The markup of a row
    holds the fields of the document unescaped; a file name such as
    [<!--] swallows the button. *)
Variable has_delete_btn : jsstring -> bool.

(** The message of the [TypeError] the engine throws when a method is
    called on [null]. *)
Variable null_TypeError : jsstring.

(** The template literal [createDocumentRow] assigns to [tr.innerHTML]. *)
Definition row_markup (doc : Document) : jsstring :=
  let fileType := toUpperCase (tl (type doc)) in
  let badgeClass := getBadgeClass (type doc) in
  let size := formatFileSize (size doc) in
  let date := toLocaleString (upload_date doc) in
  tpl "
        <td><strong>" ++ filename doc ++ tpl "</strong></td>
        <td><span class='file-type-badge " ++ badgeClass ++ tpl "'>" ++ fileType ++ tpl "</span></td>
        <td>" ++ size ++ tpl "</td>
        <td>" ++ date ++ tpl "</td>
        <td>" ++ (if indexed doc then [9989%N] ++ lit " Indexed"
                  else [9203%N] ++ lit " Pending") ++ tpl "</td>
        <td>
            <button class='btn btn-danger btn-sm delete-btn' data-filename='" ++ filename doc ++ tpl "'>
                " ++ [55357; 56785; 65039]%N ++ tpl " Delete
            </button>
        </td>
    ".

(** [function createDocumentRow(doc)]: the [tr] element.  The script
    looks up the delete button of the row to give it a listener that
    calls [showDeleteModal(doc.filename)] (the user event [ClickDelete]
    below); without a button, the call of [addEventListener] on [null]
    throws. *)
Definition createDocumentRow (doc : Document) : M vars element :=
  let tr := {| e_id := []; e_className := []; e_innerHTML := row_markup doc |} in
  if has_delete_btn (e_innerHTML tr) then ret tr
  else throw (Error null_TypeError).

(** The callback of [documents.forEach] in [displayDocuments], document
    by document. *)
Fixpoint appendRows (documents : list Document) : M vars unit :=
  match documents with
  | [] => ret tt
  | doc :: rest =>
      row <- createDocumentRow doc ;;
      emit (Append "documentsList" row) ;;
      appendRows rest
  end.

(** [function displayDocuments(documents)] *)
Definition displayDocuments (documents : list Document) : M vars unit :=
  if (List.length documents =? 0)%nat then
    emit (SetProp "documentsTable" "innerHTML"
      (tpl "<p style='color: var(--text-secondary); padding: 2rem; text-align: center;'>No documents uploaded yet</p>"))
  else
    let table :=
      {| e_id := [];
         e_className := [];
         e_innerHTML := tpl "
        <thead>
            <tr>
                <th>Filename</th>
                <th>Type</th>
                <th>Size</th>
                <th>Upload Date</th>
                <th>Status</th>
                <th>Actions</th>
            </tr>
        </thead>
        <tbody id='documentsList'></tbody>
    " |} in
    emit (SetProp "documentsTable" "innerHTML" []) ;;
    emit (Append "documentsTable" table) ;;
    appendRows documents.

(** [async function loadDocuments()] *)
Definition loadDocuments : M vars unit :=
  emit (SetProp "documentsTable" "innerHTML"
    (tpl "<div class='table-loading'><span class='spinner'></span> Loading documents...</div>")) ;;
  try_catch
    (v <- get_page ;;
     response <- await (fetch (documents_reply net)
       {| r_method := GET;
          r_url := API_BASE ++ tpl "/documents";
          r_headers := authHeaders v;
          r_body := NoBody |}) ;;
     if negb (ok response) then
       throw (Error (lit "Failed to load documents"))
     else
       documents <- response_json response ;;
       displayDocuments documents)
    (fun error =>
       emit (ConsoleError (lit "Error loading documents:") (message error)) ;;
       emit (SetProp "documentsTable" "innerHTML"
         (tpl "<p style='color: var(--danger-color); padding: 2rem; text-align: center;'>Failed to load documents</p>")) ;;
       if includes (message error) (lit "401") then
         removeItem_token ;;
         emit (Navigate (lit "/login"))
       else ret tt).

(** [async function uploadFile(file)] *)
Definition uploadFile (file : File) : M vars UploadJson :=
  let formData := FormData (lit "file") file in
  v <- get_page ;;
  response <- await (fetch (upload_reply net)
    {| r_method := POST;
       r_url := API_BASE ++ tpl "/upload";
       r_headers := authHeaders v;
       r_body := formData |}) ;;
  if negb (ok response) then
    error <- response_json response ;;
    throw (Error (if truthy (detail error) then null_to_string (detail error)
                  else lit "Upload failed"))
  else
    response_json response.

(** The [for] loop of [uploadFiles]: [rest] is [files] from index [i]
    on, [len] is [files.length]. *)
Fixpoint uploadLoop (rest : list File) (i len : nat) : M vars unit :=
  match rest with
  | [] => ret tt
  | file :: rest' =>
      let progress :=
        double_mul (double_div (double_of_nat (i + 1)) (double_of_nat len))
                   (double_of_nat 100) in
      emit (SetPercent "progressFill" "style.width" progress) ;;
      emit (SetProp "uploadStatus" "textContent"
        (tpl "Uploading " ++ name file ++ tpl "... (" ++ digits (Z.of_nat i + 1)
           ++ tpl "/" ++ digits (Z.of_nat len) ++ tpl ")")) ;;
      try_catch
        (_ <- uploadFile file ;;
         showStatus (name file ++ tpl " uploaded successfully") (lit "success"))
        (fun error =>
           showStatus (tpl "Failed to upload " ++ name file) (lit "error") ;;
           emit (ConsoleError (lit "Upload error:") (message error))) ;;
      uploadLoop rest' (S i) len
  end.

(** [async function uploadFiles(files)] *)
Definition uploadFiles (files : list File) : M vars unit :=
  emit (SetProp "uploadProgress" "style.display" (lit "block")) ;;
  uploadLoop files 0 (List.length files) ;;
  emit (SetProp "uploadProgress" "style.display" (lit "none")) ;;
  emit (SetProp "progressFill" "style.width" (lit "0%")) ;;
  emit (SetProp "fileInput" "value" []) ;;
  loadDocuments.

(** [function showDeleteModal(filename)] *)
Definition showDeleteModal (filename : jsstring) : M vars unit :=
  set_fileToDelete (Some filename) ;;
  emit (SetProp "deleteFilename" "textContent" filename) ;;
  emit (SetProp "deleteModal" "style.display" (lit "flex")).

(** The listeners of the page, in the order of the script. *)

Definition logoutBtn_click : M vars unit :=
  removeItem_token ;;
  emit (Navigate (lit "/login")).

Definition fileInput_change (files : list File) : M vars unit :=
  if (0 <? List.length files)%nat then uploadFiles files else ret tt.

Definition uploadArea_dragover : M vars unit :=
  emit (SetProp "uploadArea" "classList.add" (lit "dragover")).

Definition uploadArea_dragleave : M vars unit :=
  emit (SetProp "uploadArea" "classList.remove" (lit "dragover")).

Definition uploadArea_drop (files : list File) : M vars unit :=
  emit (SetProp "uploadArea" "classList.remove" (lit "dragover")) ;;
  uploadFiles files.

Definition cancelDelete_click : M vars unit :=
  emit (SetProp "deleteModal" "style.display" (lit "none")) ;;
  set_fileToDelete None.

Definition confirmDelete_click : M vars unit :=
  v <- get_page ;;
  if negb (truthy (fileToDelete v)) then ret tt else
  try_catch
    (response <- await (fetch (delete_reply net)
       {| r_method := DELETE;
          r_url := API_BASE ++ tpl "/documents/" ++ null_to_string (fileToDelete v);
          r_headers := authHeaders v;
          r_body := NoBody |}) ;;
     if negb (ok response) then
       throw (Error (lit "Delete failed"))
     else
       v' <- get_page ;;
       showStatus (null_to_string (fileToDelete v') ++ tpl " deleted successfully")
                  (lit "success") ;;
       emit (SetProp "deleteModal" "style.display" (lit "none")) ;;
       set_fileToDelete None ;;
       loadDocuments)
    (fun error =>
       emit (ConsoleError (lit "Delete error:") (message error)) ;;
       showStatus (lit "Failed to delete document") (lit "error")).

(** The same listener around its [await].  The browser handles other
    events while the DELETE request is pending, and the listener reads
    [fileToDelete] again when it goes on.  [confirmDelete_sent] is the
    listener up to the [await]: it returns the request it sent, if any.
    [confirmDelete_settled] is the listener from the [await] on, run
    when the promise of the request [req] has settled with the outcome
    [o], on the page as it is then. *)
Definition confirmDelete_sent : M vars (option request) :=
  v <- get_page ;;
  if negb (truthy (fileToDelete v)) then ret None else
  let req :=
    {| r_method := DELETE;
       r_url := API_BASE ++ tpl "/documents/" ++ null_to_string (fileToDelete v);
       r_headers := authHeaders v;
       r_body := NoBody |} in
  send req ;;
  ret (Some req).

Definition confirmDelete_settled (req : request) (o : outcome unit) : M vars unit :=
  try_catch
    (response <- settle req o ;;
     if negb (ok response) then
       throw (Error (lit "Delete failed"))
     else
       v' <- get_page ;;
       showStatus (null_to_string (fileToDelete v') ++ tpl " deleted successfully")
                  (lit "success") ;;
       emit (SetProp "deleteModal" "style.display" (lit "none")) ;;
       set_fileToDelete None ;;
       loadDocuments)
    (fun error =>
       emit (ConsoleError (lit "Delete error:") (message error)) ;;
       showStatus (lit "Failed to delete document") (lit "error")).

(** [confirmed] is the answer of the user to the [confirm] dialog. *)
Definition rebuildIndexBtn_click (confirmed : bool) : M vars unit :=
  if negb confirmed then ret tt else
  try_catch
    (v <- get_page ;;
     response <- await (fetch (rebuild_reply net)
       {| r_method := POST;
          r_url := API_BASE ++ tpl "/rebuild-index";
          r_headers := authHeaders v;
          r_body := NoBody |}) ;;
     if negb (ok response) then
       throw (Error (lit "Rebuild failed"))
     else
       showStatus (lit "Index rebuild initiated") (lit "success"))
    (fun error =>
       emit (ConsoleError (lit "Rebuild error:") (message error)) ;;
       showStatus (lit "Failed to rebuild index") (lit "error")).

Definition systemStatusBtn_click : M vars unit :=
  try_catch
    (response <- await (fetch (health_reply net)
       {| r_method := GET;
          r_url := lit "/health";
          r_headers := [];
          r_body := NoBody |}) ;;
     data <- response_json response ;;
     emit (Alert (tpl "System Status: " ++ to_string (health_status data)
                    ++ [10%N] ++ tpl "Version: " ++ to_string (health_version data))))
    (fun error =>
       emit (ConsoleError (lit "Status error:") (message error)) ;;
       showStatus (lit "Failed to get system status") (lit "error")).

(** The script from top to bottom, run when the page loads with
    [stored] in [localStorage] under the key ['token']: the token check,
    the declarations, and the call [loadDocuments()] of the last line.
    Assigning [window.location.href] starts a navigation; it does not end
    the script. *)
Definition main (stored : option jsstring) : result unit * state vars * list event :=
  let token := stored in
  ((if negb (truthy token) then emit (Navigate (lit "/login")) else ret tt) ;;
   loadDocuments)
    {| stored_token := stored;
       issued := 0;
       page := {| token := token; fileToDelete := None |} |}.

(** ** The page as a state machine

    After the script ran, the page reacts to user events, one listener
    at a time. *)
Inductive action :=
| Logout
| ChooseFiles (files : list File)
| DropFiles (files : list File)
| ClickDelete (filename : jsstring)   (** the delete button of a row *)
| CancelDelete
| ConfirmDelete
| Refresh
| RebuildIndex (confirmed : bool)
| SystemStatus.

Definition handle (a : action) : M vars unit :=
  match a with
  | Logout => emit (Dispatch "logoutBtn" "click" []) ;; logoutBtn_click
  | ChooseFiles files => emit (Dispatch "fileInput" "change" []) ;; fileInput_change files
  | DropFiles files => emit (Dispatch "uploadArea" "drop" []) ;; uploadArea_drop files
  | ClickDelete f => emit (Dispatch "delete-btn" "click" f) ;; showDeleteModal f
  | CancelDelete => emit (Dispatch "cancelDelete" "click" []) ;; cancelDelete_click
  | ConfirmDelete => emit (Dispatch "confirmDelete" "click" []) ;; confirmDelete_click
  | Refresh => emit (Dispatch "refreshBtn" "click" []) ;; loadDocuments
  | RebuildIndex c => emit (Dispatch "rebuildIndexBtn" "click" []) ;; rebuildIndexBtn_click c
  | SystemStatus => emit (Dispatch "systemStatusBtn" "click" []) ;; systemStatusBtn_click
  end.

Fixpoint run (acts : list action) : M vars unit :=
  match acts with
  | [] => ret tt
  | a :: acts' => handle a ;; run acts'
  end.

(** ** The page while DELETE requests are pending

    What happens on the page, moment by moment, when the confirm
    listener is interrupted at its [await]: a user event (a click on the
    confirm button runs the listener up to its [await], and the request
    it sent joins the pending ones), or the settlement of the [k]-th
    pending DELETE request (from 0) with some outcome, which runs the
    rest of the listener that sent it. *)
Inductive moment :=
| User (a : action)
| DeleteSettles (k : nat) (o : outcome unit).

Definition play_moment (m : moment) (pending : list request)
  : M vars (list request) :=
  match m with
  | User ConfirmDelete =>
      emit (Dispatch "confirmDelete" "click" []) ;;
      r <- confirmDelete_sent ;;
      ret (match r with
           | Some req => pending ++ [req]
           | None => pending
           end)
  | User a => handle a ;; ret pending
  | DeleteSettles k o =>
      match nth_error pending k with
      | Some req =>
          confirmDelete_settled req o ;;
          ret (firstn k pending ++ skipn (S k) pending)
      | None => ret pending
      end
  end.

Fixpoint play (ms : list moment) (pending : list request)
  : M vars (list request) :=
  match ms with
  | [] => ret pending
  | m :: ms' => pending' <- play_moment m pending ;; play ms' pending'
  end.

End Page.

End Admin.

(* ================================================================== *)
(** * The query endpoint, shared by the two query clients *)
(* ================================================================== *)

Module Query.

Record Source := {
  s_type : jsstring;
  s_filename : jsstring;
  s_content : option jsstring }.

Record Answer := {
  answer : jsstring;
  sources : option (list Source);
  processing_time : Q }.

Definition API_BASE : jsstring := lit "/api".

Definition query_request (question : jsstring) : request :=
  {| r_method := POST;
     r_url := API_BASE ++ tpl "/query";
     r_headers := [(lit "Content-Type", lit "application/json")];
     r_body := JsonQuery question 10 |}.

(** [data.sources && data.sources.length > 0] *)
Definition has_sources (data : Answer) : bool :=
  match sources data with
  | Some (_ :: _) => true
  | _ => false
  end.

Definition sources_list (data : Answer) : list Source :=
  match sources data with
  | Some l => l
  | None => []
  end.

End Query.

Import Query.

(* ================================================================== *)
(** * app.js: the single-shot query client *)
(* ================================================================== *)

Module App.

Local Open Scope js_scope.

(** The state of the page the script reads: the text of [queryInput]. *)
Record vars := { queryInput_value : jsstring }.

(** [function getSourceIcon(type)] *)
Definition getSourceIcon (type : jsstring) : value :=
  let icons :=
    [ (lit "pdf", [55357; 56533]%N);
      (lit "word", [55357; 56516]%N);
      (lit "excel", [55357; 56522]%N) ] in
  or_else (get icons type) (Str [55357; 56516]%N).

Section Page.

Variable query_reply : nat -> request -> outcome Answer.
Variable toUpperCase : jsstring -> jsstring.
Variable native_source : string -> jsstring.

(** [function createSourceElement(source, index)] *)
Definition createSourceElement (source : Source) (index : nat) : element :=
  let icon := getSourceIcon (s_type source) in
  let typeLabel := toUpperCase (s_type source) in
  {| e_id := [];
     e_className := lit "source-item";
     e_innerHTML :=
       tpl "
        <div class='source-icon'>" ++ template_value native_source icon ++ tpl "</div>
        <div class='source-info'>
            <div>
                <span class='source-type'>" ++ typeLabel ++ tpl "</span>
                <span class='source-filename'>" ++ s_filename source ++ tpl "</span>
            </div>
            " ++ (if truthy (s_content source)
                  then tpl "<div class='source-content'>"
                         ++ null_to_string (s_content source) ++ tpl "</div>"
                  else []) ++ tpl "
        </div>
    " |}.

Fixpoint appendSources (l : list Source) (index : nat) : M vars unit :=
  match l with
  | [] => ret tt
  | source :: rest =>
      emit (Append "sourcesContent" (createSourceElement source (index + 1))) ;;
      appendSources rest (S index)
  end.

(** [function displayResults(data)] *)
Definition displayResults (data : Answer) : M vars unit :=
  emit (SetProp "resultsSection" "style.display" (lit "block")) ;;
  emit (SetProp "answerContent" "textContent" (answer data)) ;;
  emit (SetProp "processingTime" "textContent" (toFixed2 (processing_time data))) ;;
  emit (SetProp "sourcesContent" "innerHTML" []) ;;
  (if has_sources data then appendSources (sources_list data) 0
   else emit (SetProp "sourcesContent" "innerHTML"
          (tpl "<p style='color: var(--text-secondary);'>No sources found</p>"))) ;;
  emit (ScrollIntoView "resultsSection").

(** [async function submitQuery()] *)
Definition submitQuery : M vars unit :=
  v <- get_page ;;
  let question := trim (queryInput_value v) in
  if negb (truthy (Some question)) then
    emit (Alert (lit "Please enter a question"))
  else
    emit (SetProp "submitBtn" "disabled" (lit "true")) ;;
    emit (SetProp "submitBtn .btn-text" "style.display" (lit "none")) ;;
    emit (SetProp "submitBtn .btn-loading" "style.display" (lit "inline-block")) ;;
    emit (SetProp "emptyState" "style.display" (lit "none")) ;;
    emit (SetProp "resultsSection" "style.display" (lit "none")) ;;
    try_finally
      (try_catch
         (response <- await (fetch query_reply (query_request question)) ;;
          if negb (ok response) then
            throw (Error (lit "Query failed"))
          else
            data <- response_json response ;;
            displayResults data)
         (fun error =>
            emit (ConsoleError (lit "Error:") (message error)) ;;
            emit (Alert (lit "Failed to process query. Please try again."))))
      (emit (SetProp "submitBtn" "disabled" (lit "false")) ;;
       emit (SetProp "submitBtn .btn-text" "style.display" (lit "inline")) ;;
       emit (SetProp "submitBtn .btn-loading" "style.display" (lit "none"))).

(** The listeners: an example button fills the input and submits; the
    submit button and Ctrl+Enter submit. *)
Definition exampleBtn_click (query : jsstring) : M vars unit :=
  put_page {| queryInput_value := query |} ;;
  submitQuery.

Definition submitBtn_click : M vars unit := submitQuery.

Definition queryInput_keydown (key : jsstring) (ctrlKey : bool) : M vars unit :=
  if ctrlKey && eqb key (lit "Enter") then submitQuery else ret tt.

End Page.

End App.

(* ================================================================== *)
(** * The chat-style query client *)
(* ================================================================== *)

Module Chat.

Local Open Scope js_scope.

Record ChatTurn := {
  t_question : jsstring;
  t_answer : jsstring;
  t_sources : option (list Source);
  t_timestamp : Z }.

(** The state the script reads and writes: the text of [chatInput],
    [let chatHistory], and whether the transcript still holds the
    [.welcome-message] element. *)
Record vars := {
  chatInput_value : jsstring;
  chatHistory : list ChatTurn;
  welcome : bool }.

(** [function scrollToBottom()] *)
Definition scrollToBottom : M vars unit :=
  emit (SetTimeout 100 "chatContainer" "scrollTop" (lit "scrollHeight")).

(** [function escapeHtml(text)] *)
Definition escapeHtml (text : jsstring) : jsstring :=
  if negb (truthy (Some text)) then [] else serialize_text text.

(** [function getSourceIcon(type)] *)
Definition getSourceIcon (type : jsstring) : value :=
  let icons :=
    [ (lit "pdf", [55357; 56533]%N);
      (lit "word", [55357; 56516]%N);
      (lit "excel", [55357; 56522]%N) ] in
  or_else (get icons type) (Str [55357; 56516]%N).

(** The callback of [paragraphs.map] in [formatAnswer]. *)
Definition formatParagraph (p : jsstring) : jsstring :=
  let p := trim p in
  if negb (truthy (Some p)) then []
  else if matches_ordinal p then
    tpl "<div class='list-item'>" ++ escapeHtml p ++ tpl "</div>"
  else tpl "<p>" ++ escapeHtml p ++ tpl "</p>".

(** [function formatAnswer(text)] *)
Definition formatAnswer (text : jsstring) : jsstring :=
  if negb (truthy (Some text)) then [] else
  let paragraphs := split_blank [] text in
  let formatted := join (map formatParagraph paragraphs) in
  formatted.

(** [function addUserMessage(text)] *)
Definition addUserMessage (text : jsstring) : M vars unit :=
  emit (Append "chatContainer"
    {| e_id := [];
       e_className := lit "chat-message user-message";
       e_innerHTML := tpl "
        <div class='message-content'>
            <div class='message-avatar user-avatar'>" ++ [55357; 56420]%N ++ tpl "</div>
            <div class='message-text'>" ++ escapeHtml text ++ tpl "</div>
        </div>
    " |}) ;;
  scrollToBottom.

(** [function addErrorMessage(text)] *)
Definition addErrorMessage (text : jsstring) : M vars unit :=
  emit (Append "chatContainer"
    {| e_id := [];
       e_className := lit "chat-message assistant-message error-message";
       e_innerHTML := tpl "
        <div class='message-content'>
            <div class='message-avatar assistant-avatar'>" ++ [9888; 65039]%N ++ tpl "</div>
            <div class='message-text'>
                <div class='answer-text'>" ++ escapeHtml text ++ tpl "</div>
            </div>
        </div>
    " |}) ;;
  scrollToBottom.

(** [function removeLoadingMessage(loadingId)] *)
Definition removeLoadingMessage (loadingId : jsstring) : M vars unit :=
  emit (RemoveElement loadingId).

Section Page.

Variable query_reply : nat -> request -> outcome Answer.
Variable native_source : string -> jsstring.

(** [Date.now()] *)
Variable now : Z.

(** The body of [sources.slice(0, 5).forEach] in [createSourcesHTML]. *)
Definition sourceTag (source : Source) : jsstring :=
  let icon := getSourceIcon (s_type source) in
  tpl "
            <div class='source-tag' title='" ++ escapeHtml (s_filename source) ++ tpl "'>
                " ++ template_value native_source icon ++ tpl " " ++ escapeHtml (s_filename source) ++ tpl "
            </div>
        ".

(** [function createSourcesHTML(sources)] *)
Definition createSourcesHTML (sources : option (list Source)) : jsstring :=
  match sources with
  | None | Some [] => []
  | Some l =>
      let html := tpl "<div class='sources-compact'>" in
      let html := html ++ tpl "<p class='sources-label'>" ++ [55357; 56538]%N
                       ++ tpl " Sources:</p>" in
      let html := html ++ tpl "<div class='sources-list-compact'>" in
      let html := html ++ join (map sourceTag (firstn 5 l)) in
      let html := html ++ tpl "</div></div>" in
      html
  end.

(** [function addAssistantMessage(data)] *)
Definition addAssistantMessage (data : Answer) : M vars unit :=
  let formattedAnswer := formatAnswer (answer data) in
  emit (Append "chatContainer"
    {| e_id := [];
       e_className := lit "chat-message assistant-message";
       e_innerHTML := tpl "
        <div class='message-content'>
            <div class='message-avatar assistant-avatar'>" ++ [55358; 56598]%N ++ tpl "</div>
            <div class='message-text'>
                <div class='answer-text'>" ++ formattedAnswer ++ tpl "</div>
                " ++ (if has_sources data then createSourcesHTML (sources data) else [])
                  ++ tpl "
                <div class='message-meta'>
                    <small>" ++ [9201; 65039]%N ++ tpl " "
                  ++ toFixed2 (processing_time data) ++ tpl "s</small>
                </div>
            </div>
        </div>
    " |}) ;;
  scrollToBottom.

(** [function addLoadingMessage()] *)
Definition addLoadingMessage : M vars jsstring :=
  let loadingId := tpl "loading-" ++ int_to_string now in
  emit (Append "chatContainer"
    {| e_id := loadingId;
       e_className := lit "chat-message assistant-message";
       e_innerHTML := tpl "
        <div class='message-content'>
            <div class='message-avatar assistant-avatar'>" ++ [55358; 56598]%N ++ tpl "</div>
            <div class='message-text'>
                <div class='typing-indicator'>
                    <span></span>
                    <span></span>
                    <span></span>
                </div>
            </div>
        </div>
    " |}) ;;
  scrollToBottom ;;
  ret loadingId.

(** [async function sendMessage()] *)
Definition sendMessage : M vars unit :=
  v <- get_page ;;
  let question := trim (chatInput_value v) in
  emit (ConsoleLog (lit "Sending message:") question) ;;
  if negb (truthy (Some question)) then
    emit (ConsoleLog (lit "Empty question, ignoring") [])
  else
    (if welcome v then
       emit (RemoveElement (lit ".welcome-message")) ;;
       put_page {| chatInput_value := chatInput_value v;
                   chatHistory := chatHistory v;
                   welcome := false |}
     else ret tt) ;;
    addUserMessage question ;;
    v1 <- get_page ;;
    put_page {| chatInput_value := [];
                chatHistory := chatHistory v1;
                welcome := welcome v1 |} ;;
    emit (SetProp "chatInput" "style.height" (lit "auto")) ;;
    loadingId <- addLoadingMessage ;;
    emit (SetProp "sendBtn" "disabled" (lit "true")) ;;
    emit (SetProp "chatInput" "disabled" (lit "true")) ;;
    try_finally
      (try_catch
         (emit (ConsoleLog (lit "Calling API...") []) ;;
          response <- await (fetch query_reply (query_request question)) ;;
          emit (ConsoleLog (lit "API response status:") (int_to_string (status response))) ;;
          if negb (ok response) then
            let errorText := text response in
            emit (ConsoleError (lit "API error:") errorText) ;;
            throw (Error (tpl "Query failed: " ++ int_to_string (status response)))
          else
            data <- response_json response ;;
            emit (ConsoleLog (lit "API response data:") (answer data)) ;;
            removeLoadingMessage loadingId ;;
            addAssistantMessage data ;;
            v' <- get_page ;;
            put_page {| chatInput_value := chatInput_value v';
                        chatHistory := chatHistory v' ++
                          [ {| t_question := question;
                               t_answer := answer data;
                               t_sources := sources data;
                               t_timestamp := now |} ];
                        welcome := welcome v' |})
         (fun error =>
            emit (ConsoleError (lit "Error:") (message error)) ;;
            removeLoadingMessage loadingId ;;
            addErrorMessage (tpl "Failed to process query: " ++ message error)))
      (emit (SetProp "sendBtn" "disabled" (lit "false")) ;;
       emit (SetProp "chatInput" "disabled" (lit "false")) ;;
       emit (Focus "chatInput")).

(** [function autoResizeTextarea()]; [scrollHeight] is what the browser
    reports as [chatInput.scrollHeight] once the height is [auto]. *)
Definition autoResizeTextarea (scrollHeight : Z) : M vars unit :=
  emit (SetProp "chatInput" "style.height" (lit "auto")) ;;
  emit (SetProp "chatInput" "style.height"
          (int_to_string (Z.min scrollHeight 200) ++ lit "px")).

(** [function startNewChat()]; [confirmed] is the answer of the user to
    the [confirm] dialog.  The new content of the transcript is the
    welcome message, whose example buttons get their listeners again. *)
Definition startNewChat (confirmed : bool) : M vars unit :=
  if negb confirmed then ret tt else
  v <- get_page ;;
  put_page {| chatInput_value := chatInput_value v;
              chatHistory := [];
              welcome := welcome v |} ;;
  emit (SetProp "chatContainer" "innerHTML" (tpl "
        <div class='welcome-message'>
            <div class='empty-icon'>" ++ [55357; 56492]%N ++ tpl "</div>
            <h3>Start a new conversation</h3>
            <p>Ask questions about your documents</p>
            
            <div class='example-queries-chat'>
                <p class='example-label'>Example questions:</p>
                <div class='example-buttons'>
                    <button class='example-btn' data-query='What was the average Central European ethylene price in May 2024?'>
                        " ++ [55357; 56522]%N ++ tpl " Ethylene prices
                    </button>
                    <button class='example-btn' data-query='Compare Russian ethylene production in Q1 2024 versus Q1 2025'>
                        " ++ [55357; 56520]%N ++ tpl " Production comparison
                    </button>
                    <button class='example-btn' data-query='What were Czech crude imports in Jan-Mar 2025?'>
                        " ++ [55357; 57058; 65039]%N ++ tpl " Import data
                    </button>
                </div>
            </div>
        </div>
    ")) ;;
  v1 <- get_page ;;
  put_page {| chatInput_value := chatInput_value v1;
              chatHistory := chatHistory v1;
              welcome := true |} ;;
  v2 <- get_page ;;
  put_page {| chatInput_value := [];
              chatHistory := chatHistory v2;
              welcome := welcome v2 |} ;;
  emit (SetProp "chatInput" "style.height" (lit "auto")) ;;
  emit (Focus "chatInput").

(** The listeners of the page, as [DOMContentLoaded] and [startNewChat]
    attach them. *)
Definition chatInput_input (scrollHeight : Z) : M vars unit :=
  autoResizeTextarea scrollHeight.

Definition sendBtn_click : M vars unit :=
  emit (ConsoleLog (lit "Send button clicked") []) ;;
  sendMessage.

Definition chatInput_keydown (key : jsstring) (shiftKey : bool) : M vars unit :=
  if eqb key (lit "Enter") && negb shiftKey then
    emit (ConsoleLog (lit "Enter pressed") []) ;;
    sendMessage
  else ret tt.

Definition exampleBtn_click (query : jsstring) (scrollHeight : Z) : M vars unit :=
  v <- get_page ;;
  put_page {| chatInput_value := query;
              chatHistory := chatHistory v;
              welcome := welcome v |} ;;
  emit (Focus "chatInput") ;;
  autoResizeTextarea scrollHeight.

Definition newChatBtn_click (confirmed : bool) : M vars unit :=
  startNewChat confirmed.

(** What the script does once the document is loaded, after attaching
    the listeners. *)
Definition DOMContentLoaded : M vars unit :=
  emit (ConsoleLog (lit "Chat interface loaded") []) ;;
  emit (Focus "chatInput").

End Page.

End Chat.

(* ================================================================== *)
(** * How the browser reads markup back *)
(* ================================================================== *)

Module Markup.

(** Character references the HTML parser decodes in text; after a
    reference, decoding goes on behind it.  [fuel] bounds the number of
    steps, the length of the input is enough. *)
Definition references : list (jsstring * code_unit) :=
  [ (lit "&amp;", 38%N); (lit "&lt;", 60%N); (lit "&gt;", 62%N);
    (lit "&nbsp;", 160%N); (lit "&quot;", 34%N) ].

Fixpoint match_reference (refs : list (jsstring * code_unit)) (s : jsstring)
  : option (code_unit * jsstring) :=
  match refs with
  | [] => None
  | (name, c) :: refs' =>
      if starts_with name s then Some (c, skipn (List.length name) s)
      else match_reference refs' s
  end.

Fixpoint unescape_fuel (fuel : nat) (s : jsstring) : jsstring :=
  match fuel with
  | O => s
  | S fuel' =>
      match s with
      | [] => []
      | c :: s' =>
          match match_reference references s with
          | Some (d, rest) => d :: unescape_fuel fuel' rest
          | None => c :: unescape_fuel fuel' s'
          end
      end
  end.

Definition unescape (s : jsstring) : jsstring :=
  unescape_fuel (List.length s) s.

(** The text outside tags: a less-than sign opens a tag, which runs to
    the next greater-than sign. *)
Fixpoint strip_tags (in_tag : bool) (s : jsstring) : jsstring :=
  match s with
  | [] => []
  | c :: s' =>
      if in_tag then strip_tags (negb (N.eqb c 62)) s'
      else if N.eqb c 60 then strip_tags true s'
      else c :: strip_tags false s'
  end.

(** Before it reads the markup, the parser normalises the newlines: a
    carriage return followed by a line feed, and a carriage return on its
    own, become one line feed. *)
Fixpoint normalize_newlines (s : jsstring) : jsstring :=
  match s with
  | [] => []
  | c :: s' =>
      if N.eqb c 13 then
        10%N :: match s' with
                | c' :: s'' =>
                    if N.eqb c' 10 then normalize_newlines s''
                    else normalize_newlines s'
                | [] => []
                end
      else c :: normalize_newlines s'
  end.

(** In the content of an element the tree builder ignores the character
    U+0000. *)
Definition drop_null (s : jsstring) : jsstring :=
  filter (fun c => negb (N.eqb c 0)) s.


(** The text a fragment of markup renders as ([textContent] of the
    element whose [innerHTML] it is), for the markup the chat client
    builds: tags from its templates around escaped text. *)
Definition rendered_text (html : jsstring) : jsstring :=
  drop_null (unescape (strip_tags false (normalize_newlines html))).

End Markup.

(* ================================================================== *)
(** * Vocabulary of the properties *)
(* ================================================================== *)

Module Trace.

(** The number of requests in flight after a trace that starts with [n]
    of them in flight, provided there never were two at once and nothing
    settled that was not in flight. *)
Fixpoint flight (n : nat) (tr : list event) : option nat :=
  match tr with
  | [] => Some n
  | Fetch _ :: tr' => if (n =? 0)%nat then flight 1 tr' else None
  | Settled _ _ :: tr' => if (n =? 1)%nat then flight 0 tr' else None
  | _ :: tr' => flight n tr'
  end.

(** Requests go out one at a time, and all have settled at the end. *)
Definition one_at_a_time (tr : list event) : Prop := flight 0 tr = Some 0%nat.

(** Writes to the page only: no request, no navigation, no storage
    access, no dialog. *)
Definition is_dom (e : event) : bool :=
  match e with
  | SetProp _ _ _ | SetPercent _ _ _ | Append _ _ | RemoveElement _
  | Focus _ | ScrollIntoView _ | SetTimeout _ _ _ _
  | ConsoleLog _ _ | ConsoleError _ _ => true
  | _ => false
  end.

Definition is_navigate (e : event) : bool :=
  match e with
  | Navigate _ => true
  | _ => false
  end.

Definition is_alert (e : event) : bool :=
  match e with
  | Alert _ => true
  | _ => false
  end.

Definition is_delete (e : event) : bool :=
  match e with
  | Fetch {| r_method := DELETE |} => true
  | _ => false
  end.


End Trace.

Import Trace.

Module AdminSpec.

Import Admin.

Definition documents_request (v : vars) : request :=
  {| r_method := GET;
     r_url := lit "/api/admin/documents";
     r_headers := authHeaders v;
     r_body := NoBody |}.

Definition upload_request (v : vars) (file : File) : request :=
  {| r_method := POST;
     r_url := lit "/api/admin/upload";
     r_headers := authHeaders v;
     r_body := FormData (lit "file") file |}.

Definition delete_request (v : vars) (f : jsstring) : request :=
  {| r_method := DELETE;
     r_url := lit "/api/admin/documents/" ++ f;
     r_headers := authHeaders v;
     r_body := NoBody |}.

(** The notices [loadDocuments] writes into the table: while it loads,
    and when it failed. *)
Definition loading_html : jsstring :=
  tpl "<div class='table-loading'><span class='spinner'></span> Loading documents...</div>".

Definition load_error_html : jsstring :=
  tpl "<p style='color: var(--danger-color); padding: 2rem; text-align: center;'>Failed to load documents</p>".

(** A backend that answers every request with the given status and an
    unreadable body. *)
Definition reply_status {A} (st : Z) : nat -> request -> outcome A :=
  fun _ _ => Responded {| status := st; text := []; json := Unreadable [] |}.

Definition backend_status (st : Z) : network :=
  {| upload_reply := reply_status st;
     documents_reply := reply_status st;
     delete_reply := reply_status st;
     rebuild_reply := reply_status st;
     health_reply := reply_status st |}.

(** A page that loaded with the session token [t]. *)
Definition logged_in (t : jsstring) : state vars :=
  {| stored_token := Some t;
     issued := 0;
     page := {| token := Some t; fileToDelete := None |} |}.

(** The state after one more request went out. *)
Definition sent (s : state vars) : state vars :=
  {| stored_token := stored_token s; issued := S (issued s); page := page s |}.

(** A page whose modal is open for the file [f]. *)
Definition modal_open (t f : jsstring) : state vars :=
  {| stored_token := Some t;
     issued := 0;
     page := {| token := Some t; fileToDelete := Some f |} |}.

(** An endpoint that answers 200 with the body [a]. *)
Definition accept {A} (a : A) : nat -> request -> outcome A :=
  fun _ _ => Responded {| status := 200; text := []; json := Body a |}.

(** A backend that is unreachable for the first request, an upload, and
    accepts every later request. *)
Definition flaky_backend : network :=
  {| upload_reply := fun n r =>
       match n with
       | O => Rejected (lit "Failed to fetch")
       | _ => accept {| detail := None |} n r
       end;
     documents_reply := accept [];
     delete_reply := accept tt;
     rebuild_reply := accept tt;
     health_reply := accept {| health_status := None; health_version := None |} |}.



End AdminSpec.

Import AdminSpec.

Module QuerySpec.

(** A query client whose input holds [q]. *)
Definition app_page (q : jsstring) : state App.vars :=
  {| stored_token := None; issued := 0; page := {| App.queryInput_value := q |} |}.

Definition chat_page (q : jsstring) : state Chat.vars :=
  {| stored_token := None;
     issued := 0;
     page := {| Chat.chatInput_value := q;
                Chat.chatHistory := [];
                Chat.welcome := true |} |}.

(** A backend that is never reached. *)
Definition offline {A} : nat -> request -> outcome A :=
  fun _ _ => Rejected (lit "Failed to fetch").


(** The icon of a Word source. *)
Definition word_icon : jsstring := [55357; 56516]%N.




End QuerySpec.

Import QuerySpec.

Module Observe.

(** The children appended to [target], in order. *)
Fixpoint appended (target : string) (tr : list event) : list element :=
  match tr with
  | [] => []
  | Append t child :: tr' =>
      if String.eqb t target then child :: appended target tr' else appended target tr'
  | _ :: tr' => appended target tr'
  end.

(** The values written to [target.prop], in order. *)
Fixpoint written (target prop : string) (tr : list event) : list jsstring :=
  match tr with
  | [] => []
  | SetProp t p v :: tr' =>
      if String.eqb t target && String.eqb p prop then v :: written target prop tr'
      else written target prop tr'
  | _ :: tr' => written target prop tr'
  end.

(** The percentages the progress bar was set to, in order. *)
Fixpoint percents (tr : list event) : list double :=
  match tr with
  | [] => []
  | SetPercent _ _ v :: tr' => v :: percents tr'
  | _ :: tr' => percents tr'
  end.

(** The texts of the alerts, in order. *)
Fixpoint alerts (tr : list event) : list jsstring :=
  match tr with
  | [] => []
  | Alert msg :: tr' => msg :: alerts tr'
  | _ :: tr' => alerts tr'
  end.

(** The elements removed from the page, in order. *)
Fixpoint removed (tr : list event) : list jsstring :=
  match tr with
  | [] => []
  | RemoveElement id :: tr' => id :: removed tr'
  | _ :: tr' => removed tr'
  end.

Definition is_remove_item (e : event) : bool :=
  match e with
  | RemoveItem _ => true
  | _ => false
  end.

(** The code units the serialisation of a text node rewrites. *)
Definition needs_escape (c : code_unit) : bool :=
  N.eqb c 38 || N.eqb c 160 || N.eqb c 60 || N.eqb c 62.

(** The three icons of the icon table. *)
Definition icons : list jsstring :=
  [ [55357; 56533]%N; [55357; 56516]%N; [55357; 56522]%N ].

End Observe.

Import Observe.

Module AdminObserve.

Import Admin.

(** The message of the error [loadDocuments] catches, if any: the
    rejection of the request, the fixed error for a response outside the
    2xx range, the failure to read the body of a 2xx response, or the
    [TypeError] of a row that lost its delete button ([keeps] tells
    which documents keep it). *)
Definition load_failure (keeps : Document -> bool) (null_TypeError : jsstring)
    (o : outcome (list Document)) : option jsstring :=
  match o with
  | Rejected msg => Some msg
  | Responded r =>
      if ok r then
        match json r with
        | Unreadable msg => Some msg
        | Body docs => if forallb keeps docs then None else Some null_TypeError
        end
      else Some (lit "Failed to load documents")
  end.

(** Whether [uploadFile] returns: the response is in the 2xx range and
    its body can be read. *)
Definition upload_succeeds (o : outcome UploadJson) : bool :=
  match o with
  | Rejected _ => false
  | Responded r =>
      ok r && match json r with Body _ => true | Unreadable _ => false end
  end.

Definition rebuild_request (v : vars) : request :=
  {| r_method := POST;
     r_url := lit "/api/admin/rebuild-index";
     r_headers := authHeaders v;
     r_body := NoBody |}.

Definition health_request : request :=
  {| r_method := GET;
     r_url := lit "/health";
     r_headers := [];
     r_body := NoBody |}.

(** A request of the admin page carries the bearer header computed when
    the page loaded, unless it is the health check, which carries none. *)
Definition authorized (v : vars) (r : request) : Prop :=
  r_headers r = authHeaders v \/ r = health_request.

(** Whether a fetch got a response in the 2xx range. *)
Definition accepted {A} (o : outcome A) : bool :=
  match o with
  | Rejected _ => false
  | Responded r => ok r
  end.

(** The progress shown while the [k]-th of [n] files uploads (from 0):
    the double the script computes as [((k + 1) / n) * 100]. *)
Definition progress (n k : nat) : double :=
  double_mul (double_div (double_of_nat (k + 1)) (double_of_nat n))
             (double_of_nat 100).

(** The doubles 1 and 100, and the ones nearest to 100/3 and 200/3,
    which print as 33.33333333333333 and 66.66666666666666. *)
Definition double_one : double := S754_finite false 4503599627370496 (-52).

Definition double_hundred : double := S754_finite false 7036874417766400 (-46).

Definition double_third_of_hundred : double :=
  S754_finite false 4691249611844266 (-47).

Definition double_two_thirds_of_hundred : double :=
  S754_finite false 4691249611844266 (-46).

(** The four effects of [showStatus]. *)
Definition banner (message type : jsstring) : list event :=
  [ SetProp "statusMessage" "textContent" message;
    SetProp "statusMessage" "className" (lit "status-message status-" ++ type);
    SetProp "statusMessage" "style.display" (lit "block");
    SetTimeout 3000 "statusMessage" "style.display" (lit "none") ].

(** How the promise of a fetch settled. *)
Definition settlement_of {A} (o : outcome A) : settlement :=
  match o with
  | Rejected msg => Failed msg
  | Responded r => Fulfilled (status r)
  end.

(** The [tr] element of a document. *)
Definition row (toUpperCase toLocaleString : jsstring -> jsstring)
    (doc : Document) : element :=
  {| e_id := []; e_className := [];
     e_innerHTML := row_markup toUpperCase toLocaleString doc |}.

(** Whether the row of a document keeps its delete button. *)
Definition keeps_button (toUpperCase toLocaleString : jsstring -> jsstring)
    (has_delete_btn : jsstring -> bool) (doc : Document) : bool :=
  has_delete_btn (row_markup toUpperCase toLocaleString doc).

(** The documents in front of the first one whose row loses its button. *)
Fixpoint shown (keeps : Document -> bool) (docs : list Document) : list Document :=
  match docs with
  | [] => []
  | doc :: rest => if keeps doc then doc :: shown keeps rest else []
  end.

(** How the loop over the documents ends: with an exception when a row
    loses its button. *)
Definition rows_result (keeps : Document -> bool) (null_TypeError : jsstring)
    (docs : list Document) : result unit :=
  if forallb keeps docs then Ok tt else Throw (Error null_TypeError).

(** The rows [displayDocuments] appends to the table body. *)
Definition rows (toUpperCase toLocaleString : jsstring -> jsstring)
    (docs : list Document) : list event :=
  map (fun doc => Append "documentsList" (row toUpperCase toLocaleString doc)) docs.

(** The notice [displayDocuments] writes for an empty list. *)
Definition no_documents_html : jsstring :=
  tpl "<p style='color: var(--text-secondary); padding: 2rem; text-align: center;'>No documents uploaded yet</p>".

(** A write into the table of documents. *)
Definition table_write (e : event) : bool :=
  match e with
  | SetProp target prop _ =>
      String.eqb target "documentsTable" && String.eqb prop "innerHTML"
  | Append target _ =>
      String.eqb target "documentsTable" || String.eqb target "documentsList"
  | _ => false
  end.

(** What [loadDocuments] emits after the request settled with an error
    of message [m]. *)
Definition load_error_events (m : jsstring) : list event :=
  [ ConsoleError (lit "Error loading documents:") m;
    SetProp "documentsTable" "innerHTML" load_error_html ]
  ++ (if includes m (lit "401")
      then [RemoveItem (lit "token"); Navigate (lit "/login")]
      else []).

(** The banner an upload ends with. *)
Definition upload_banner (o : outcome UploadJson) (file : File) : jsstring :=
  if upload_succeeds o then name file ++ lit " uploaded successfully"
  else lit "Failed to upload " ++ name file.

(** The banners of a batch of uploads whose first request is the
    [n]-th of the page: one per file, each for the outcome of its own
    request. *)
Fixpoint upload_banners (net : network) (v : vars) (n : nat) (files : list File)
  : list jsstring :=
  match files with
  | [] => []
  | file :: rest =>
      upload_banner (upload_reply net n (upload_request v file)) file
        :: upload_banners net v (S n) rest
  end.

(** The message of the error the confirm listener catches. *)
Definition delete_error {A} (o : outcome A) : jsstring :=
  match o with
  | Rejected msg => msg
  | Responded _ => lit "Delete failed"
  end.

(** The page after a DELETE request went out and was accepted: no file
    to delete is held any more. *)
Definition disarmed (s : state vars) : state vars :=
  {| stored_token := stored_token s;
     issued := S (issued s);
     page := {| token := token (page s); fileToDelete := None |} |}.

(** The page once the confirm listener has forgotten the file. *)
Definition forgotten (s : state vars) : state vars :=
  {| stored_token := stored_token s;
     issued := issued s;
     page := {| token := token (page s); fileToDelete := None |} |}.

(** The page after a click on the delete button of the file [f]. *)
Definition chosen (f : jsstring) (s : state vars) : state vars :=
  {| stored_token := stored_token s;
     issued := issued s;
     page := {| token := token (page s); fileToDelete := Some f |} |}.

(** The DELETE requests of a trace. *)
Definition deletes (tr : list event) : list request :=
  filter (fun r => match r_method r with DELETE => true | _ => false end)
         (requests tr).

(** What the parser answers when a comment swallows the rest of a row:
    the row has its delete button unless its markup opens a comment
    (nothing in a row closes one). *)
Definition comment_swallows (markup : jsstring) : bool :=
  negb (includes markup (lit "<!--")).

(** A document of the given file name. *)
Definition pdf (filename : jsstring) : Document :=
  {| filename := filename;
     type := lit ".pdf";
     size := 1024;
     upload_date := lit "2024-05-01";
     indexed := true |}.

(** A backend that is never reached: every request is rejected with the
    message [msg]. *)
Definition unreachable (msg : jsstring) : network :=
  {| upload_reply := fun _ _ => Rejected msg;
     documents_reply := fun _ _ => Rejected msg;
     delete_reply := fun _ _ => Rejected msg;
     rebuild_reply := fun _ _ => Rejected msg;
     health_reply := fun _ _ => Rejected msg |}.

(** A backend that refuses every upload with status 400 and the detail
    [d] in a readable body. *)
Definition upload_refused (d : option jsstring) : network :=
  {| upload_reply := fun _ _ =>
       Responded {| status := 400; text := []; json := Body {| detail := d |} |};
     documents_reply := reply_status 400;
     delete_reply := reply_status 400;
     rebuild_reply := reply_status 400;
     health_reply := reply_status 400 |}.

End AdminObserve.

Import AdminObserve.

Module QueryObserve.

(** What a query client gets back, seen from the script: the answer, or
    the message of the error it catches ([failed] is the message the
    script throws itself for a response outside the 2xx range). *)
Definition query_result (failed : Z -> jsstring) (o : outcome Answer)
  : jsstring + Answer :=
  match o with
  | Rejected msg => inl msg
  | Responded r =>
      if ok r then
        match json r with
        | Unreadable msg => inl msg
        | Body data => inr data
        end
      else inl (failed (status r))
  end.

(** The effects that put the single-shot client into its pending state,
    and those that take it out. *)
Definition app_pending : list event :=
  [ SetProp "submitBtn" "disabled" (lit "true");
    SetProp "submitBtn .btn-text" "style.display" (lit "none");
    SetProp "submitBtn .btn-loading" "style.display" (lit "inline-block");
    SetProp "emptyState" "style.display" (lit "none");
    SetProp "resultsSection" "style.display" (lit "none") ].

Definition app_idle : list event :=
  [ SetProp "submitBtn" "disabled" (lit "false");
    SetProp "submitBtn .btn-text" "style.display" (lit "inline");
    SetProp "submitBtn .btn-loading" "style.display" (lit "none") ].

Definition chat_idle : list event :=
  [ SetProp "sendBtn" "disabled" (lit "false");
    SetProp "chatInput" "disabled" (lit "false");
    Focus "chatInput" ].

(** The state after one more request went out. *)
Definition requested {P} (s : state P) : state P :=
  {| stored_token := stored_token s; issued := S (issued s); page := page s |}.

(** The notice [displayResults] writes when there are no sources. *)
Definition no_sources_html : jsstring :=
  tpl "<p style='color: var(--text-secondary);'>No sources found</p>".

(** The turns a query adds to the history of the chat. *)
Definition new_turns (question : jsstring) (now : Z) (res : jsstring + Answer)
  : list Chat.ChatTurn :=
  match res with
  | inr data =>
      [ {| Chat.t_question := question;
           Chat.t_answer := answer data;
           Chat.t_sources := sources data;
           Chat.t_timestamp := now |} ]
  | inl _ => []
  end.

(** The message the chat client throws for a response outside the 2xx
    range, and the fixed one of the single-shot client. *)
Definition chat_failed (st : Z) : jsstring := lit "Query failed: " ++ int_to_string st.

Definition app_failed (st : Z) : jsstring := lit "Query failed".

(** The class of the bubble a chat query ends with. *)
Definition last_bubble_class (res : jsstring + Answer) : jsstring :=
  match res with
  | inr _ => lit "chat-message assistant-message"
  | inl _ => lit "chat-message assistant-message error-message"
  end.

End QueryObserve.

Import QueryObserve.

(* ================================================================== *)
(** * Properties *)
(* ================================================================== *)

(** ** Strings *)

Lemma eqb_eq (a b : jsstring) : eqb a b = true <-> a = b.
Proof.
  revert b; induction a as [|x a IH]; intros [|y b]; simpl;
    try (split; [discriminate | discriminate]); try tauto.
  rewrite andb_true_iff, N.eqb_eq, IH.
  split; [intros [-> ->]; reflexivity | intros H; inversion H; auto].
Qed.

Lemma eqb_neq (a b : jsstring) : eqb a b = false <-> a <> b.
Proof.
  rewrite <- eqb_eq. destruct (eqb a b); split; congruence.
Qed.

(** ** File sizes and badges *)

Lemma log2_1024 (bytes i : Z) :
  0 <= i -> 1024 ^ i <= bytes < 1024 ^ (i + 1) -> Z.log2 bytes / Z.log2 1024 = i.
Proof.
  intros Hi [Hlo Hhi].
  change (Z.log2 1024) with 10.
  change 1024 with (2 ^ 10) in Hlo, Hhi.
  rewrite <- Z.pow_mul_r in Hlo, Hhi by lia.
  assert (Hpos : 0 < bytes).
  { apply Z.lt_le_trans with (2 ^ (10 * i)); [apply Z.pow_pos_nonneg; lia | exact Hlo]. }
  assert (H1 : 10 * i <= Z.log2 bytes).
  { rewrite <- (Z.log2_pow2 (10 * i)) by lia. apply Z.log2_le_mono. exact Hlo. }
  assert (H2 : Z.log2 bytes < 10 * (i + 1)).
  { apply Z.log2_lt_pow2; [exact Hpos | exact Hhi]. }
  symmetry. apply Z.div_unique with (r := Z.log2 bytes - 10 * i); lia.
Qed.

Lemma Qfloor_hundredths (z : Z) :
  Qfloor (inject_Z z / inject_Z 100 * 100) = z.
Proof.
  rewrite <- (Qfloor_Z z) at 2. apply Qfloor_comp. field.
Qed.

Lemma Qfloor_round_quotient (b K i : Z) :
  0 <= i -> K = 1024 ^ i ->
  Qfloor (inject_Z b / Qpower (inject_Z 1024) (Qfloor (inject_Z i)) * inject_Z 100
          + (1 # 2))
  = (200 * b + K) / (2 * K).
Proof.
  intros Hi HK.
  assert (HKpos : 0 < K) by (subst K; apply Z.pow_pos_nonneg; lia).
  rewrite Zdiv_Qdiv. apply Qfloor_comp.
  rewrite Qfloor_Z, <- Zpower_Qpower, <- HK by exact Hi.
  rewrite inject_Z_plus, !inject_Z_mult.
  field. intros H. unfold Qeq in H. simpl in H. lia.
Qed.

Lemma floor_log_in_range (bytes i : Z) :
  0 <= i -> 1024 ^ i <= bytes < 1024 ^ (i + 1) ->
  Math_floor_log bytes 1024 = of_Z i.
Proof.
  intros Hi H. unfold Math_floor_log.
  assert (0 < 1024 ^ i) by (apply Z.pow_pos_nonneg; lia).
  destruct (Z.ltb_spec bytes 0); [lia|].
  rewrite (log2_1024 bytes i) by assumption. reflexivity.
Qed.

Lemma index_of_Z (arr : list jsstring) (i : Z) :
  0 <= i -> index arr (of_Z i) = nth_error arr (Z.to_nat i).
Proof.
  intros Hi. unfold index, of_Z. rewrite Qfloor_Z.
  assert (Qeq_bool (inject_Z i) (inject_Z i) = true) as -> by (apply Qeq_bool_iff; reflexivity).
  destruct (Z.leb_spec 0 i); [reflexivity | lia].
Qed.

(** The shape of the result for a positive size that lies between two
    consecutive powers of 1024. *)
Lemma formatFileSize_between (bytes i : Z) :
  0 <= i -> 1024 ^ i <= bytes < 1024 ^ (i + 1) ->
  Admin.formatFileSize bytes =
    hundredths_to_string ((200 * bytes + 1024 ^ i) / (2 * 1024 ^ i))
    ++ lit " "
    ++ to_string (nth_error [lit "Bytes"; lit "KB"; lit "MB"; lit "GB"] (Z.to_nat i)).
Proof.
  intros Hi H. unfold Admin.formatFileSize.
  assert (0 < 1024 ^ i) by (apply Z.pow_pos_nonneg; lia).
  destruct (Z.eqb_spec bytes 0); [lia|].
  cbv zeta. rewrite (floor_log_in_range bytes i), index_of_Z by assumption.
  f_equal.
  unfold of_Z, Math_pow, div, mul, Math_round, number_to_string, of_Z.
  rewrite (Qfloor_round_quotient bytes (1024 ^ i) i) by auto.
  rewrite Qfloor_hundredths. reflexivity.
Qed.

(** C7. [formatFileSize] uses base-1024 units (Bytes, KB, MB, GB) and
    rounds to two decimals: 0 gives "0 Bytes", 1024 gives "1 KB", 1536
    gives "1.5 KB", 1048576 gives "1 MB"; and for a size between
    [1024^i] and [1024^(i+1)], [i < 4], the result is the size divided by
    [1024^i], rounded to the nearest hundredth (halves upwards) and
    written without trailing zeros, followed by a space and the [i]-th
    unit. *)
Theorem formatFileSize_units :
  Admin.formatFileSize 0 = lit "0 Bytes" /\
  Admin.formatFileSize 1024 = lit "1 KB" /\
  Admin.formatFileSize 1536 = lit "1.5 KB" /\
  Admin.formatFileSize 1048576 = lit "1 MB" /\
  forall bytes i unit,
    1024 ^ i <= bytes < 1024 ^ (i + 1) ->
    nth_error [lit "Bytes"; lit "KB"; lit "MB"; lit "GB"] (Z.to_nat i) = Some unit ->
    0 <= i ->
    Admin.formatFileSize bytes =
      hundredths_to_string ((200 * bytes + 1024 ^ i) / (2 * 1024 ^ i))
      ++ lit " " ++ unit.
Proof.
  repeat split; try (vm_compute; reflexivity).
  intros bytes i unit H Hu Hi.
  rewrite (formatFileSize_between bytes i Hi H), Hu. reflexivity.
Qed.

Lemma formatFileSize_units_witness :
  Admin.formatFileSize 1153434 =
    hundredths_to_string ((200 * 1153434 + 1024 ^ 2) / (2 * 1024 ^ 2))
    ++ lit " " ++ lit "MB".
Proof.
  apply (proj2 (proj2 (proj2 (proj2 formatFileSize_units))) 1153434 2 (lit "MB")).
  - lia.
  - reflexivity.
  - lia.
Defined.





(** C8. [getBadgeClass] maps ".pdf" to the pdf badge, ".docx" and ".doc"
    to the word badge, ".xlsx" and ".xls" to the excel badge, and every
    other string to the pdf badge. *)
Theorem getBadgeClass_mapping :
  Admin.getBadgeClass (lit ".pdf") = lit "badge-pdf" /\
  Admin.getBadgeClass (lit ".docx") = lit "badge-word" /\
  Admin.getBadgeClass (lit ".doc") = lit "badge-word" /\
  Admin.getBadgeClass (lit ".xlsx") = lit "badge-excel" /\
  Admin.getBadgeClass (lit ".xls") = lit "badge-excel" /\
  forall type,
    ~ In type [lit ".docx"; lit ".doc"; lit ".xlsx"; lit ".xls"] ->
    Admin.getBadgeClass type = lit "badge-pdf".
Proof.
  repeat split; try reflexivity.
  intros type H. unfold Admin.getBadgeClass.
  destruct (eqb type (lit ".pdf")); [reflexivity|].
  destruct (eqb type (lit ".docx")) eqn:E1.
  { apply eqb_eq in E1. exfalso. apply H. simpl. auto. }
  destruct (eqb type (lit ".doc")) eqn:E2.
  { apply eqb_eq in E2. exfalso. apply H. simpl. auto. }
  destruct (eqb type (lit ".xlsx")) eqn:E3.
  { apply eqb_eq in E3. exfalso. apply H. simpl. auto. }
  destruct (eqb type (lit ".xls")) eqn:E4.
  { apply eqb_eq in E4. exfalso. apply H. simpl. auto 6. }
  reflexivity.
Qed.

Lemma getBadgeClass_mapping_witness :
  Admin.getBadgeClass (lit ".txt") = lit "badge-pdf".
Proof.
  apply (proj2 (proj2 (proj2 (proj2 (proj2 getBadgeClass_mapping)))) (lit ".txt")).
  intros H. simpl in H.
  repeat (destruct H as [H|H]; [discriminate H|]). exact H.
Defined.

(** ** Source icons *)

(** The fallback of [getSourceIcon] is the word icon: a type that names
    neither an own property of the icon table nor a property of
    [Object.prototype] gets it, and so does "word". *)
Lemma getSourceIcon_fallback (type : jsstring) :
  type <> lit "pdf" -> type <> lit "excel" ->
  lookup type Object_prototype = None ->
  App.getSourceIcon type = Str word_icon /\
  Chat.getSourceIcon type = Str word_icon.
Proof.
  intros Hp He Hproto.
  apply eqb_neq in Hp. apply eqb_neq in He.
  unfold App.getSourceIcon, Chat.getSourceIcon, get.
  cbn [lookup]. rewrite Hp, He.
  destruct (eqb type (lit "word")); [split; reflexivity|].
  rewrite Hproto. split; reflexivity.
Qed.

(** C10. [getSourceIcon] does not return the word icon for every type
    other than "pdf" and "excel": the icon table is an object literal,
    so a type that names a property of [Object.prototype] finds the
    inherited value, which is truthy, and the fallback is not taken.  For
    the type "constructor" both clients get the function [Object]. *)
Theorem getSourceIcon_constructor :
  App.getSourceIcon (lit "constructor") = Builtin "Object" /\
  Chat.getSourceIcon (lit "constructor") = Builtin "Object" /\
  lit "constructor" <> lit "pdf" /\ lit "constructor" <> lit "excel" /\
  Builtin "Object" <> Str word_icon.
Proof.
  repeat split; try reflexivity; discriminate.
Qed.

(** Sizes at and around the boundaries. *)

Example formatFileSize_half_rounds_up : Admin.formatFileSize 1152 = lit "1.13 KB".
Proof. vm_compute. reflexivity. Qed.

Example formatFileSize_below_next_unit : Admin.formatFileSize 1048575 = lit "1024 KB".
Proof. vm_compute. reflexivity. Qed.

Example formatFileSize_drops_zeros : Admin.formatFileSize 1029 = lit "1 KB".
Proof. vm_compute. reflexivity. Qed.

Example formatFileSize_largest : Admin.formatFileSize (1024 ^ 4 - 1) = lit "1024 GB".
Proof. vm_compute. reflexivity. Qed.

Example formatFileSize_one_terabyte : Admin.formatFileSize (1024 ^ 4) = lit "1 undefined".
Proof. vm_compute. reflexivity. Qed.

Example formatFileSize_negative : Admin.formatFileSize (-5) = lit "NaN undefined".
Proof. vm_compute. reflexivity. Qed.

(** ** Traces *)

Lemma requests_app (a b : list event) : requests (a ++ b) = requests a ++ requests b.
Proof.
  induction a as [|e a IH]; [reflexivity|].
  destruct e; simpl; rewrite ?IH; reflexivity.
Qed.

Lemma flight_app (n : nat) (a b : list event) :
  flight n (a ++ b) =
  match flight n a with
  | Some m => flight m b
  | None => None
  end.
Proof.
  revert n; induction a as [|e a IH]; intros n; [reflexivity|].
  destruct e; simpl; try apply IH.
  - destruct (n =? 0)%nat; [apply IH | reflexivity].
  - destruct (n =? 1)%nat; [apply IH | reflexivity].
Qed.

Lemma dom_requests (tr : list event) :
  forallb is_dom tr = true -> requests tr = [].
Proof.
  induction tr as [|e tr IH]; [reflexivity|].
  simpl. rewrite andb_true_iff. intros [He Htr].
  destruct e; try discriminate He; simpl; auto.
Qed.

Lemma dom_flight (n : nat) (tr : list event) :
  forallb is_dom tr = true -> flight n tr = Some n.
Proof.
  induction tr as [|e tr IH]; [reflexivity|].
  simpl. rewrite andb_true_iff. intros [He Htr].
  destruct e; try discriminate He; simpl; auto.
Qed.

Lemma dom_no_delete (tr : list event) :
  forallb is_dom tr = true -> existsb is_delete tr = false.
Proof.
  induction tr as [|e tr IH]; [reflexivity|].
  simpl. rewrite andb_true_iff. intros [He Htr].
  destruct e; try discriminate He; simpl; auto.
Qed.

(** Unfolding of the monad, down to the reply of the network. *)
Ltac run_script :=
  cbv beta iota zeta delta
    [await fetch send settle bind try_catch try_finally emit get_page put_page
     ret throw response_json p_outcome p_request removeItem_token message].

Ltac fold_requests s :=
  change {| r_method := GET; r_url := Admin.API_BASE ++ tpl "/documents";
            r_headers := Admin.authHeaders (page s); r_body := NoBody |}
    with (documents_request (page s)).

(** ** The admin page *)

Section AdminFacts.

Variable net : Admin.network.
Variable toUpperCase : jsstring -> jsstring.
Variable toLocaleString : jsstring -> jsstring.
Variable has_delete_btn : jsstring -> bool.
Variable null_TypeError : jsstring.

Local Abbreviation loadDocuments :=
  (Admin.loadDocuments net toUpperCase toLocaleString has_delete_btn null_TypeError).
Local Abbreviation displayDocuments :=
  (Admin.displayDocuments toUpperCase toLocaleString has_delete_btn null_TypeError).
Local Abbreviation appendRows :=
  (Admin.appendRows toUpperCase toLocaleString has_delete_btn null_TypeError).
Local Abbreviation uploadFiles :=
  (Admin.uploadFiles net toUpperCase toLocaleString has_delete_btn null_TypeError).
Local Abbreviation uploadLoop := (Admin.uploadLoop net).
Local Abbreviation uploadFile := (Admin.uploadFile net).

(** The rows are appended one by one; a row without its delete button
    ends the loop with an exception. *)
Lemma appendRows_run (docs : list Admin.Document) (s : state Admin.vars) :
  exists res ev, appendRows docs s = (res, s, ev) /\ forallb is_dom ev = true.
Proof.
  induction docs as [|d docs IH].
  - exists (Ok tt), []. split; reflexivity.
  - destruct IH as [res [ev [IH Hev]]].
    cbn [Admin.appendRows]. unfold Admin.createDocumentRow. cbv zeta.
    cbn [e_innerHTML].
    destruct (has_delete_btn _).
    + run_script. rewrite IH. eexists; eexists. split; [reflexivity|]. exact Hev.
    + run_script. eexists; eexists. split; reflexivity.
Qed.

Lemma displayDocuments_run (docs : list Admin.Document) (s : state Admin.vars) :
  exists res ev, displayDocuments docs s = (res, s, ev) /\ forallb is_dom ev = true.
Proof.
  unfold Admin.displayDocuments.
  destruct (List.length docs =? 0)%nat.
  - eexists; eexists. split; reflexivity.
  - destruct (appendRows_run docs s) as [res [ev [H Hev]]].
    run_script. rewrite H. eexists; eexists. split; [reflexivity|]. exact Hev.
Qed.

(** What [loadDocuments] does when the request fails with a response:
    whatever the status, it logs, writes the inline error, and stops. *)
Lemma loadDocuments_failing_status (s : state Admin.vars) (r : response (list Admin.Document)) :
  Admin.documents_reply net (issued s) (documents_request (page s)) = Responded r ->
  ok r = false ->
  loadDocuments s =
    (Ok tt, sent s,
     [ SetProp "documentsTable" "innerHTML" loading_html;
       Fetch (documents_request (page s));
       Settled (documents_request (page s)) (Fulfilled (status r));
       ConsoleError (lit "Error loading documents:") (lit "Failed to load documents");
       SetProp "documentsTable" "innerHTML" load_error_html ]).
Proof.
  intros Hreply Hok.
  unfold Admin.loadDocuments. run_script. fold_requests s.
  rewrite Hreply. rewrite Hok. reflexivity.
Qed.

(** When the request is rejected, the message of the rejection decides:
    only a message that contains "401" clears the token and navigates. *)
Lemma loadDocuments_rejected (s : state Admin.vars) (msg : jsstring) :
  Admin.documents_reply net (issued s) (documents_request (page s)) = Rejected msg ->
  loadDocuments s =
    (Ok tt,
     (if includes msg (lit "401")
      then {| stored_token := None; issued := S (issued s); page := page s |}
      else sent s),
     [ SetProp "documentsTable" "innerHTML" loading_html;
       Fetch (documents_request (page s));
       Settled (documents_request (page s)) (Failed msg);
       ConsoleError (lit "Error loading documents:") msg;
       SetProp "documentsTable" "innerHTML" load_error_html ]
     ++ (if includes msg (lit "401")
         then [RemoveItem (lit "token"); Navigate (lit "/login")]
         else [])).
Proof.
  intros Hreply.
  unfold Admin.loadDocuments. run_script. fold_requests s.
  rewrite Hreply. destruct (includes msg (lit "401")); reflexivity.
Qed.

(** [loadDocuments] in general: it never throws, leaves the variables
    of the script alone, and issues exactly one request, the listing,
    which it awaits. *)
Lemma loadDocuments_run (s : state Admin.vars) :
  exists s' ev,
    loadDocuments s = (Ok tt, s', ev) /\
    page s' = page s /\
    issued s' = S (issued s) /\
    requests ev = [documents_request (page s)] /\
    one_at_a_time ev /\
    existsb is_delete ev = false.
Proof.
  destruct (Admin.documents_reply net (issued s) (documents_request (page s)))
    as [msg|r] eqn:Hreply.
  - rewrite (loadDocuments_rejected s msg Hreply).
    destruct (includes msg (lit "401"));
      eexists; eexists; repeat split; reflexivity.
  - destruct (ok r) eqn:Hok.
    + unfold Admin.loadDocuments. run_script. fold_requests s.
      rewrite Hreply, Hok. cbv beta iota zeta delta [negb].
      destruct (json r) as [msg|docs].
      * destruct (includes msg (lit "401"));
          eexists; eexists; repeat split; reflexivity.
      * match goal with
        | |- context [displayDocuments docs ?st] =>
            destruct (displayDocuments_run docs st) as [res [ev [Hd Hev]]]; rewrite Hd
        end.
        destruct res as [[]|[m]]; [|destruct (includes m (lit "401"))];
          (eexists; eexists; split; [reflexivity|]);
          (repeat split;
           [ cbn [app requests]; rewrite ?requests_app, (dom_requests ev Hev); reflexivity
           | unfold one_at_a_time; cbn [app flight Nat.eqb];
             rewrite ?flight_app, (dom_flight _ ev Hev); reflexivity
           | cbn [app existsb is_delete orb];
             rewrite ?existsb_app, (dom_no_delete ev Hev); reflexivity ]).
    + rewrite (loadDocuments_failing_status s r Hreply Hok).
      eexists; eexists; repeat split; reflexivity.
Qed.

Ltac fold_upload s file :=
  change {| r_method := POST; r_url := Admin.API_BASE ++ tpl "/upload";
            r_headers := Admin.authHeaders (page s);
            r_body := FormData (lit "file") file |}
    with (upload_request (page s) file).

(** [uploadFile] issues one request and awaits it; it returns or throws. *)
Lemma uploadFile_run (file : File) (s : state Admin.vars) :
  exists res st,
    uploadFile file s =
      (res, sent s,
       [ Fetch (upload_request (page s) file);
         Settled (upload_request (page s) file) st ]).
Proof.
  unfold Admin.uploadFile. run_script. fold_upload s file.
  destruct (Admin.upload_reply net (issued s) (upload_request (page s) file)) as [msg|r].
  - eexists; eexists; reflexivity.
  - destruct (ok r); cbv beta iota zeta delta [negb];
      destruct (json r); eexists; eexists; reflexivity.
Qed.

(** The loop of [uploadFiles]: one awaited request per file, in the
    order of the list, whatever the replies. *)
Lemma uploadLoop_run (rest : list File) :
  forall (i len : nat) (s : state Admin.vars),
  exists s' ev,
    uploadLoop rest i len s = (Ok tt, s', ev) /\
    page s' = page s /\
    stored_token s' = stored_token s /\
    issued s' = (issued s + List.length rest)%nat /\
    requests ev = map (upload_request (page s)) rest /\
    one_at_a_time ev /\
    existsb is_delete ev = false.
Proof.
  induction rest as [|file rest IH]; intros i len s.
  - exists s, []. repeat split; simpl; auto.
  - destruct (uploadFile_run file s) as [res [st Hup]].
    destruct (IH (S i) len (sent s)) as [s' [ev [Hrun [Hp [Ht [Hi [Hr [Hf Hd]]]]]]]].
    cbn [Admin.uploadLoop]. unfold Admin.showStatus. run_script.
    rewrite Hup. destruct res as [a|e]; rewrite Hrun;
      (eexists; eexists; split; [reflexivity|]);
      (repeat split;
       [ exact Hp
       | exact Ht
       | rewrite Hi; simpl; lia
       | cbn [app requests map]; rewrite Hr; reflexivity
       | unfold one_at_a_time; cbn [app flight Nat.eqb]; exact Hf
       | cbn [app existsb is_delete orb upload_request r_method]; exact Hd ]).
Qed.

(** C4. For every list of files, [uploadFiles] never throws; it first
    issues one upload request per file, in the order of the list, each
    awaited before the next one starts and whether or not it failed, and
    then, when all of them have settled, exactly one request for the
    document list. *)
Theorem uploadFiles_sequential (files : list File) (s : state Admin.vars) :
  exists s' uploads refresh,
    uploadFiles files s = (Ok tt, s', uploads ++ refresh) /\
    requests uploads = map (upload_request (page s)) files /\
    List.length (requests uploads) = List.length files /\
    one_at_a_time uploads /\
    requests refresh = [documents_request (page s)] /\
    one_at_a_time refresh /\
    one_at_a_time (uploads ++ refresh).
Proof.
  destruct (uploadLoop_run files 0 (List.length files) s)
    as [s1 [ev [Hrun [Hp [Ht [Hi [Hr [Hf Hd]]]]]]]].
  destruct (loadDocuments_run s1) as [s2 [ld [Hld [Hp2 [Hi2 [Hr2 [Hf2 Hd2]]]]]]].
  unfold Admin.uploadFiles. run_script. rewrite Hrun, Hld.
  exists s2.
  exists (SetProp "uploadProgress" "style.display" (lit "block") :: ev ++
          [ SetProp "uploadProgress" "style.display" (lit "none");
            SetProp "progressFill" "style.width" (lit "0%");
            SetProp "fileInput" "value" [] ]).
  exists ld.
  assert (Hup : one_at_a_time
            (SetProp "uploadProgress" "style.display" (lit "block") :: ev ++
             [ SetProp "uploadProgress" "style.display" (lit "none");
               SetProp "progressFill" "style.width" (lit "0%");
               SetProp "fileInput" "value" [] ])).
  { unfold one_at_a_time. cbn [flight]. rewrite flight_app, Hf. reflexivity. }
  assert (Hreq : requests
            (SetProp "uploadProgress" "style.display" (lit "block") :: ev ++
             [ SetProp "uploadProgress" "style.display" (lit "none");
               SetProp "progressFill" "style.width" (lit "0%");
               SetProp "fileInput" "value" [] ])
            = map (upload_request (page s)) files).
  { cbn [requests]. rewrite requests_app, Hr. cbn [requests]. apply app_nil_r. }
  repeat split.
  - f_equal. cbn [app]. f_equal. rewrite <- !app_assoc. reflexivity.
  - exact Hreq.
  - rewrite Hreq. apply length_map.
  - exact Hup.
  - rewrite Hr2, Hp. reflexivity.
  - exact Hf2.
  - unfold one_at_a_time. rewrite flight_app, Hup. exact Hf2.
Qed.

(** [loadDocuments] starts by writing the loading notice and sending the
    listing request, before it looks at anything else. *)
Lemma loadDocuments_starts (s : state Admin.vars) :
  exists s' ev,
    loadDocuments s =
      (Ok tt, s',
       SetProp "documentsTable" "innerHTML" loading_html
         :: Fetch (documents_request (page s)) :: ev).
Proof.
  unfold Admin.loadDocuments. run_script. fold_requests s.
  destruct (Admin.documents_reply net (issued s) (documents_request (page s)))
    as [msg|r].
  - destruct (includes msg (lit "401")); eexists; eexists; reflexivity.
  - destruct (ok r); cbv beta iota zeta delta [negb].
    + destruct (json r) as [msg|docs].
      * destruct (includes msg (lit "401")); eexists; eexists; reflexivity.
      * match goal with
        | |- context [displayDocuments docs ?st] =>
            destruct (displayDocuments_run docs st) as [res [ev [Hd Hev]]]; rewrite Hd
        end.
        destruct res as [[]|[m]]; [|destruct (includes m (lit "401"))];
          eexists; eexists; reflexivity.
    + eexists; eexists; reflexivity.
Qed.

(** C1, at a response with status 401.  The listing request of a page
    that holds the token "secret" is answered with status 401:
    [loadDocuments] throws an error whose message is "Failed to load
    documents", the test for "401" in that message fails, and so the
    token stays in storage and no navigation is started; only the inline
    error is written. *)
Theorem loadDocuments_401_keeps_token :
  Admin.loadDocuments (backend_status 401) toUpperCase toLocaleString
    has_delete_btn null_TypeError (logged_in (lit "secret"))
  = (Ok tt,
     {| stored_token := Some (lit "secret");
        issued := 1;
        page := {| Admin.token := Some (lit "secret"); Admin.fileToDelete := None |} |},
     [ SetProp "documentsTable" "innerHTML" loading_html;
       Fetch {| r_method := GET;
                r_url := lit "/api/admin/documents";
                r_headers := [(lit "Authorization", lit "Bearer secret")];
                r_body := NoBody |};
       Settled {| r_method := GET;
                  r_url := lit "/api/admin/documents";
                  r_headers := [(lit "Authorization", lit "Bearer secret")];
                  r_body := NoBody |} (Fulfilled 401);
       ConsoleError (lit "Error loading documents:") (lit "Failed to load documents");
       SetProp "documentsTable" "innerHTML" load_error_html ])
  /\ includes (lit "Failed to load documents") (lit "401") = false
  /\ existsb is_navigate
       (events (Admin.loadDocuments (backend_status 401) toUpperCase toLocaleString
                  has_delete_btn null_TypeError (logged_in (lit "secret")))) = false.
Proof.
  repeat split; reflexivity.
Qed.

(** C3, on a page that loads with no token in storage.  The script
    assigns the login path to [window.location.href] and runs on: its
    last line calls [loadDocuments], which sends the listing request to
    the admin API with the header "Bearer null". *)
Theorem main_without_token_requests_list :
  exists s' ev,
    Admin.main net toUpperCase toLocaleString has_delete_btn null_TypeError None =
      (Ok tt, s',
       Navigate (lit "/login")
         :: SetProp "documentsTable" "innerHTML" loading_html
         :: Fetch {| r_method := GET;
                     r_url := lit "/api/admin/documents";
                     r_headers := [(lit "Authorization", lit "Bearer null")];
                     r_body := NoBody |}
         :: ev)
    /\ stored_token s' = None.
Proof.
  unfold Admin.main. run_script. cbn [truthy negb].
  set (s0 := {| stored_token := None; issued := 0%nat;
                page := {| Admin.token := None; Admin.fileToDelete := None |} |}).
  destruct (Admin.documents_reply net (issued s0) (documents_request (page s0)))
    as [msg|r] eqn:Hreply.
  - rewrite (loadDocuments_rejected s0 msg Hreply).
    destruct (includes msg (lit "401")); eexists; eexists; split; reflexivity.
  - destruct (ok r) eqn:Hok.
    + destruct (loadDocuments_starts s0) as [s' [ev Hs]].
      destruct (loadDocuments_run s0) as [s2 [ev2 [Hrun [Hp [Hi [Hr [Hf Hd]]]]]]].
      rewrite Hs in Hrun. injection Hrun as -> Hev.
      rewrite Hs. eexists; eexists; split; [reflexivity|].
      revert Hs. unfold Admin.loadDocuments. run_script. fold_requests s0.
      rewrite Hreply, Hok. cbv beta iota zeta delta [negb].
      destruct (json r) as [msg|docs].
      * destruct (includes msg (lit "401")); intros Hs; injection Hs as <- _; reflexivity.
      * match goal with
        | |- context [displayDocuments docs ?st] =>
            destruct (displayDocuments_run docs st) as [res [ev' [Hd' Hev']]]; rewrite Hd'
        end.
        destruct res as [[]|[m]]; [|destruct (includes m (lit "401"))];
          intros Hs; injection Hs as <- _; reflexivity.
    + rewrite (loadDocuments_failing_status s0 r Hreply Hok).
      eexists; eexists; split; reflexivity.
Qed.

(** *** Deleting *)

Local Abbreviation handle :=
  (Admin.handle net toUpperCase toLocaleString has_delete_btn null_TypeError).
Local Abbreviation run :=
  (Admin.run net toUpperCase toLocaleString has_delete_btn null_TypeError).
Local Abbreviation confirmDelete_click :=
  (Admin.confirmDelete_click net toUpperCase toLocaleString has_delete_btn null_TypeError).










End AdminFacts.


(** Runs of the admin page on concrete inputs. *)

Example delete_flow_requests :
  requests (events (Admin.run (backend_status 500) (fun s => s) (fun s => s) (fun _ => true) []
                      [ Admin.ConfirmDelete;
                        Admin.ClickDelete (lit "a.pdf");
                        Admin.CancelDelete;
                        Admin.ConfirmDelete;
                        Admin.ClickDelete (lit "b.pdf");
                        Admin.ConfirmDelete ]
                      (logged_in (lit "secret"))))
  = [ delete_request (page (logged_in (lit "secret"))) (lit "b.pdf") ].
Proof. vm_compute. reflexivity. Qed.

Example upload_goes_on_after_failure :
  requests (events (Admin.uploadFiles flaky_backend (fun s => s) (fun s => s) (fun _ => true) []
                      [ {| name := lit "a.pdf" |}; {| name := lit "b.pdf" |} ]
                      (logged_in (lit "secret"))))
  = [ upload_request (page (logged_in (lit "secret"))) {| name := lit "a.pdf" |};
      upload_request (page (logged_in (lit "secret"))) {| name := lit "b.pdf" |};
      documents_request (page (logged_in (lit "secret"))) ].
Proof. vm_compute. reflexivity. Qed.

Example rejection_mentioning_401_logs_out :
  stored_token
    (final (Admin.loadDocuments
              {| Admin.upload_reply := reply_status 200;
                 Admin.documents_reply := fun _ _ => Rejected (lit "HTTP 401");
                 Admin.delete_reply := reply_status 200;
                 Admin.rebuild_reply := reply_status 200;
                 Admin.health_reply := reply_status 200 |}
              (fun s => s) (fun s => s) (fun _ => true) [] (logged_in (lit "secret"))))
  = None.
Proof. vm_compute. reflexivity. Qed.


(** ** The query clients *)

Lemma truthy_nonempty (s : jsstring) : truthy (Some s) = false <-> s = [].
Proof.
  destruct s; simpl; split; congruence.
Qed.

Section QueryFacts.

Variable query_reply : nat -> request -> outcome Answer.
Variable toUpperCase : jsstring -> jsstring.
Variable native_source : string -> jsstring.
Variable now : Z.

(** C5, as the code has it.  When the trimmed question is empty, neither
    client sends a request or touches the page: the single-shot client
    raises an alert and returns, the chat client writes two lines to the
    console and returns, without any notice to the user. *)
Theorem blank_question_is_dropped (sa : state App.vars) (sc : state Chat.vars) :
  trim (App.queryInput_value (page sa)) = [] ->
  trim (Chat.chatInput_value (page sc)) = [] ->
  App.submitQuery query_reply toUpperCase native_source sa =
    (Ok tt, sa, [Alert (lit "Please enter a question")]) /\
  Chat.sendMessage query_reply native_source now sc =
    (Ok tt, sc,
     [ ConsoleLog (lit "Sending message:") [];
       ConsoleLog (lit "Empty question, ignoring") [] ]).
Proof.
  intros Ha Hc. split.
  - unfold App.submitQuery. run_script. rewrite Ha. reflexivity.
  - unfold Chat.sendMessage. run_script. rewrite Hc. reflexivity.
Qed.

End QueryFacts.

Lemma blank_question_is_dropped_witness :
  App.submitQuery offline (fun s => s) (fun _ => []) (app_page (lit "   ")) =
    (Ok tt, app_page (lit "   "), [Alert (lit "Please enter a question")]) /\
  Chat.sendMessage offline (fun _ => []) 0 (chat_page (lit "   ")) =
    (Ok tt, chat_page (lit "   "),
     [ ConsoleLog (lit "Sending message:") [];
       ConsoleLog (lit "Empty question, ignoring") [] ]).
Proof.
  apply (blank_question_is_dropped offline (fun s => s) (fun _ => []) 0
           (app_page (lit "   ")) (chat_page (lit "   "))); reflexivity.
Defined.

(** C5 as stated fails in the chat client: a blank question raises no
    alert and writes nothing to the page, only to the console. *)
Lemma chat_blank_question_no_notice :
  existsb is_alert
    (events (Chat.sendMessage offline (fun _ => []) 0 (chat_page (lit "   "))))
  = false /\
  events (Chat.sendMessage offline (fun _ => []) 0 (chat_page (lit "   "))) =
    [ ConsoleLog (lit "Sending message:") [];
      ConsoleLog (lit "Empty question, ignoring") [] ].
Proof.
  split; reflexivity.
Qed.

(** ** Escaping *)









Lemma escapeHtml_serialize (t : jsstring) : Chat.escapeHtml t = serialize_text t.
Proof.
  destruct t; reflexivity.
Qed.

(** *** Newlines and U+0000 *)























(** A carriage return inside the answer comes back as a line feed, and
    U+0000 does not come back, although the paragraph is escaped. *)
Example chat_answer_carriage_return :
  Chat.formatAnswer (lit "a" ++ [13%N; 0%N] ++ lit "b") =
    lit "<p>a" ++ [13%N; 0%N] ++ lit "b</p>" /\
  Markup.rendered_text (Chat.formatAnswer (lit "a" ++ [13%N; 0%N] ++ lit "b")) =
    lit "a" ++ [10%N] ++ lit "b".
Proof. vm_compute. split; reflexivity. Qed.


(** The single-shot client puts the file name of a source into markup as
    it is: a file name that is a tag arrives as that tag. *)
Example createSourceElement_raw_filename :
  includes
    (e_innerHTML
       (App.createSourceElement (fun s => s) (fun _ => [])
          {| s_type := lit "pdf";
             s_filename := lit "<img src=x onerror=alert(1)>";
             s_content := None |} 1))
    (tpl "<span class='source-filename'><img src=x onerror=alert(1)></span>")
  = true.
Proof. vm_compute. reflexivity. Qed.

(** The chat client escapes the file name of a source, but the
    serialisation of a text node leaves the quotation mark alone, and the
    file name also goes into a quoted attribute: a file name with a
    quotation mark ends the attribute. *)
Example sourceTag_quote_in_title :
  includes
    (Chat.sourceTag (fun _ => [])
       {| s_type := lit "pdf";
          s_filename := tpl "x' onmouseover='alert(1)";
          s_content := None |})
    (tpl "<div class='source-tag' title='x' onmouseover='alert(1)'>")
  = true.
Proof. vm_compute. reflexivity. Qed.

(* ================================================================== *)
(** * Further properties of the scripts *)
(* ================================================================== *)

(** ** File sizes *)

Lemma hundredths_of_integer (b : Z) :
  0 <= b -> hundredths_to_string (100 * b) = digits b.
Proof.
  intros Hb. unfold hundredths_to_string. cbv zeta.
  destruct (Z.ltb_spec (100 * b) 0); [lia|].
  rewrite Z.abs_eq by lia.
  replace (100 * b / 100) with b by (apply Z.div_unique with (r := 0); lia).
  replace ((100 * b) mod 100) with 0 by (apply Z.mod_unique with (q := b); lia).
  reflexivity.
Qed.

(** A size below 1024 is written as it is, in bytes, without decimals. *)
Theorem formatFileSize_bytes_exact (bytes : Z) :
  0 < bytes < 1024 ->
  Admin.formatFileSize bytes = digits bytes ++ lit " Bytes".
Proof.
  intros H.
  rewrite (formatFileSize_between bytes 0) by (change (1024 ^ 0) with 1;
    change (1024 ^ (0 + 1)) with 1024; lia).
  change (1024 ^ 0) with 1.
  replace ((200 * bytes + 1) / (2 * 1)) with (100 * bytes)
    by (apply Z.div_unique with (r := 1); lia).
  rewrite hundredths_of_integer by lia. reflexivity.
Qed.

Lemma formatFileSize_bytes_exact_witness :
  Admin.formatFileSize 1023 = digits 1023 ++ lit " Bytes".
Proof.
  apply (formatFileSize_bytes_exact 1023). lia.
Defined.

(** The number in front of the unit lies between 1 and 1024, both
    included: just below the next power of 1024 the rounding reaches
    1024 of the smaller unit. *)
Theorem formatFileSize_value_bounds (bytes i : Z) (unit : jsstring) :
  0 <= i ->
  1024 ^ i <= bytes < 1024 ^ (i + 1) ->
  nth_error [lit "Bytes"; lit "KB"; lit "MB"; lit "GB"] (Z.to_nat i) = Some unit ->
  exists h,
    100 <= h <= 102400 /\
    Admin.formatFileSize bytes = hundredths_to_string h ++ lit " " ++ unit.
Proof.
  intros Hi H Hu.
  exists ((200 * bytes + 1024 ^ i) / (2 * 1024 ^ i)).
  assert (HK : 0 < 1024 ^ i) by (apply Z.pow_pos_nonneg; lia).
  rewrite Z.pow_add_r in H by lia. change (1024 ^ 1) with 1024 in H.
  split.
  - split.
    + apply Z.div_le_lower_bound; lia.
    + assert (Hlt : (200 * bytes + 1024 ^ i) / (2 * 1024 ^ i) < 102401)
        by (apply Z.div_lt_upper_bound; lia).
      lia.
  - rewrite (formatFileSize_between bytes i Hi), Hu; [reflexivity|].
    rewrite Z.pow_add_r by lia. change (1024 ^ 1) with 1024. exact H.
Qed.

Lemma formatFileSize_value_bounds_witness :
  exists h,
    100 <= h <= 102400 /\
    Admin.formatFileSize 1048575 = hundredths_to_string h ++ lit " " ++ lit "KB".
Proof.
  apply (formatFileSize_value_bounds 1048575 1 (lit "KB")).
  - lia.
  - split; [vm_compute; discriminate | reflexivity].
  - reflexivity.
Defined.

(** ** Escaping and formatting in the chat client *)

Lemma escape_unit_length (c : code_unit) :
  (1 <= List.length (escape_unit c))%nat /\
  (needs_escape c = true -> 2 <= List.length (escape_unit c))%nat /\
  (needs_escape c = false -> escape_unit c = [c]).
Proof.
  unfold needs_escape, escape_unit.
  destruct (N.eqb c 38); [simpl; repeat split; intros; try lia; discriminate|].
  destruct (N.eqb c 160); [simpl; repeat split; intros; try lia; discriminate|].
  destruct (N.eqb c 60); [simpl; repeat split; intros; try lia; discriminate|].
  destruct (N.eqb c 62); [simpl; repeat split; intros; try lia; discriminate|].
  simpl. repeat split; intros; try lia; try discriminate; reflexivity.
Qed.

Lemma serialize_text_length (s : jsstring) :
  (List.length s <= List.length (serialize_text s))%nat /\
  (existsb needs_escape s = true ->
   List.length s < List.length (serialize_text s))%nat.
Proof.
  induction s as [|c s [IH1 IH2]]; [split; [simpl; lia | discriminate]|].
  change (serialize_text (c :: s)) with (escape_unit c ++ serialize_text s).
  rewrite length_app. destruct (escape_unit_length c) as [H1 [H2 _]].
  split; [simpl; lia|].
  intros H. simpl in H. apply orb_true_iff in H. destruct H as [H|H].
  - specialize (H2 H). simpl. lia.
  - specialize (IH2 H). simpl. lia.
Qed.

(** [escapeHtml] returns its argument unchanged exactly when the argument
    holds no ampersand, no-break space or angle bracket. *)
Theorem escapeHtml_fixes_plain_text (s : jsstring) :
  Chat.escapeHtml s = s <-> existsb needs_escape s = false.
Proof.
  rewrite escapeHtml_serialize. split.
  - intros H. destruct (existsb needs_escape s) eqn:E; [|reflexivity].
    destruct (serialize_text_length s) as [_ Hlt]. specialize (Hlt E).
    rewrite H in Hlt. lia.
  - induction s as [|c s IH]; [reflexivity|].
    intros H. simpl in H. apply orb_false_iff in H. destruct H as [Hc Hs].
    change (serialize_text (c :: s)) with (escape_unit c ++ serialize_text s).
    destruct (escape_unit_length c) as [_ [_ H3]].
    rewrite (H3 Hc), (IH Hs). reflexivity.
Qed.

Lemma formatParagraph_empty (p : jsstring) :
  Chat.formatParagraph p = [] <-> trim p = [].
Proof.
  unfold Chat.formatParagraph. cbv zeta.
  destruct (trim p) as [|c t]; [split; reflexivity|].
  cbv beta iota delta [truthy negb].
  destruct (matches_ordinal (c :: t)); split; intros H; discriminate H.
Qed.

(** [formatAnswer] returns the empty string, so that the answer bubble
    stays empty, exactly when every paragraph of the answer is blank. *)
Theorem formatAnswer_empty_iff (text : jsstring) :
  Chat.formatAnswer text = [] <->
  forall p, In p (split_blank [] text) -> trim p = [].
Proof.
  unfold Chat.formatAnswer.
  destruct text as [|c text].
  - split; [|reflexivity]. intros _ p [<-|[]]. reflexivity.
  - cbv beta iota zeta delta [truthy negb]. unfold join. split.
    + intros H p Hp. apply formatParagraph_empty.
      apply concat_nil_Forall in H.
      apply (proj1 (Forall_forall _ _) H). apply in_map. exact Hp.
    + intros H. apply concat_nil_Forall. apply Forall_forall.
      intros x Hx. apply in_map_iff in Hx. destruct Hx as [p [<- Hp]].
      apply formatParagraph_empty. apply H. exact Hp.
Qed.

(** The chat client shows the first five sources only: what follows
    them in the list changes nothing. *)
Theorem createSourcesHTML_first_five (native_source : string -> jsstring)
    (l extra : list Source) :
  List.length l = 5%nat ->
  Chat.createSourcesHTML native_source (Some (l ++ extra)) =
  Chat.createSourcesHTML native_source (Some l).
Proof.
  intros Hl. unfold Chat.createSourcesHTML.
  destruct l as [|x l]; [discriminate Hl|].
  cbn [app].
  change (x :: l ++ extra) with ((x :: l) ++ extra).
  rewrite firstn_app, Hl. cbn [Nat.sub firstn].
  rewrite app_nil_r. reflexivity.
Qed.

Lemma createSourcesHTML_first_five_witness :
  Chat.createSourcesHTML (fun _ => [])
    (Some (repeat {| s_type := lit "pdf"; s_filename := lit "a.pdf"; s_content := None |} 5
           ++ [ {| s_type := lit "word"; s_filename := lit "b.doc"; s_content := None |} ])) =
  Chat.createSourcesHTML (fun _ => [])
    (Some (repeat {| s_type := lit "pdf"; s_filename := lit "a.pdf"; s_content := None |} 5)).
Proof.
  apply (createSourcesHTML_first_five (fun _ => [])). reflexivity.
Defined.

(** ** Source icons *)

Lemma Object_prototype_truthy (key : jsstring) (v : value) :
  lookup key Object_prototype = Some v -> value_truthy v = true.
Proof.
  unfold Object_prototype. cbn [lookup].
  repeat match goal with
         | |- context [if eqb key ?k then _ else _] => destruct (eqb key k)
         end;
    intros H; try discriminate H; injection H as <-; reflexivity.
Qed.

(** Both clients compute the same icon; it is never [undefined] or
    empty, and it is one of the three icons of the table unless the type
    names a property of [Object.prototype], whose value it then is. *)
Theorem getSourceIcon_result (type : jsstring) :
  Chat.getSourceIcon type = App.getSourceIcon type /\
  value_truthy (App.getSourceIcon type) = true /\
  ((exists icon, In icon icons /\ App.getSourceIcon type = Str icon) \/
   lookup type Object_prototype = Some (App.getSourceIcon type)).
Proof.
  split; [reflexivity|].
  unfold App.getSourceIcon, get. cbn [lookup].
  destruct (eqb type (lit "pdf")).
  { split; [reflexivity|]. left. eexists. split; [|reflexivity]. simpl. auto. }
  destruct (eqb type (lit "word")).
  { split; [reflexivity|]. left. eexists. split; [|reflexivity]. simpl. auto. }
  destruct (eqb type (lit "excel")).
  { split; [reflexivity|]. left. eexists. split; [|reflexivity]. simpl. auto. }
  destruct (lookup type Object_prototype) as [v|] eqn:E.
  - pose proof (Object_prototype_truthy type v E) as Hv.
    unfold or_else. rewrite Hv. split; [exact Hv | right; reflexivity].
  - split; [reflexivity|]. left. eexists. split; [|reflexivity]. simpl. auto.
Qed.

(** ** The admin page, continued *)

Lemma starts_with_app (p s : jsstring) : starts_with p (p ++ s) = true.
Proof.
  induction p as [|c p IH]; [reflexivity|].
  cbn [app starts_with]. rewrite N.eqb_refl. exact IH.
Qed.

Lemma includes_here (p s : jsstring) : includes (p ++ s) p = true.
Proof.
  destruct (p ++ s) eqn:E; cbn [includes]; rewrite <- E, starts_with_app; reflexivity.
Qed.

Lemma includes_skip (a s p : jsstring) :
  includes s p = true -> includes (a ++ s) p = true.
Proof.
  intros H. induction a as [|c a IH]; [exact H|].
  cbn [app includes]. rewrite IH. apply orb_true_r.
Qed.

Lemma includes_between (a p x q b : jsstring) :
  includes (a ++ p ++ x ++ q ++ b) (p ++ x ++ q) = true.
Proof.
  apply includes_skip.
  replace (p ++ x ++ q ++ b) with ((p ++ x ++ q) ++ b)
    by (rewrite <- !app_assoc; reflexivity).
  apply includes_here.
Qed.

(** The row of a document holds the file name as markup, not as text:
    whatever the file name is, it stands unescaped between the tags of
    the first cell in the markup the script assigns to the row; and this
    markup is the [innerHTML] of the row [createDocumentRow] returns,
    when it returns. *)
Theorem createDocumentRow_raw_filename
    (toUpperCase toLocaleString : jsstring -> jsstring)
    (has_delete_btn : jsstring -> bool) (null_TypeError : jsstring)
    (doc : Admin.Document) (s : state Admin.vars) :
  includes
    (Admin.row_markup toUpperCase toLocaleString doc)
    (tpl "<td><strong>" ++ Admin.filename doc ++ tpl "</strong></td>")
  = true /\
  Admin.createDocumentRow toUpperCase toLocaleString has_delete_btn null_TypeError doc s =
    ((if has_delete_btn (Admin.row_markup toUpperCase toLocaleString doc)
      then Ok (row toUpperCase toLocaleString doc)
      else Throw (Error null_TypeError)),
     s, []).
Proof.
  split.
  2:{ unfold Admin.createDocumentRow. cbv zeta. cbn [e_innerHTML].
      destruct (has_delete_btn _); reflexivity. }
  unfold Admin.row_markup. cbv zeta.
  match goal with
  | |- includes (_ ++ _ ++ _ ++ ?rest) _ = true =>
      exact (includes_between
               (tpl "
        ")
               (tpl "<td><strong>") (Admin.filename doc) (tpl "</strong></td>")
               (tpl "
        <td><span class='file-type-badge " ++ rest))
  end.
Qed.

Lemma table_write_observed (ev : list event) :
  forallb table_write ev = true ->
  requests ev = [] /\ percents ev = [] /\ alerts ev = [] /\
  written "statusMessage" "textContent" ev = [] /\
  written "deleteModal" "style.display" ev = [] /\
  existsb is_navigate ev = false /\ existsb is_remove_item ev = false.
Proof.
  induction ev as [|e ev IH]; [repeat split; reflexivity|].
  cbn [forallb]. rewrite andb_true_iff. intros [He Hev].
  destruct (IH Hev) as [H1 [H2 [H3 [H4 [H5 [H6 H7]]]]]].
  destruct e; try discriminate He; cbn [table_write] in He.
  - (* SetProp *)
    apply andb_true_iff in He. destruct He as [Ht Hp].
    apply String.eqb_eq in Ht. apply String.eqb_eq in Hp. subst.
    repeat split; assumption.
  - (* Append *)
    repeat split; assumption.
Qed.

Lemma percents_app (a b : list event) :
  percents (a ++ b) = percents a ++ percents b.
Proof.
  induction a as [|e a IH]; [reflexivity|].
  destruct e; cbn [app percents]; rewrite ?IH; reflexivity.
Qed.

Lemma written_app (t p : string) (a b : list event) :
  written t p (a ++ b) = written t p a ++ written t p b.
Proof.
  induction a as [|e a IH]; [reflexivity|].
  destruct e; cbn [app written]; try exact IH.
  destruct (String.eqb target t && String.eqb prop p); [cbn; f_equal|]; exact IH.
Qed.

Lemma appended_app (t : string) (a b : list event) :
  appended t (a ++ b) = appended t a ++ appended t b.
Proof.
  induction a as [|e a IH]; [reflexivity|].
  destruct e; cbn [app appended]; try exact IH.
  destruct (String.eqb target t); [cbn; f_equal|]; exact IH.
Qed.

Lemma alerts_app (a b : list event) : alerts (a ++ b) = alerts a ++ alerts b.
Proof.
  induction a as [|e a IH]; [reflexivity|].
  destruct e; cbn [app alerts]; rewrite ?IH; reflexivity.
Qed.

Section AdminMore.

Variable net : Admin.network.
Variable toUpperCase : jsstring -> jsstring.
Variable toLocaleString : jsstring -> jsstring.
Variable has_delete_btn : jsstring -> bool.
Variable null_TypeError : jsstring.

Local Abbreviation loadDocuments :=
  (Admin.loadDocuments net toUpperCase toLocaleString has_delete_btn null_TypeError).
Local Abbreviation displayDocuments :=
  (Admin.displayDocuments toUpperCase toLocaleString has_delete_btn null_TypeError).
Local Abbreviation appendRows :=
  (Admin.appendRows toUpperCase toLocaleString has_delete_btn null_TypeError).
Local Abbreviation uploadFiles :=
  (Admin.uploadFiles net toUpperCase toLocaleString has_delete_btn null_TypeError).
Local Abbreviation uploadLoop := (Admin.uploadLoop net).
Local Abbreviation uploadFile := (Admin.uploadFile net).
Local Abbreviation handle :=
  (Admin.handle net toUpperCase toLocaleString has_delete_btn null_TypeError).
Local Abbreviation run :=
  (Admin.run net toUpperCase toLocaleString has_delete_btn null_TypeError).
Local Abbreviation confirmDelete_click :=
  (Admin.confirmDelete_click net toUpperCase toLocaleString has_delete_btn null_TypeError).
Local Abbreviation documents_reply s :=
  (Admin.documents_reply net (issued s) (documents_request (page s))).
Local Abbreviation keeps := (keeps_button toUpperCase toLocaleString has_delete_btn).
Local Abbreviation row := (AdminObserve.row toUpperCase toLocaleString).
Local Abbreviation rows := (AdminObserve.rows toUpperCase toLocaleString).
Local Abbreviation load_failure := (AdminObserve.load_failure keeps null_TypeError).

Lemma appendRows_events (docs : list Admin.Document) (s : state Admin.vars) :
  appendRows docs s =
    (rows_result keeps null_TypeError docs, s, rows (shown keeps docs)).
Proof.
  induction docs as [|d docs IH]; [reflexivity|].
  cbn [Admin.appendRows]. unfold Admin.createDocumentRow. cbv zeta.
  cbn [e_innerHTML]. unfold rows_result in *. cbn [forallb shown].
  unfold keeps_button at 1 3.
  destruct (has_delete_btn (Admin.row_markup toUpperCase toLocaleString d)).
  - run_script. rewrite IH. cbn [andb].
    destruct (forallb keeps docs); reflexivity.
  - reflexivity.
Qed.

Lemma rows_observed (docs : list Admin.Document) :
  forallb table_write (rows docs) = true /\
  appended "documentsList" (rows docs) = map row docs /\
  appended "documentsTable" (rows docs) = [] /\
  written "documentsTable" "innerHTML" (rows docs) = [].
Proof.
  induction docs as [|d docs [H1 [H2 [H3 H4]]]]; [repeat split; reflexivity|].
  unfold AdminObserve.rows in *. cbn [map forallb appended written table_write].
  repeat split.
  - exact H1.
  - cbn. f_equal. exact H2.
  - cbn. exact H3.
  - exact H4.
Qed.

(** An empty list of documents is shown as a notice, not as an empty
    table.  For any other list the table is appended and then one row
    per document, in the order of the list, up to the first document
    whose row loses its delete button: there [displayDocuments] throws
    the [TypeError], and the table is left with the rows before it.  It
    returns exactly when every row keeps its button. *)
Theorem displayDocuments_rows (docs : list Admin.Document) (s : state Admin.vars) :
  exists ev,
    displayDocuments docs s =
      ((if forallb keeps docs then Ok tt else Throw (Error null_TypeError)), s, ev) /\
    written "documentsTable" "innerHTML" ev =
      [if (List.length docs =? 0)%nat then no_documents_html else []] /\
    List.length (appended "documentsTable" ev) =
      (if (List.length docs =? 0)%nat then 0 else 1)%nat /\
    appended "documentsList" ev = map row (shown keeps docs).
Proof.
  unfold Admin.displayDocuments.
  destruct docs as [|d docs].
  - eexists. split; [reflexivity|]. repeat split; reflexivity.
  - cbn [List.length Nat.eqb]. run_script. rewrite appendRows_events.
    destruct (rows_observed (shown keeps (d :: docs))) as [H1 [H2 [H3 H4]]].
    unfold rows_result.
    remember (rows (shown keeps (d :: docs))) as R.
    remember (forallb keeps (d :: docs)) as all.
    eexists. split; [reflexivity|].
    repeat split.
    + cbn. rewrite H4. reflexivity.
    + cbn. rewrite H3. reflexivity.
    + cbn. exact H2.
Qed.

Lemma displayDocuments_table (docs : list Admin.Document) (s : state Admin.vars) :
  exists ev,
    displayDocuments docs s = (rows_result keeps null_TypeError docs, s, ev) /\
    forallb table_write ev = true.
Proof.
  unfold Admin.displayDocuments.
  destruct docs as [|d docs].
  - eexists. split; reflexivity.
  - cbn [List.length Nat.eqb]. run_script. rewrite appendRows_events.
    destruct (rows_observed (shown keeps (d :: docs))) as [H1 _].
    remember (rows (shown keeps (d :: docs))) as R.
    remember (rows_result keeps null_TypeError (d :: docs)) as res.
    eexists. split; [reflexivity|]. cbn. exact H1.
Qed.

(** What [loadDocuments] does, by the way the request settled: it shows
    the documents, or, after the rows it may have shown, the error of
    message [m]. *)
Lemma loadDocuments_events (s : state Admin.vars) :
  exists s' tail,
    loadDocuments s =
      (Ok tt, s',
       SetProp "documentsTable" "innerHTML" loading_html
         :: Fetch (documents_request (page s))
         :: Settled (documents_request (page s)) (settlement_of (documents_reply s))
         :: tail) /\
    page s' = page s /\
    issued s' = S (issued s) /\
    match load_failure (documents_reply s) with
    | Some m =>
        (exists shown_first,
           tail = shown_first ++ load_error_events m /\
           forallb table_write shown_first = true) /\
        stored_token s' = if includes m (lit "401") then None else stored_token s
    | None =>
        forallb table_write tail = true /\ stored_token s' = stored_token s
    end.
Proof.
  unfold Admin.loadDocuments. run_script. fold_requests s.
  destruct (Admin.documents_reply net (issued s) (documents_request (page s)))
    as [msg|r]; cbn [AdminObserve.load_failure settlement_of].
  - unfold load_error_events.
    destruct (includes msg (lit "401")); eexists; eexists;
      (repeat split; try reflexivity); exists []; split; reflexivity.
  - destruct (ok r); cbv beta iota zeta delta [negb].
    + destruct (json r) as [msg|docs].
      * unfold load_error_events.
        destruct (includes msg (lit "401")); eexists; eexists;
          (repeat split; try reflexivity); exists []; split; reflexivity.
      * match goal with
        | |- context [displayDocuments docs ?st] =>
            destruct (displayDocuments_table docs st) as [ev [Hd Hev]]; rewrite Hd
        end.
        unfold rows_result, load_error_events.
        destruct (forallb keeps docs).
        -- eexists; eexists. split; [reflexivity|]. repeat split. exact Hev.
        -- destruct (includes null_TypeError (lit "401")); eexists; eexists;
             (split; [reflexivity|]); (repeat split; try reflexivity);
             exists ev; (split; [reflexivity | exact Hev]).
    + eexists; eexists; (repeat split; try reflexivity); exists []; split; reflexivity.
Qed.

(** [loadDocuments] sends the user to the login page, and removes the
    stored token, exactly when the error it caught has "401" in its
    message.  The error for a response outside the 2xx range has a fixed
    message without it, so no status code ever logs the user out; only a
    rejected request, an unreadable body or a row without its button
    can, through the message of the browser. *)
Theorem loadDocuments_logs_out_on_message (s : state Admin.vars) :
  let logs_out :=
    match load_failure (documents_reply s) with
    | Some m => includes m (lit "401")
    | None => false
    end in
  existsb is_navigate (events (loadDocuments s)) = logs_out /\
  existsb is_remove_item (events (loadDocuments s)) = logs_out /\
  stored_token (final (loadDocuments s)) =
    (if logs_out then None else stored_token s) /\
  (accepted (documents_reply s) = false -> logs_out = true ->
   exists msg, documents_reply s = Rejected msg).
Proof.
  destruct (loadDocuments_events s) as [s' [tail [Hrun [Hp [Hi Hcase]]]]].
  rewrite Hrun. cbn [events final fst snd existsb is_navigate is_remove_item orb].
  assert (Hlast :
    accepted (documents_reply s) = false ->
    match load_failure (documents_reply s) with
    | Some m => includes m (lit "401")
    | None => false
    end = true ->
    exists msg, documents_reply s = Rejected msg).
  { destruct (Admin.documents_reply net (issued s) (documents_request (page s)))
      as [msg|r]; cbn [AdminObserve.load_failure accepted].
    - intros _ _. exists msg. reflexivity.
    - intros Hok. rewrite Hok. intros H. discriminate H. }
  cbv zeta.
  destruct (load_failure (documents_reply s)) as [m|].
  - destruct Hcase as [[pre [-> Hpre]] Htok].
    destruct (table_write_observed pre Hpre) as [_ [_ [_ [_ [_ [Hn Hr]]]]]].
    rewrite !existsb_app, Hn, Hr, Htok. unfold load_error_events.
    destruct (includes m (lit "401")); repeat split; auto.
  - destruct Hcase as [Htab Htok].
    destruct (table_write_observed tail Htab) as [_ [_ [_ [_ [_ [Hn Hr]]]]]].
    rewrite Hn, Hr, Htok. repeat split; auto.
Qed.

Lemma load_error_observed (m : jsstring) :
  requests (load_error_events m) = [] /\
  percents (load_error_events m) = [] /\
  alerts (load_error_events m) = [] /\
  written "statusMessage" "textContent" (load_error_events m) = [] /\
  written "deleteModal" "style.display" (load_error_events m) = [] /\
  written "progressFill" "style.width" (load_error_events m) = [].
Proof.
  unfold load_error_events.
  destruct (includes m (lit "401")); repeat split; reflexivity.
Qed.

Lemma table_write_progress (ev : list event) :
  forallb table_write ev = true -> written "progressFill" "style.width" ev = [].
Proof.
  induction ev as [|e ev IH]; [reflexivity|].
  cbn [forallb]. rewrite andb_true_iff. intros [He Hev].
  destruct e; try discriminate He; cbn [written]; auto.
  cbn [table_write] in He. apply andb_true_iff in He. destruct He as [He _].
  apply String.eqb_eq in He. subst target. cbn. auto.
Qed.

Lemma loadDocuments_observed (s : state Admin.vars) :
  exists s' ev,
    loadDocuments s = (Ok tt, s', ev) /\
    page s' = page s /\
    issued s' = S (issued s) /\
    requests ev = [documents_request (page s)] /\
    percents ev = [] /\
    alerts ev = [] /\
    written "statusMessage" "textContent" ev = [] /\
    written "deleteModal" "style.display" ev = [] /\
    (stored_token s' = stored_token s \/ stored_token s' = None) /\
    written "progressFill" "style.width" ev = [].
Proof.
  destruct (loadDocuments_events s) as [s' [tail [Hrun [Hp [Hi Hcase]]]]].
  exists s'. eexists. split; [exact Hrun|]. split; [exact Hp|]. split; [exact Hi|].
  cbn [requests percents alerts written String.eqb Ascii.eqb Bool.eqb andb].
  destruct (load_failure (documents_reply s)) as [m|].
  - destruct Hcase as [[pre [-> Hpre]] Htok].
    destruct (table_write_observed pre Hpre) as [H1 [H2 [H3 [H4 [H5 _]]]]].
    destruct (load_error_observed m) as [E1 [E2 [E3 [E4 [E5 E6]]]]].
    rewrite requests_app, percents_app, alerts_app, !written_app,
      H1, H2, H3, H4, H5, E1, E2, E3, E4, E5, E6,
      (table_write_progress pre Hpre).
    destruct (includes m (lit "401")); repeat split; auto.
  - destruct Hcase as [Htab Htok].
    destruct (table_write_observed tail Htab) as [H1 [H2 [H3 [H4 [H5 _]]]]].
    rewrite H1, H2, H3, H4, H5, (table_write_progress tail Htab).
    repeat split; auto.
Qed.

Ltac fold_upload_request s file :=
  change {| r_method := POST; r_url := Admin.API_BASE ++ tpl "/upload";
            r_headers := Admin.authHeaders (page s);
            r_body := FormData (lit "file") file |}
    with (upload_request (page s) file).

(** [uploadFile] returns exactly when the response is in the 2xx range
    and its body can be read; in every other case it throws, and with a
    readable error body the message is the [detail] of the body, or
    "Upload failed" when there is none.  Either way it sent one request
    and awaited it. *)
Theorem uploadFile_returns_iff (file : File) (s : state Admin.vars) :
  let o := Admin.upload_reply net (issued s) (upload_request (page s) file) in
  exists res,
    uploadFile file s =
      (res, sent s,
       [ Fetch (upload_request (page s) file);
         Settled (upload_request (page s) file) (settlement_of o) ]) /\
    ((exists j, res = Ok j) <-> upload_succeeds o = true) /\
    (forall r d,
       o = Responded r -> ok r = false -> json r = Body d ->
       res = Throw (Error (if truthy (Admin.detail d)
                           then null_to_string (Admin.detail d)
                           else lit "Upload failed"))).
Proof.
  cbv zeta. unfold Admin.uploadFile. run_script. fold_upload_request s file.
  destruct (Admin.upload_reply net (issued s) (upload_request (page s) file))
    as [msg|r]; cbn [settlement_of upload_succeeds].
  - eexists. split; [reflexivity|]. split.
    + split; [intros [j H]; discriminate H | discriminate].
    + intros r d H. discriminate H.
  - destruct (ok r) eqn:Hok; cbv beta iota zeta delta [negb andb];
      destruct (json r) as [msg|d] eqn:Hj;
      (eexists; split; [reflexivity|]); split;
      try (split; [intros [j H]; discriminate H | discriminate]);
      try (split; [reflexivity | intros _; eexists; reflexivity]);
      intros r' d' Hr Hok' Hj'; injection Hr as <-; try congruence.
    rewrite Hj in Hj'. injection Hj' as <-. reflexivity.
Qed.

Lemma uploadFile_result (file : File) (s : state Admin.vars) :
  exists res st,
    uploadFile file s =
      (res, sent s,
       [ Fetch (upload_request (page s) file);
         Settled (upload_request (page s) file) st ]) /\
    (match res with Ok _ => true | Throw _ => false end) =
    upload_succeeds
      (Admin.upload_reply net (issued s) (upload_request (page s) file)).
Proof.
  unfold Admin.uploadFile. run_script. fold_upload_request s file.
  destruct (Admin.upload_reply net (issued s) (upload_request (page s) file))
    as [msg|r]; cbn [upload_succeeds].
  - eexists; eexists; split; reflexivity.
  - destruct (ok r); cbv beta iota zeta delta [negb andb];
      destruct (json r); eexists; eexists; split; reflexivity.
Qed.

Lemma uploadLoop_observed (rest : list File) :
  forall (i len : nat) (s : state Admin.vars),
  exists s' ev,
    uploadLoop rest i len s = (Ok tt, s', ev) /\
    page s' = page s /\
    stored_token s' = stored_token s /\
    issued s' = (issued s + List.length rest)%nat /\
    percents ev = map (progress len) (seq i (List.length rest)) /\
    written "statusMessage" "textContent" ev =
      upload_banners net (page s) (issued s) rest /\
    written "progressFill" "style.width" ev = [].
Proof.
  induction rest as [|file rest IH]; intros i len s.
  - exists s, []. repeat split; simpl; auto.
  - destruct (uploadFile_result file s) as [res [st [Hup Hres]]].
    destruct (IH (S i) len (sent s)) as [s' [ev [Hrun [Hp [Ht [Hi [Hpc [Hb Hw]]]]]]]].
    cbn [Admin.uploadLoop]. unfold Admin.showStatus. run_script.
    rewrite Hup. cbn [List.length seq map upload_banners]. unfold upload_banner.
    rewrite <- Hres.
    destruct res as [a|e]; rewrite Hrun;
      (eexists; eexists; split; [reflexivity|]);
      (repeat split;
       [ exact Hp
       | exact Ht
       | rewrite Hi; simpl; lia
       | cbn [app percents]; rewrite Hpc; reflexivity
       | cbn; rewrite Hb; reflexivity
       | cbn; exact Hw ]).
Qed.

(** A double divided by itself: the quotient of the mantissas is a
    power of two, and nothing is rounded. *)
Lemma SFdiv_core_same (m : positive) (e : Z) :
  SFdiv_core_binary 53 1024 (Zpos m) e (Zpos m) e = (2 ^ 53, -53, loc_Exact).
Proof.
  unfold SFdiv_core_binary.
  replace (Zdigits2 (Zpos m) + e - (Zdigits2 (Zpos m) + e)) with 0 by ring.
  replace (e - e) with 0 by ring.
  change (IntDef.Z.min (fexp 53 1024 0) 0) with (-53).
  change (0 - -53) with 53.
  cbv beta iota zeta.
  change (IntDef.Z.shiftl (Zpos m) 53) with (Z.shiftl (Zpos m) 53).
  rewrite Z.shiftl_mul_pow2 by lia.
  change IntDef.Z.div_eucl with Z.div_eucl.
  assert (H : Z.div_eucl (Zpos m * 2 ^ 53) (Zpos m) = (2 ^ 53, 0)).
  { generalize (Z.div_eucl_eq (Zpos m * 2 ^ 53) (Zpos m)).
    generalize (Z.mod_pos_bound (Zpos m * 2 ^ 53) (Zpos m)).
    unfold Z.modulo.
    destruct (Z.div_eucl (Zpos m * 2 ^ 53) (Zpos m)) as [q r].
    intros Hb He. specialize (Hb ltac:(lia)). specialize (He ltac:(lia)).
    assert (q = 2 ^ 53) by nia. f_equal; lia. }
  rewrite H. unfold new_location.
  destruct (IntDef.Z.even (Zpos m)); reflexivity.
Qed.

Lemma double_div_same (m : positive) (e : Z) :
  double_div (S754_finite false m e) (S754_finite false m e) = double_one.
Proof.
  unfold double_div, SFdiv. rewrite SFdiv_core_same. vm_compute. reflexivity.
Qed.

Lemma double_of_nat_finite (n : nat) :
  (0 < n)%nat -> Z.of_nat n < 2 ^ 53 ->
  exists m e, double_of_nat n = S754_finite false m e.
Proof.
  intros Hn Hb. unfold double_of_nat.
  destruct (Z.of_nat n) as [|p|p] eqn:E; try lia.
  assert (Z.log2 (Zpos p) < 53) by (apply Z.log2_lt_pow2; lia).
  cbv zeta. destruct (Z.ltb_spec (Z.log2 (Zpos p)) 53); [|lia].
  eexists; eexists; reflexivity.
Qed.

Lemma progress_last (n : nat) :
  (0 < n)%nat -> Z.of_nat n < 2 ^ 53 -> progress n (n - 1) = double_hundred.
Proof.
  intros Hn Hb. unfold progress.
  replace (n - 1 + 1)%nat with n by lia.
  destruct (double_of_nat_finite n Hn Hb) as [m [e H]].
  rewrite H, double_div_same. vm_compute. reflexivity.
Qed.

(** On the natural numbers below 3000 the double of a number is the
    one the rounding of [SpecFloat] gives. *)
Example double_of_nat_normalized :
  forallb (fun n => SFeqb (double_of_nat n)
                          (binary_normalize 53 1024 (Z.of_nat n) 0 false))
          (seq 1 3000) = true.
Proof. vm_compute. reflexivity. Qed.

(** While [uploadFiles] runs, the progress bar is set once per file, to
    the double [((k + 1) / n) * 100] for the [k]-th of [n] files, and
    each file gets one banner that reports the outcome of its own
    request; the percentage set for the last file is the double 100
    (the quotient of a number by itself is 1 without rounding), and the
    bar is then reset to "0%". *)
Theorem uploadFiles_progress (files : list File) (s : state Admin.vars) :
  let ev := events (uploadFiles files s) in
  let n := List.length files in
  percents ev = map (progress n) (seq 0 n) /\
  written "statusMessage" "textContent" ev =
    upload_banners net (page s) (issued s) files /\
  written "progressFill" "style.width" ev = [lit "0%"] /\
  (files <> [] -> Z.of_nat n < 2 ^ 53 ->
   last (percents ev) S754_nan = double_hundred).
Proof.
  cbv zeta.
  destruct (uploadLoop_observed files 0 (List.length files) s)
    as [s1 [ev [Hrun [Hp [Ht [Hi [Hpc [Hb Hw]]]]]]]].
  destruct (loadDocuments_observed s1)
    as [s2 [ld [Hld [Hp2 [Hi2 [Hr2 [Hpc2 [Ha2 [Hb2 [Hm2 [Ht2 Hld_w]]]]]]]]]]].
  unfold Admin.uploadFiles. run_script. rewrite Hrun, Hld.
  cbn [events snd].
  assert (Hall : percents
            ([SetProp "uploadProgress" "style.display" (lit "block")] ++
             ev ++
             [SetProp "uploadProgress" "style.display" (lit "none")] ++
             [SetProp "progressFill" "style.width" (lit "0%")] ++
             [SetProp "fileInput" "value" []] ++ ld)
          = map (progress (List.length files)) (seq 0 (List.length files))).
  { rewrite !percents_app, Hpc, Hpc2. cbn [percents]. rewrite !app_nil_r. reflexivity. }
  split; [exact Hall|]. split; [|split].
  - rewrite !written_app, Hb, Hb2. cbn. rewrite app_nil_r. reflexivity.
  - rewrite !written_app, Hw, Hld_w. reflexivity.
  - intros Hne Hlen. rewrite Hall.
    destruct files as [|f files]; [congruence|].
    rewrite <- (progress_last (List.length (f :: files)));
      [|simpl; lia|exact Hlen].
    cbn [List.length]. rewrite seq_S, map_app. cbn [map].
    rewrite last_last. cbn [Nat.add]. f_equal. lia.
Qed.

(** *** The confirm listener, case by case *)

Lemma confirmDelete_idle (s : state Admin.vars) :
  truthy (Admin.fileToDelete (page s)) = false ->
  confirmDelete_click s = (Ok tt, s, []).
Proof.
  intros H. unfold Admin.confirmDelete_click. run_script. rewrite H. reflexivity.
Qed.

Lemma confirmDelete_refused (s : state Admin.vars) (f : jsstring) :
  Admin.fileToDelete (page s) = Some f ->
  f <> [] ->
  accepted (Admin.delete_reply net (issued s) (delete_request (page s) f)) = false ->
  confirmDelete_click s =
    (Ok tt, sent s,
     [ Fetch (delete_request (page s) f);
       Settled (delete_request (page s) f)
         (settlement_of (Admin.delete_reply net (issued s) (delete_request (page s) f)));
       ConsoleError (lit "Delete error:")
         (delete_error (Admin.delete_reply net (issued s) (delete_request (page s) f))) ]
     ++ banner (lit "Failed to delete document") (lit "error")).
Proof.
  intros Hf Hne Hacc.
  unfold Admin.confirmDelete_click. run_script. rewrite Hf.
  destruct f as [|c f]; [congruence|].
  cbv beta iota delta [truthy negb null_to_string].
  match goal with
  | |- context [Admin.delete_reply net _ ?r] =>
      change r with (delete_request (page s) (c :: f))
  end.
  destruct (Admin.delete_reply net (issued s) (delete_request (page s) (c :: f)))
    as [msg|r]; cbn [accepted] in Hacc.
  - reflexivity.
  - rewrite Hacc. reflexivity.
Qed.

Lemma confirmDelete_accepted (s : state Admin.vars) (f : jsstring) :
  Admin.fileToDelete (page s) = Some f ->
  f <> [] ->
  accepted (Admin.delete_reply net (issued s) (delete_request (page s) f)) = true ->
  exists s2 ld,
    loadDocuments (disarmed s) = (Ok tt, s2, ld) /\
    confirmDelete_click s =
      (Ok tt, s2,
       [ Fetch (delete_request (page s) f);
         Settled (delete_request (page s) f)
           (settlement_of (Admin.delete_reply net (issued s) (delete_request (page s) f))) ]
       ++ banner (f ++ lit " deleted successfully") (lit "success")
       ++ [SetProp "deleteModal" "style.display" (lit "none")]
       ++ ld).
Proof.
  intros Hf Hne Hacc.
  destruct (loadDocuments_observed (disarmed s)) as [s2 [ld [Hld _]]].
  exists s2, ld. split; [exact Hld|].
  unfold Admin.confirmDelete_click, Admin.showStatus, Admin.set_fileToDelete.
  run_script. rewrite Hf.
  destruct f as [|c f]; [congruence|].
  cbv beta iota delta [truthy negb null_to_string].
  match goal with
  | |- context [Admin.delete_reply net _ ?r] =>
      change r with (delete_request (page s) (c :: f))
  end.
  destruct (Admin.delete_reply net (issued s) (delete_request (page s) (c :: f)))
    as [msg|r]; cbn [accepted] in Hacc; [discriminate Hacc|].
  rewrite Hacc. cbv beta iota delta [negb]. cbn [page]. rewrite Hf.
  match goal with
  | |- context [loadDocuments ?st] => change st with (disarmed s)
  end.
  rewrite Hld. reflexivity.
Qed.

(** *** The confirm listener around its [await] *)

Local Abbreviation confirmDelete_settled :=
  (Admin.confirmDelete_settled net toUpperCase toLocaleString has_delete_btn null_TypeError).
Local Abbreviation play :=
  (Admin.play net toUpperCase toLocaleString has_delete_btn null_TypeError).
Local Abbreviation play_moment :=
  (Admin.play_moment net toUpperCase toLocaleString has_delete_btn null_TypeError).

Lemma confirmDelete_sent_idle (s : state Admin.vars) :
  truthy (Admin.fileToDelete (page s)) = false ->
  Admin.confirmDelete_sent s = (Ok None, s, []).
Proof.
  intros H. unfold Admin.confirmDelete_sent. run_script. rewrite H. reflexivity.
Qed.

Lemma confirmDelete_sent_held (s : state Admin.vars) (f : jsstring) :
  Admin.fileToDelete (page s) = Some f ->
  f <> [] ->
  Admin.confirmDelete_sent s =
    (Ok (Some (delete_request (page s) f)), sent s, [Fetch (delete_request (page s) f)]).
Proof.
  intros Hf Hne. unfold Admin.confirmDelete_sent. run_script. rewrite Hf.
  destruct f as [|c f]; [congruence|]. reflexivity.
Qed.

Lemma confirmDelete_settled_refused (req : request) (o : outcome unit)
    (s : state Admin.vars) :
  accepted o = false ->
  confirmDelete_settled req o s =
    (Ok tt, s,
     [ Settled req (settlement_of o);
       ConsoleError (lit "Delete error:") (delete_error o) ]
     ++ banner (lit "Failed to delete document") (lit "error")).
Proof.
  intros Hacc. unfold Admin.confirmDelete_settled. run_script.
  destruct o as [msg|r]; cbn [accepted] in Hacc.
  - reflexivity.
  - rewrite Hacc. reflexivity.
Qed.

Lemma confirmDelete_settled_accepted (req : request) (o : outcome unit)
    (s : state Admin.vars) :
  accepted o = true ->
  exists s2 ld,
    loadDocuments (forgotten s) = (Ok tt, s2, ld) /\
    confirmDelete_settled req o s =
      (Ok tt, s2,
       [Settled req (settlement_of o)]
       ++ banner (null_to_string (Admin.fileToDelete (page s))
                    ++ lit " deleted successfully") (lit "success")
       ++ [SetProp "deleteModal" "style.display" (lit "none")]
       ++ ld).
Proof.
  intros Hacc.
  destruct (loadDocuments_observed (forgotten s)) as [s2 [ld [Hld _]]].
  exists s2, ld. split; [exact Hld|].
  unfold Admin.confirmDelete_settled, Admin.showStatus, Admin.set_fileToDelete.
  run_script.
  destruct o as [msg|r]; cbn [accepted] in Hacc; [discriminate Hacc|].
  rewrite Hacc. cbv beta iota delta [negb]. cbn [page stored_token issued].
  match goal with
  | |- context [loadDocuments ?st] => change st with (forgotten s)
  end.
  rewrite Hld. reflexivity.
Qed.

(** The two halves make up the listener: run one after the other, with
    the reply of the network and nothing in between, they are
    [confirmDelete_click]. *)
Lemma confirmDelete_click_halves (s : state Admin.vars) :
  confirmDelete_click s =
    bind Admin.confirmDelete_sent
      (fun r =>
         match r with
         | Some req =>
             confirmDelete_settled req (Admin.delete_reply net (issued s) req)
         | None => ret tt
         end) s.
Proof.
  unfold Admin.confirmDelete_click, Admin.confirmDelete_sent,
    Admin.confirmDelete_settled.
  run_script.
  destruct (truthy (Admin.fileToDelete (page s))); cbv beta iota delta [negb];
    [|reflexivity].
  cbn [issued page stored_token].
  match goal with
  | |- context [Admin.delete_reply net (issued s) ?r] =>
      destruct (Admin.delete_reply net (issued s) r) as [msg|r']
  end; [reflexivity|].
  destruct (ok r'); cbv beta iota delta [negb]; [|reflexivity].
  unfold Admin.showStatus, Admin.set_fileToDelete. run_script.
  cbn [issued page stored_token].
  match goal with
  | |- context [loadDocuments ?st] => destruct (loadDocuments st) as [[res st'] ev]
  end.
  destruct res; reflexivity.
Qed.

(** When a file is held, a click on the confirm button sends the DELETE
    request for that file at once.  When that request has been accepted,
    whatever happened on the page in the meantime, the rest of the
    listener closes the modal, forgets the file the page holds then,
    reloads the list with one request, and reports a deletion under the
    name the page holds at that moment: the name of the deleted file
    only if nothing changed it ("null" after a cancel or after another
    accepted DELETE, another name after a click on another row). *)
Theorem confirmDelete_success (s : state Admin.vars) (f : jsstring) :
  Admin.fileToDelete (page s) = Some f ->
  f <> [] ->
  Admin.confirmDelete_sent s =
    (Ok (Some (delete_request (page s) f)), sent s,
     [Fetch (delete_request (page s) f)]) /\
  forall (o : outcome unit) (s1 : state Admin.vars),
    accepted o = true ->
    exists s' ev,
      confirmDelete_settled (delete_request (page s) f) o s1 = (Ok tt, s', ev) /\
      Admin.fileToDelete (page s') = None /\
      Admin.token (page s') = Admin.token (page s1) /\
      requests ev = [documents_request (page s1)] /\
      written "statusMessage" "textContent" ev =
        [null_to_string (Admin.fileToDelete (page s1)) ++ lit " deleted successfully"] /\
      written "deleteModal" "style.display" ev = [lit "none"].
Proof.
  intros Hf Hne. split; [exact (confirmDelete_sent_held s f Hf Hne)|].
  intros o s1 Hacc.
  destruct (confirmDelete_settled_accepted (delete_request (page s) f) o s1 Hacc)
    as [s2 [ld [Hld Hrun]]].
  destruct (loadDocuments_observed (forgotten s1))
    as [s2' [ld' [Hld' [Hp [Hi [Hr [Hpc [Ha [Hb [Hm [Ht _]]]]]]]]]]].
  rewrite Hld in Hld'. injection Hld' as <- <-.
  exists s2. eexists. split; [exact Hrun|].
  rewrite Hp. cbn [forgotten page Admin.fileToDelete Admin.token].
  split; [reflexivity|]. split; [reflexivity|].
  rewrite !requests_app, !written_app, Hr, Hb, Hm.
  repeat split; reflexivity.
Qed.

(** A click on the confirm button sends nothing when no file is held:
    after a cancel, and after a click on the delete button of a row
    whose file name is empty. *)
Theorem confirm_without_file_sends_nothing (s : state Admin.vars) (f : jsstring) :
  events (run [Admin.ClickDelete f; Admin.CancelDelete; Admin.ConfirmDelete] s) =
    [ Dispatch "delete-btn" "click" f;
      SetProp "deleteFilename" "textContent" f;
      SetProp "deleteModal" "style.display" (lit "flex");
      Dispatch "cancelDelete" "click" [];
      SetProp "deleteModal" "style.display" (lit "none");
      Dispatch "confirmDelete" "click" [] ] /\
  requests (events (run [Admin.ClickDelete []; Admin.ConfirmDelete] s)) = [].
Proof.
  split; reflexivity.
Qed.

Lemma confirmDelete_accepted_requests (s : state Admin.vars) (f : jsstring) :
  Admin.fileToDelete (page s) = Some f ->
  f <> [] ->
  accepted (Admin.delete_reply net (issued s) (delete_request (page s) f)) = true ->
  exists s' ev,
    confirmDelete_click s = (Ok tt, s', ev) /\
    Admin.fileToDelete (page s') = None /\
    Admin.token (page s') = Admin.token (page s) /\
    (stored_token s' = stored_token s \/ stored_token s' = None) /\
    requests ev = [delete_request (page s) f; documents_request (page s)].
Proof.
  intros Hf Hne Hacc.
  destruct (confirmDelete_accepted s f Hf Hne Hacc) as [s2 [ld [Hld Hrun]]].
  destruct (loadDocuments_observed (disarmed s))
    as [s2' [ld' [Hld' [Hp [Hi [Hr [Hpc [Ha [Hb [Hm [Ht _]]]]]]]]]]].
  rewrite Hld in Hld'. injection Hld' as <- <-.
  exists s2. eexists. split; [exact Hrun|].
  rewrite Hp. cbn [disarmed page Admin.fileToDelete Admin.token].
  split; [reflexivity|]. split; [reflexivity|]. split; [exact Ht|].
  rewrite !requests_app, Hr. reflexivity.
Qed.

(** The rest of the confirm listener, whatever the outcome: it returns,
    sends no DELETE request, shows one banner, and forgets the file
    exactly when the request was accepted. *)
Lemma confirmDelete_settled_summary (req : request) (o : outcome unit)
    (s : state Admin.vars) :
  exists s' ev,
    confirmDelete_settled req o s = (Ok tt, s', ev) /\
    Admin.token (page s') = Admin.token (page s) /\
    Admin.fileToDelete (page s') =
      (if accepted o then None else Admin.fileToDelete (page s)) /\
    deletes ev = [] /\
    written "statusMessage" "textContent" ev =
      [if accepted o
       then null_to_string (Admin.fileToDelete (page s)) ++ lit " deleted successfully"
       else lit "Failed to delete document"].
Proof.
  destruct (accepted o) eqn:Hacc.
  - destruct (confirmDelete_settled_accepted req o s Hacc) as [s2 [ld [Hld Hrun]]].
    destruct (loadDocuments_observed (forgotten s))
      as [s2' [ld' [Hld' [Hp [Hi [Hr [Hpc [Ha [Hb [Hm [Ht _]]]]]]]]]]].
    rewrite Hld in Hld'. injection Hld' as <- <-.
    exists s2. eexists. split; [exact Hrun|].
    rewrite Hp. cbn [forgotten page Admin.fileToDelete Admin.token].
    split; [reflexivity|]. split; [reflexivity|].
    unfold deletes. rewrite !requests_app, !written_app, Hr, Hb.
    split; reflexivity.
  - rewrite (confirmDelete_settled_refused req o s Hacc).
    eexists; eexists. split; [reflexivity|]. repeat split; reflexivity.
Qed.

Lemma delete_request_same (v v' : Admin.vars) (f : jsstring) :
  Admin.token v = Admin.token v' -> delete_request v f = delete_request v' f.
Proof.
  intros H. unfold delete_request, Admin.authHeaders. rewrite H. reflexivity.
Qed.

Lemma play_cons (m : Admin.moment) (ms : list Admin.moment)
    (pending : list request) (s : state Admin.vars) :
  play (m :: ms) pending s =
    match play_moment m pending s with
    | (Ok pending', s1, e1) =>
        let '(r, s2, e2) := play ms pending' s1 in (r, s2, e1 ++ e2)
    | (Throw e, s1, e1) => (Throw e, s1, e1)
    end.
Proof.
  reflexivity.
Qed.

Lemma play_click (f : jsstring) (pending : list request) (s : state Admin.vars) :
  play_moment (Admin.User (Admin.ClickDelete f)) pending s =
    (Ok pending, chosen f s,
     [ Dispatch "delete-btn" "click" f;
       SetProp "deleteFilename" "textContent" f;
       SetProp "deleteModal" "style.display" (lit "flex") ]).
Proof.
  reflexivity.
Qed.

Lemma play_confirm_idle (pending : list request) (s : state Admin.vars) :
  truthy (Admin.fileToDelete (page s)) = false ->
  play_moment (Admin.User Admin.ConfirmDelete) pending s =
    (Ok pending, s, [Dispatch "confirmDelete" "click" []]).
Proof.
  intros H. cbn [Admin.play_moment]. run_script.
  rewrite (confirmDelete_sent_idle s H). reflexivity.
Qed.

Lemma play_confirm_held (pending : list request) (s : state Admin.vars)
    (f : jsstring) :
  Admin.fileToDelete (page s) = Some f ->
  f <> [] ->
  play_moment (Admin.User Admin.ConfirmDelete) pending s =
    (Ok (pending ++ [delete_request (page s) f]), sent s,
     [ Dispatch "confirmDelete" "click" [];
       Fetch (delete_request (page s) f) ]).
Proof.
  intros Hf Hne. cbn [Admin.play_moment]. run_script.
  rewrite (confirmDelete_sent_held s f Hf Hne). reflexivity.
Qed.

Lemma play_settle_none (o : outcome unit) (s : state Admin.vars) :
  play_moment (Admin.DeleteSettles 0 o) [] s = (Ok [], s, []).
Proof.
  reflexivity.
Qed.

Lemma play_settle_first (req : request) (rest : list request) (o : outcome unit)
    (s : state Admin.vars) :
  exists s' ev,
    play_moment (Admin.DeleteSettles 0 o) (req :: rest) s = (Ok rest, s', ev) /\
    Admin.token (page s') = Admin.token (page s) /\
    Admin.fileToDelete (page s') =
      (if accepted o then None else Admin.fileToDelete (page s)) /\
    deletes ev = [] /\
    written "statusMessage" "textContent" ev =
      [if accepted o
       then null_to_string (Admin.fileToDelete (page s)) ++ lit " deleted successfully"
       else lit "Failed to delete document"].
Proof.
  destruct (confirmDelete_settled_summary req o s)
    as [s' [ev [Hrun [Ht [Hf [Hd Hb]]]]]].
  exists s', ev. split; [|repeat split; assumption].
  cbn [Admin.play_moment nth_error firstn skipn app]. run_script.
  rewrite Hrun. rewrite app_nil_r. reflexivity.
Qed.

(** A second click on the confirm button while the first DELETE request
    is pending finds the file still held and sends the request again:
    two DELETE requests for the same file, whatever their outcomes; and
    when both are accepted, the second banner reports the deletion of
    "null", the first listener having forgotten the file.  A second click
    that comes after the first request has settled sends the request
    again only if the first one was not accepted. *)
Theorem second_confirm_while_pending (s : state Admin.vars) (f : jsstring)
    (o1 o2 : outcome unit) :
  f <> [] ->
  let req := delete_request (page s) f in
  let early :=
    [ Admin.User (Admin.ClickDelete f);
      Admin.User Admin.ConfirmDelete;
      Admin.User Admin.ConfirmDelete;
      Admin.DeleteSettles 0 o1;
      Admin.DeleteSettles 0 o2 ] in
  let late :=
    [ Admin.User (Admin.ClickDelete f);
      Admin.User Admin.ConfirmDelete;
      Admin.DeleteSettles 0 o1;
      Admin.User Admin.ConfirmDelete;
      Admin.DeleteSettles 0 o2 ] in
  deletes (events (play early [] s)) = [req; req] /\
  (accepted o1 = true -> accepted o2 = true ->
   written "statusMessage" "textContent" (events (play early [] s)) =
     [f ++ lit " deleted successfully"; lit "null deleted successfully"]) /\
  deletes (events (play late [] s)) = (if accepted o1 then [req] else [req; req]).
Proof.
  intros Hne. cbv zeta.
  split; [|split].
  - (* the second click comes first *)
    rewrite play_cons, play_click.
    rewrite play_cons, (play_confirm_held [] (chosen f s) f eq_refl Hne).
    rewrite play_cons, (play_confirm_held _ (sent (chosen f s)) f eq_refl Hne).
    rewrite play_cons.
    destruct (play_settle_first (delete_request (page (chosen f s)) f)
                [delete_request (page (sent (chosen f s))) f] o1
                (sent (sent (chosen f s))))
      as [s1 [ev1 [H1 [_ [_ [Hd1 _]]]]]].
    cbn [app] in *. rewrite H1.
    rewrite play_cons.
    destruct (play_settle_first (delete_request (page (sent (chosen f s))) f) [] o2 s1)
      as [s2 [ev2 [H2 [_ [_ [Hd2 _]]]]]].
    rewrite H2. cbn [Admin.play ret events snd].
    unfold deletes in *. cbn [requests filter delete_request r_method].
    rewrite !requests_app, !filter_app, Hd1, Hd2. reflexivity.
  - intros Ha1 Ha2.
    rewrite play_cons, play_click.
    rewrite play_cons, (play_confirm_held [] (chosen f s) f eq_refl Hne).
    rewrite play_cons, (play_confirm_held _ (sent (chosen f s)) f eq_refl Hne).
    rewrite play_cons.
    destruct (play_settle_first (delete_request (page (chosen f s)) f)
                [delete_request (page (sent (chosen f s))) f] o1
                (sent (sent (chosen f s))))
      as [s1 [ev1 [H1 [_ [Hf1 [_ Hb1]]]]]].
    cbn [app] in *. rewrite H1.
    rewrite play_cons.
    destruct (play_settle_first (delete_request (page (sent (chosen f s))) f) [] o2 s1)
      as [s2 [ev2 [H2 [_ [_ [_ Hb2]]]]]].
    rewrite H2. cbn [Admin.play ret events snd].
    rewrite Ha1 in Hf1, Hb1. rewrite Ha2, Hf1 in Hb2.
    cbn [written String.eqb Ascii.eqb Bool.eqb andb].
    rewrite !written_app, Hb1, Hb2. reflexivity.
  - (* the second click comes after the first request has settled *)
    rewrite play_cons, play_click.
    rewrite play_cons, (play_confirm_held [] (chosen f s) f eq_refl Hne).
    rewrite play_cons.
    destruct (play_settle_first (delete_request (page (chosen f s)) f) [] o1
                (sent (chosen f s)))
      as [s1 [ev1 [H1 [Ht1 [Hf1 [Hd1 _]]]]]].
    cbn [app] in *. rewrite H1.
    rewrite play_cons.
    destruct (accepted o1).
    + rewrite (play_confirm_idle [] s1) by (rewrite Hf1; reflexivity).
      rewrite play_cons, play_settle_none.
      cbn [Admin.play ret events snd].
      unfold deletes in *. cbn [requests filter delete_request r_method].
      rewrite !requests_app, !filter_app, Hd1. reflexivity.
    + rewrite (play_confirm_held [] s1 f Hf1 Hne).
      rewrite play_cons.
      destruct (play_settle_first (delete_request (page s1) f) [] o2 (sent s1))
        as [s2 [ev2 [H2 [_ [_ [Hd2 _]]]]]].
      cbn [app] in *. rewrite H2. cbn [Admin.play ret events snd].
      rewrite (delete_request_same (page s1) (page s) f) by exact Ht1.
      unfold deletes in *. cbn [requests filter delete_request r_method].
      rewrite requests_app, filter_app, Hd1.
      cbn [requests filter delete_request r_method app].
      rewrite requests_app, filter_app, Hd2. reflexivity.
Qed.


(** *** Rebuilding the index and the health check *)

(** Declined, the rebuild sends nothing and shows nothing.  Confirmed, it
    sends one request, shows one banner, of success exactly when the
    request was accepted, and does not reload the list or wait for the
    rebuild to end. *)
Theorem rebuildIndex_once (confirmed : bool) (s : state Admin.vars) :
  let o := Admin.rebuild_reply net (issued s) (rebuild_request (page s)) in
  exists s' ev,
    Admin.rebuildIndexBtn_click net confirmed s = (Ok tt, s', ev) /\
    page s' = page s /\
    stored_token s' = stored_token s /\
    requests ev = (if confirmed then [rebuild_request (page s)] else []) /\
    written "statusMessage" "textContent" ev =
      (if confirmed
       then [if accepted o then lit "Index rebuild initiated"
             else lit "Failed to rebuild index"]
       else []) /\
    (confirmed = false -> ev = []).
Proof.
  cbv zeta. unfold Admin.rebuildIndexBtn_click, Admin.showStatus. run_script.
  destruct confirmed; cbv beta iota delta [negb].
  - match goal with
    | |- context [Admin.rebuild_reply net _ ?r] =>
        change r with (rebuild_request (page s))
    end.
    destruct (Admin.rebuild_reply net (issued s) (rebuild_request (page s)))
      as [msg|r]; cbn [accepted].
    + eexists; eexists; repeat split; try reflexivity. discriminate.
    + destruct (ok r); eexists; eexists; repeat split; try reflexivity; discriminate.
  - eexists; eexists; repeat split; reflexivity.
Qed.

(** The health check sends no credential and does not look at the
    status of the response: any response whose body can be read, even
    one outside the 2xx range, ends in the alert with the two fields of
    the body, a missing field written as "undefined". *)
Theorem systemStatus_ignores_status (s : state Admin.vars)
    (r : response Admin.HealthJson) (data : Admin.HealthJson) :
  Admin.health_reply net (issued s) health_request = Responded r ->
  json r = Body data ->
  Admin.systemStatusBtn_click net s =
    (Ok tt, sent s,
     [ Fetch health_request;
       Settled health_request (Fulfilled (status r));
       Alert (lit "System Status: " ++ to_string (Admin.health_status data)
                ++ [10%N] ++ lit "Version: " ++ to_string (Admin.health_version data)) ]).
Proof.
  intros Hreply Hjson.
  unfold Admin.systemStatusBtn_click. run_script.
  change {| r_method := GET; r_url := lit "/health"; r_headers := []; r_body := NoBody |}
    with health_request.
  rewrite Hreply, Hjson. reflexivity.
Qed.

(** *** Invariants of the page *)

Lemma authorized_token (v v' : Admin.vars) (r : request) :
  Admin.token v' = Admin.token v -> authorized v r -> authorized v' r.
Proof.
  intros H [Hr|Hr]; [left|right; exact Hr].
  rewrite Hr. unfold Admin.authHeaders. rewrite H. reflexivity.
Qed.

Lemma uploadFiles_summary (files : list File) (s : state Admin.vars) :
  exists s' ev,
    uploadFiles files s = (Ok tt, s', ev) /\
    page s' = page s /\
    (stored_token s' = stored_token s \/ stored_token s' = None) /\
    requests ev =
      map (upload_request (page s)) files ++ [documents_request (page s)].
Proof.
  destruct (uploadLoop_run net files 0 (List.length files) s)
    as [s1 [ev [Hrun [Hp [Ht [Hi [Hr [Hf Hd]]]]]]]].
  destruct (loadDocuments_observed s1)
    as [s2 [ld [Hld [Hp2 [Hi2 [Hr2 [_ [_ [_ [_ [Ht2 _]]]]]]]]]]].
  unfold Admin.uploadFiles. run_script. rewrite Hrun, Hld.
  eexists; eexists; split; [reflexivity|].
  split; [congruence|]. split; [rewrite <- Ht; exact Ht2|].
  cbn [app requests]. rewrite !requests_app, Hr. cbn [requests].
  rewrite Hr2, Hp. reflexivity.
Qed.

Lemma Forall_upload_requests (v : Admin.vars) (files : list File) :
  Forall (authorized v) (map (upload_request v) files ++ [documents_request v]).
Proof.
  apply Forall_app. split.
  - apply Forall_forall. intros r Hr. apply in_map_iff in Hr.
    destruct Hr as [f [<- _]]. left. reflexivity.
  - constructor; [left; reflexivity | constructor].
Qed.

(** One user event: the listener returns; it leaves the token of the
    script alone and the stored token too, unless it removes it; and
    every request it sends is authorized. *)
Lemma handle_summary (a : Admin.action) (s : state Admin.vars) :
  exists s' ev,
    handle a s = (Ok tt, s', ev) /\
    Admin.token (page s') = Admin.token (page s) /\
    (stored_token s' = stored_token s \/ stored_token s' = None) /\
    Forall (authorized (page s)) (requests ev).
Proof.
  destruct a as [|files|files|f| | | |c|]; cbn [Admin.handle].
  - (* Logout *)
    eexists; eexists; split; [reflexivity|]. repeat split; auto.
  - (* ChooseFiles *)
    unfold Admin.fileInput_change. run_script.
    destruct (0 <? List.length files)%nat.
    + destruct (uploadFiles_summary files s) as [s' [ev [Hrun [Hp [Ht Hr]]]]].
      rewrite Hrun. eexists; eexists; split; [reflexivity|].
      rewrite Hp. split; [reflexivity|]. split; [exact Ht|].
      cbn [app requests]. rewrite Hr. apply Forall_upload_requests.
    + eexists; eexists; split; [reflexivity|]. repeat split; auto.
  - (* DropFiles *)
    unfold Admin.uploadArea_drop. run_script.
    destruct (uploadFiles_summary files s) as [s' [ev [Hrun [Hp [Ht Hr]]]]].
    rewrite Hrun. eexists; eexists; split; [reflexivity|].
    rewrite Hp. split; [reflexivity|]. split; [exact Ht|].
    cbn [app requests]. rewrite Hr. apply Forall_upload_requests.
  - (* ClickDelete *)
    eexists; eexists; split; [reflexivity|]. repeat split; auto.
  - (* CancelDelete *)
    eexists; eexists; split; [reflexivity|]. repeat split; auto.
  - (* ConfirmDelete *)
    run_script.
    destruct (truthy (Admin.fileToDelete (page s))) eqn:Htr.
    + destruct (Admin.fileToDelete (page s)) as [f|] eqn:Hf; [|discriminate Htr].
      assert (Hne : f <> []) by (intros ->; discriminate Htr).
      destruct (accepted (Admin.delete_reply net (issued s) (delete_request (page s) f)))
        eqn:Hacc.
      * destruct (confirmDelete_accepted_requests s f Hf Hne Hacc)
          as [s' [ev [Hrun [Hnone [Htok [Hst Hreq]]]]]].
        rewrite Hrun. eexists; eexists; split; [reflexivity|].
        split; [exact Htok|]. split; [exact Hst|].
        cbn [app requests]. rewrite Hreq.
        constructor; [left; reflexivity|].
        constructor; [left; reflexivity | constructor].
      * rewrite (confirmDelete_refused s f Hf Hne Hacc).
        eexists; eexists; split; [reflexivity|].
        split; [reflexivity|]. split; [left; reflexivity|].
        cbn. constructor; [left; reflexivity | constructor].
    + rewrite (confirmDelete_idle s Htr).
      eexists; eexists; split; [reflexivity|]. repeat split; auto.
  - (* Refresh *)
    run_script.
    destruct (loadDocuments_observed s)
      as [s2 [ld [Hld [Hp2 [Hi2 [Hr2 [_ [_ [_ [_ [Ht2 _]]]]]]]]]]].
    rewrite Hld. eexists; eexists; split; [reflexivity|].
    rewrite Hp2. split; [reflexivity|]. split; [exact Ht2|].
    cbn [app requests]. rewrite Hr2.
    constructor; [left; reflexivity | constructor].
  - (* RebuildIndex *)
    unfold Admin.rebuildIndexBtn_click, Admin.showStatus. run_script.
    destruct c; cbv beta iota delta [negb].
    + match goal with
      | |- context [Admin.rebuild_reply net ?n ?r] =>
          destruct (Admin.rebuild_reply net n r) as [msg|r']
      end.
      * eexists; eexists; split; [reflexivity|].
        split; [reflexivity|]. split; [left; reflexivity|].
        cbn. constructor; [left; reflexivity | constructor].
      * destruct (ok r'); eexists; eexists; (split; [reflexivity|]);
          (split; [reflexivity|]); (split; [left; reflexivity|]);
          cbn; (constructor; [left; reflexivity | constructor]).
    + eexists; eexists; split; [reflexivity|]. repeat split; auto.
  - (* SystemStatus *)
    unfold Admin.systemStatusBtn_click, Admin.showStatus. run_script.
    match goal with
    | |- context [Admin.health_reply net ?n ?r] =>
        destruct (Admin.health_reply net n r) as [msg|r']
    end.
    + eexists; eexists; split; [reflexivity|].
      split; [reflexivity|]. split; [left; reflexivity|].
      cbn. constructor; [right; reflexivity | constructor].
    + destruct (json r'); eexists; eexists; (split; [reflexivity|]);
        (split; [reflexivity|]); (split; [left; reflexivity|]);
        cbn; (constructor; [right; reflexivity | constructor]).
Qed.

Lemma run_summary (acts : list Admin.action) :
  forall s : state Admin.vars,
  exists s' ev,
    run acts s = (Ok tt, s', ev) /\
    Admin.token (page s') = Admin.token (page s) /\
    (stored_token s' = stored_token s \/ stored_token s' = None) /\
    Forall (authorized (page s)) (requests ev).
Proof.
  induction acts as [|a acts IH]; intros s.
  - exists s, []. repeat split; auto.
  - destruct (handle_summary a s) as [s1 [ev1 [Hrun1 [Htok1 [Hst1 Hreq1]]]]].
    destruct (IH s1) as [s2 [ev2 [Hrun2 [Htok2 [Hst2 Hreq2]]]]].
    cbn [Admin.run]. unfold bind at 1. rewrite Hrun1, Hrun2.
    eexists; eexists; split; [reflexivity|].
    split; [congruence|]. split.
    + destruct Hst2 as [H2|H2]; [rewrite H2; exact Hst1 | right; exact H2].
    + rewrite requests_app. apply Forall_app. split; [exact Hreq1|].
      eapply Forall_impl; [|exact Hreq2].
      intros r Hr. apply (authorized_token (page s1)); [symmetry; exact Htok1 | exact Hr].
Qed.

(** Whatever the user does and the network answers, every request the
    admin page sends carries the bearer header computed from the token
    the page loaded with, except the health check, which carries no
    header; the token of the script never changes. *)
Theorem run_requests_authorized (acts : list Admin.action) (s : state Admin.vars) :
  Forall (authorized (page s)) (requests (events (run acts s))) /\
  Admin.token (page (final (run acts s))) = Admin.token (page s).
Proof.
  destruct (run_summary acts s) as [s' [ev [Hrun [Htok [_ Hreq]]]]].
  rewrite Hrun. split; [exact Hreq | exact Htok].
Qed.

(** No listener of the admin page lets an exception escape, and none
    writes a token into storage: after any sequence of user events the
    stored token is the one found at the start, or it is gone. *)
Theorem run_keeps_or_removes_token (acts : list Admin.action) (s : state Admin.vars) :
  exists s' ev,
    run acts s = (Ok tt, s', ev) /\
    (stored_token s' = stored_token s \/ stored_token s' = None).
Proof.
  destruct (run_summary acts s) as [s' [ev [Hrun [_ [Hst _]]]]].
  exists s', ev. split; [exact Hrun | exact Hst].
Qed.

End AdminMore.

(** ** The query clients, continued *)

Lemma removed_app (a b : list event) : removed (a ++ b) = removed a ++ removed b.
Proof.
  induction a as [|e a IH]; [reflexivity|].
  destruct e; cbn [app removed]; rewrite ?IH; reflexivity.
Qed.

Section QueryMore.

Variable query_reply : nat -> request -> outcome Answer.
Variable toUpperCase : jsstring -> jsstring.
Variable native_source : string -> jsstring.
Variable now : Z.

Local Abbreviation submitQuery := (App.submitQuery query_reply toUpperCase native_source).
Local Abbreviation displayResults := (App.displayResults toUpperCase native_source).
Local Abbreviation createSourceElement := (App.createSourceElement toUpperCase native_source).
Local Abbreviation sendMessage := (Chat.sendMessage query_reply native_source now).

Lemma appendSources_events (l : list Source) :
  forall (i : nat) (s : state App.vars),
    App.appendSources toUpperCase native_source l i s =
      (Ok tt, s, map (fun src => Append "sourcesContent" (createSourceElement src 0)) l).
Proof.
  induction l as [|src l IH]; intros i s; [reflexivity|].
  cbn [App.appendSources]. run_script. rewrite IH. reflexivity.
Qed.

Lemma appended_sources (l : list Source) :
  appended "sourcesContent"
    (map (fun src => Append "sourcesContent" (createSourceElement src 0)) l) =
    map (fun src => createSourceElement src 0) l /\
  (forall t p,
     written t p
       (map (fun src => Append "sourcesContent" (createSourceElement src 0)) l) = []) /\
  requests (map (fun src => Append "sourcesContent" (createSourceElement src 0)) l) = [] /\
  alerts (map (fun src => Append "sourcesContent" (createSourceElement src 0)) l) = [].
Proof.
  induction l as [|src l [H1 [H2 [H3 H4]]]]; [repeat split; reflexivity|].
  cbn [map appended written requests alerts]. repeat split; auto.
  cbn. f_equal. exact H1.
Qed.

(** The single-shot client shows every source of the answer, each as an
    element of its own and in the order of the answer, without the limit
    of five of the chat client; with no source it writes the notice
    instead.  A processing time of absolute value below 10^21 is written
    with two decimals (from there on [toFixed] changes to the exponent
    notation). *)
Theorem displayResults_sources (data : Answer) (s : state App.vars) :
  exists ev,
    displayResults data s = (Ok tt, s, ev) /\
    appended "sourcesContent" ev =
      map (fun src => createSourceElement src 0) (sources_list data) /\
    written "sourcesContent" "innerHTML" ev =
      (if has_sources data then [[]] else [[]; no_sources_html]) /\
    ((Qabs (processing_time data) < inject_Z (10 ^ 21))%Q ->
     written "processingTime" "textContent" ev = [toFixed2 (processing_time data)]) /\
    requests ev = [] /\ alerts ev = [].
Proof.
  unfold App.displayResults. run_script.
  destruct (has_sources data) eqn:Hs.
  - rewrite appendSources_events.
    destruct (appended_sources (sources_list data)) as [H1 [H2 [H3 H4]]].
    remember (map (fun src => Append "sourcesContent" (createSourceElement src 0))
                  (sources_list data)) as R.
    eexists. split; [reflexivity|].
    cbn [app]. repeat split; try intros _; cbn;
      rewrite ?appended_app, ?written_app, ?requests_app, ?alerts_app,
        ?H1, ?H2, ?H3, ?H4; cbn; rewrite ?app_nil_r; reflexivity.
  - assert (Hl : sources_list data = []).
    { unfold has_sources, sources_list in *.
      destruct (sources data) as [[|x l]|]; try reflexivity. discriminate Hs. }
    rewrite Hl. eexists. split; [reflexivity|].
    repeat split; try intros _; reflexivity.
Qed.

Lemma displayResults_events (data : Answer) (s : state App.vars) :
  displayResults data s =
    (Ok tt, s,
     [ SetProp "resultsSection" "style.display" (lit "block");
       SetProp "answerContent" "textContent" (answer data);
       SetProp "processingTime" "textContent" (toFixed2 (processing_time data));
       SetProp "sourcesContent" "innerHTML" [] ]
     ++ (if has_sources data
         then map (fun src => Append "sourcesContent" (createSourceElement src 0))
                  (sources_list data)
         else [SetProp "sourcesContent" "innerHTML" no_sources_html])
     ++ [ScrollIntoView "resultsSection"]).
Proof.
  unfold App.displayResults. run_script.
  destruct (has_sources data).
  - rewrite appendSources_events. reflexivity.
  - reflexivity.
Qed.

Lemma displayResults_observed (data : Answer) (s : state App.vars) :
  exists ev,
    displayResults data s = (Ok tt, s, ev) /\
    requests ev = [] /\ alerts ev = [] /\
    written "submitBtn" "disabled" ev = [] /\
    written "resultsSection" "style.display" ev = [lit "block"] /\
    written "answerContent" "textContent" ev = [answer data].
Proof.
  rewrite displayResults_events. eexists. split; [reflexivity|].
  destruct (has_sources data).
  - destruct (appended_sources (sources_list data)) as [H1 [H2 [H3 H4]]].
    remember (map (fun src => Append "sourcesContent" (createSourceElement src 0))
                  (sources_list data)) as R.
    cbn [app]. repeat split; cbn;
      rewrite ?written_app, ?requests_app, ?alerts_app, ?H2, ?H3, ?H4; reflexivity.
  - repeat split; reflexivity.
Qed.

(** A question that is not blank takes the single-shot client through
    one cycle, whatever the network does: the button is disabled, one
    request carries the trimmed question, and the button is enabled
    again; no exception escapes.  The answer is shown when the response
    is in the 2xx range and readable; in every other case the results
    stay hidden and the one alert is raised. *)
Theorem submitQuery_lifecycle (s : state App.vars) :
  let question := trim (App.queryInput_value (page s)) in
  let res := query_result app_failed (query_reply (issued s) (query_request question)) in
  question <> [] ->
  exists ev,
    submitQuery s = (Ok tt, requested s, ev) /\
    requests ev = [query_request question] /\
    written "submitBtn" "disabled" ev = [lit "true"; lit "false"] /\
    alerts ev =
      match res with
      | inl _ => [lit "Failed to process query. Please try again."]
      | inr _ => []
      end /\
    written "resultsSection" "style.display" ev =
      match res with
      | inl _ => [lit "none"]
      | inr _ => [lit "none"; lit "block"]
      end /\
    written "answerContent" "textContent" ev =
      match res with
      | inl _ => []
      | inr data => [answer data]
      end.
Proof.
  cbv zeta. intros Hq.
  unfold App.submitQuery. run_script.
  destruct (trim (App.queryInput_value (page s))) as [|c q]; [congruence|].
  cbv beta iota delta [truthy negb].
  destruct (query_reply (issued s) (query_request (c :: q))) as [msg|r];
    cbn [query_result].
  - eexists. split; [reflexivity|]. repeat split; reflexivity.
  - destruct (ok r); cbv beta iota delta [negb].
    + destruct (json r) as [msg|data].
      * eexists. split; [reflexivity|]. repeat split; reflexivity.
      * match goal with
        | |- context [displayResults data ?st] =>
            destruct (displayResults_observed data st)
              as [ev [Hd [H1 [H2 [H3 [H4 H5]]]]]]; rewrite Hd
        end.
        eexists. split; [reflexivity|].
        cbn [app]. repeat split; cbn;
          rewrite ?written_app, ?requests_app, ?alerts_app, ?H1, ?H2, ?H3, ?H4, ?H5;
          reflexivity.
    + eexists. split; [reflexivity|]. repeat split; reflexivity.
Qed.

Ltac run_chat :=
  unfold Chat.sendMessage, Chat.addUserMessage, Chat.addLoadingMessage,
    Chat.addAssistantMessage, Chat.addErrorMessage, Chat.removeLoadingMessage,
    Chat.scrollToBottom;
  run_script.

(** A question that is not blank takes the chat client through one
    cycle, whatever the network does: no exception escapes, one request
    carries the trimmed question, the send button and the input are
    disabled and enabled again, and the loading placeholder is removed
    exactly once (after the welcome message, if it was still there).
    Three bubbles are appended: the question, the placeholder, and the
    answer or the error.  The input is cleared, and the history grows by
    one turn exactly when the response is in the 2xx range and readable. *)
Theorem sendMessage_lifecycle (s : state Chat.vars) :
  let v := page s in
  let question := trim (Chat.chatInput_value v) in
  let res := query_result chat_failed (query_reply (issued s) (query_request question)) in
  question <> [] ->
  exists ev,
    sendMessage s =
      (Ok tt,
       {| stored_token := stored_token s;
          issued := S (issued s);
          page := {| Chat.chatInput_value := [];
                     Chat.chatHistory := Chat.chatHistory v ++ new_turns question now res;
                     Chat.welcome := false |} |},
       ev) /\
    requests ev = [query_request question] /\
    removed ev =
      (if Chat.welcome v then [lit ".welcome-message"] else [])
      ++ [lit "loading-" ++ int_to_string now] /\
    written "sendBtn" "disabled" ev = [lit "true"; lit "false"] /\
    written "chatInput" "disabled" ev = [lit "true"; lit "false"] /\
    map e_className (appended "chatContainer" ev) =
      [ lit "chat-message user-message";
        lit "chat-message assistant-message";
        last_bubble_class res ] /\
    alerts ev = [].
Proof.
  cbv zeta. intros Hq.
  run_chat.
  destruct s as [tok n [input history w]]. cbn [page issued stored_token
    Chat.chatInput_value Chat.chatHistory Chat.welcome] in *.
  destruct (trim input) as [|c q]; [congruence|].
  cbv beta iota delta [truthy negb].
  destruct w; run_script; cbn [page issued stored_token
    Chat.chatInput_value Chat.chatHistory Chat.welcome];
    (destruct (query_reply n (query_request (c :: q))) as [msg|r];
     cbn [query_result new_turns last_bubble_class];
     [|destruct (ok r); cbv beta iota delta [negb];
       [destruct (json r) as [msg|data];
        cbn [query_result new_turns last_bubble_class]|]]);
    run_script; cbn [page issued stored_token
      Chat.chatInput_value Chat.chatHistory Chat.welcome];
    rewrite ?app_nil_r; eexists; (split; [reflexivity|]);
    repeat split; reflexivity.
Qed.

(** The new-chat button does nothing at all when the user declines the
    dialog.  When the user accepts, the history and the input are
    emptied and the welcome message is back in the transcript, which is
    rewritten once; in neither case is a request sent or an alert
    raised. *)
Theorem startNewChat_outcome (confirmed : bool) (s : state Chat.vars) :
  exists ev,
    Chat.startNewChat confirmed s =
      (Ok tt,
       (if confirmed then
          {| stored_token := stored_token s;
             issued := issued s;
             page := {| Chat.chatInput_value := [];
                        Chat.chatHistory := [];
                        Chat.welcome := true |} |}
        else s),
       ev) /\
    requests ev = [] /\ alerts ev = [] /\
    List.length (written "chatContainer" "innerHTML" ev) = (if confirmed then 1 else 0)%nat /\
    (if confirmed then written "chatInput" "style.height" ev = [lit "auto"] else ev = []).
Proof.
  unfold Chat.startNewChat. destruct confirmed; run_script.
  - destruct s as [tok n [input history w]].
    cbn [page issued stored_token Chat.chatInput_value Chat.chatHistory Chat.welcome].
    eexists. split; [reflexivity|]. repeat split; reflexivity.
  - eexists. split; [reflexivity|]. repeat split; reflexivity.
Qed.

(** An example button of the chat page only fills the input: it sends
    nothing, keeps the history, and resizes the input to its content,
    capped at 200px. *)
Theorem chat_example_only_fills (query : jsstring) (scrollHeight : Z)
    (s : state Chat.vars) :
  exists ev,
    Chat.exampleBtn_click query scrollHeight s =
      (Ok tt,
       {| stored_token := stored_token s;
          issued := issued s;
          page := {| Chat.chatInput_value := query;
                     Chat.chatHistory := Chat.chatHistory (page s);
                     Chat.welcome := Chat.welcome (page s) |} |},
       ev) /\
    requests ev = [] /\
    written "chatInput" "style.height" ev =
      [ lit "auto";
        (if scrollHeight <=? 200 then int_to_string scrollHeight else lit "200")
        ++ lit "px" ].
Proof.
  unfold Chat.exampleBtn_click, Chat.autoResizeTextarea. run_script.
  eexists. split; [reflexivity|]. split; [reflexivity|].
  cbn [written String.eqb Ascii.eqb Bool.eqb andb].
  unfold Z.min. rewrite Z.leb_compare.
  destruct (scrollHeight ?= 200); reflexivity.
Qed.

(** An example button of the single-shot page submits at once: when the
    example is not blank, one request goes out carrying the trimmed
    example, whatever the input held before. *)
Theorem app_example_submits (query : jsstring) (s : state App.vars) :
  trim query <> [] ->
  exists r s' ev,
    App.exampleBtn_click query_reply toUpperCase native_source query s = (r, s', ev) /\
    r = Ok tt /\
    requests ev = [query_request (trim query)] /\
    App.queryInput_value (page s') = query.
Proof.
  intros Hq.
  unfold App.exampleBtn_click, App.submitQuery. run_script.
  destruct s as [tok n v].
  cbn [page issued stored_token App.queryInput_value].
  destruct (trim query) as [|c q]; [congruence|].
  cbv beta iota delta [truthy negb].
  cbn [page issued stored_token App.queryInput_value].
  destruct (query_reply n (query_request (c :: q))) as [msg|r].
  - do 3 eexists. split; [reflexivity|]. repeat split; reflexivity.
  - destruct (ok r); cbv beta iota delta [negb].
    + destruct (json r) as [msg|data].
      * do 3 eexists. split; [reflexivity|]. repeat split; reflexivity.
      * match goal with
        | |- context [displayResults data ?st] =>
            destruct (displayResults_observed data st)
              as [ev [Hd [H1 _]]]; rewrite Hd
        end.
        do 3 eexists. split; [reflexivity|].
        cbn [app]. repeat split; cbn;
          rewrite ?requests_app, ?H1; reflexivity.
    + do 3 eexists. split; [reflexivity|]. repeat split; reflexivity.
Qed.

(** A key press in the chat input sends a request only when the key is
    Enter, Shift is not held, and the input is not blank. *)
Theorem chat_keydown_sends_only_on_enter (key : jsstring) (shiftKey : bool)
    (s s' : state Chat.vars) (r : result unit) (ev : list event) :
  Chat.chatInput_keydown query_reply native_source now key shiftKey s = (r, s', ev) ->
  requests ev <> [] ->
  key = lit "Enter" /\ shiftKey = false /\ trim (Chat.chatInput_value (page s)) <> [].
Proof.
  unfold Chat.chatInput_keydown.
  destruct (eqb key (lit "Enter")) eqn:Hk; cbn [andb].
  - destruct shiftKey; cbn [negb].
    + run_script. intros H; inversion H; subst. intros Hr; exfalso; apply Hr; reflexivity.
    + apply eqb_eq in Hk. run_chat.
      destruct (trim (Chat.chatInput_value (page s))) as [|c q].
      * cbv beta iota delta [truthy negb].
        intros H; inversion H; subst. intros Hr; exfalso; apply Hr; reflexivity.
      * intros _ _. repeat split; [exact Hk | discriminate].
  - run_script. intros H; inversion H; subst. intros Hr; exfalso; apply Hr; reflexivity.
Qed.

(** A key press in the input of the single-shot page sends a request
    only when the key is Enter, Ctrl is held, and the input is not
    blank. *)
Theorem app_keydown_sends_only_on_ctrl_enter (key : jsstring) (ctrlKey : bool)
    (s s' : state App.vars) (r : result unit) (ev : list event) :
  App.queryInput_keydown query_reply toUpperCase native_source key ctrlKey s = (r, s', ev) ->
  requests ev <> [] ->
  key = lit "Enter" /\ ctrlKey = true /\ trim (App.queryInput_value (page s)) <> [].
Proof.
  unfold App.queryInput_keydown.
  destruct ctrlKey; cbn [andb].
  - destruct (eqb key (lit "Enter")) eqn:Hk.
    + apply eqb_eq in Hk. unfold App.submitQuery. run_script.
      destruct (trim (App.queryInput_value (page s))) as [|c q].
      * cbv beta iota delta [truthy negb].
        intros H; inversion H; subst. intros Hr; exfalso; apply Hr; reflexivity.
      * intros _ _. repeat split; [exact Hk | discriminate].
    + run_script. intros H; inversion H; subst. intros Hr; exfalso; apply Hr; reflexivity.
  - run_script. intros H; inversion H; subst. intros Hr; exfalso; apply Hr; reflexivity.
Qed.

End QueryMore.

(** ** Instances *)

Lemma escapeHtml_fixes_plain_text_witness :
  Chat.escapeHtml (lit "a.pdf") = lit "a.pdf".
Proof.
  apply (proj2 (escapeHtml_fixes_plain_text (lit "a.pdf"))). reflexivity.
Defined.

Lemma formatAnswer_empty_iff_witness :
  Chat.formatAnswer [32%N; 10%N; 10%N; 32%N] = [].
Proof.
  apply (proj2 (formatAnswer_empty_iff [32%N; 10%N; 10%N; 32%N])).
  intros p Hp. vm_compute in Hp.
  destruct Hp as [<-|[<-|[]]]; reflexivity.
Defined.

Lemma loadDocuments_logs_out_on_message_witness :
  exists msg,
    Admin.documents_reply (unreachable (lit "HTTP 401")) 0
      (documents_request (page (logged_in (lit "t")))) = Rejected msg.
Proof.
  apply (proj2 (proj2 (proj2
    (loadDocuments_logs_out_on_message (unreachable (lit "HTTP 401"))
       (fun x => x) (fun x => x) (fun _ => true) [] (logged_in (lit "t")))))); reflexivity.
Defined.

Lemma uploadFile_returns_iff_witness :
  fst (fst (Admin.uploadFile (upload_refused (Some (lit "too large")))
              {| name := lit "a.pdf" |} (logged_in (lit "t")))) =
  Throw (Error (lit "too large")).
Proof.
  destruct (uploadFile_returns_iff (upload_refused (Some (lit "too large")))
              {| name := lit "a.pdf" |} (logged_in (lit "t"))) as [res [H1 [_ H3]]].
  rewrite H1. cbn [fst].
  exact (H3 _ _ eq_refl eq_refl eq_refl).
Defined.

Lemma uploadFiles_progress_witness :
  last (percents (events (Admin.uploadFiles flaky_backend (fun x => x) (fun x => x) (fun _ => true) []
                            [ {| name := lit "a.pdf" |}; {| name := lit "b.pdf" |};
                              {| name := lit "c.pdf" |} ]
                            (logged_in (lit "t"))))) S754_nan = double_hundred.
Proof.
  apply (proj2 (proj2 (proj2
    (uploadFiles_progress flaky_backend (fun x => x) (fun x => x) (fun _ => true) []
       [ {| name := lit "a.pdf" |}; {| name := lit "b.pdf" |};
         {| name := lit "c.pdf" |} ]
       (logged_in (lit "t")))))).
  - discriminate.
  - reflexivity.
Defined.

(** Three files: the bar is set to the doubles nearest to 100/3 and
    200/3, and to 100. *)
Example uploadFiles_three_percentages :
  percents (events (Admin.uploadFiles flaky_backend (fun x => x) (fun x => x) (fun _ => true) []
                      [ {| name := lit "a.pdf" |}; {| name := lit "b.pdf" |};
                        {| name := lit "c.pdf" |} ]
                      (logged_in (lit "t")))) =
  [ double_third_of_hundred; double_two_thirds_of_hundred; double_hundred ].
Proof. vm_compute. reflexivity. Qed.

Lemma confirmDelete_success_witness :
  Admin.confirmDelete_sent (modal_open (lit "t") (lit "a.pdf")) =
    (Ok (Some (delete_request (page (modal_open (lit "t") (lit "a.pdf"))) (lit "a.pdf"))),
     sent (modal_open (lit "t") (lit "a.pdf")),
     [Fetch (delete_request (page (modal_open (lit "t") (lit "a.pdf"))) (lit "a.pdf"))]) /\
  exists s' ev,
    Admin.confirmDelete_settled flaky_backend (fun x => x) (fun x => x)
      (fun _ => true) []
      (delete_request (page (modal_open (lit "t") (lit "a.pdf"))) (lit "a.pdf"))
      (accept tt 0%nat
         (delete_request (page (modal_open (lit "t") (lit "a.pdf"))) (lit "a.pdf")))
      (sent (logged_in (lit "t"))) = (Ok tt, s', ev) /\
    written "statusMessage" "textContent" ev = [lit "null deleted successfully"].
Proof.
  destruct (confirmDelete_success flaky_backend (fun x => x) (fun x => x)
              (fun _ => true) []
              (modal_open (lit "t") (lit "a.pdf")) (lit "a.pdf"))
    as [Hsent Hsettled]; [reflexivity | discriminate |].
  split; [exact Hsent|].
  destruct (Hsettled
              (accept tt 0%nat
                 (delete_request (page (modal_open (lit "t") (lit "a.pdf"))) (lit "a.pdf")))
              (sent (logged_in (lit "t"))))
    as [s' [ev [Hrun [_ [_ [_ [Hbanner _]]]]]]]; [reflexivity|].
  exists s', ev. split; [exact Hrun | exact Hbanner].
Defined.

Lemma second_confirm_while_pending_witness :
  deletes
    (events
       (Admin.play flaky_backend (fun x => x) (fun x => x) (fun _ => true) []
          [ Admin.User (Admin.ClickDelete (lit "a.pdf"));
            Admin.User Admin.ConfirmDelete;
            Admin.User Admin.ConfirmDelete;
            Admin.DeleteSettles 0 (Responded {| status := 200; text := []; json := Body tt |});
            Admin.DeleteSettles 0 (Responded {| status := 200; text := []; json := Body tt |}) ]
          [] (logged_in (lit "t")))) =
    [ delete_request (page (logged_in (lit "t"))) (lit "a.pdf");
      delete_request (page (logged_in (lit "t"))) (lit "a.pdf") ] /\
  written "statusMessage" "textContent"
    (events
       (Admin.play flaky_backend (fun x => x) (fun x => x) (fun _ => true) []
          [ Admin.User (Admin.ClickDelete (lit "a.pdf"));
            Admin.User Admin.ConfirmDelete;
            Admin.User Admin.ConfirmDelete;
            Admin.DeleteSettles 0 (Responded {| status := 200; text := []; json := Body tt |});
            Admin.DeleteSettles 0 (Responded {| status := 200; text := []; json := Body tt |}) ]
          [] (logged_in (lit "t")))) =
    [ lit "a.pdf deleted successfully"; lit "null deleted successfully" ].
Proof.
  destruct (second_confirm_while_pending flaky_backend (fun x => x) (fun x => x)
              (fun _ => true) []
              (logged_in (lit "t")) (lit "a.pdf")
              (Responded {| status := 200; text := []; json := Body tt |})
              (Responded {| status := 200; text := []; json := Body tt |}))
    as [Hdeletes [Hbanners _]]; [discriminate|].
  split; [exact Hdeletes | apply Hbanners; reflexivity].
Defined.

Lemma rebuildIndex_once_witness :
  exists s' ev,
    Admin.rebuildIndexBtn_click flaky_backend false (logged_in (lit "t")) = (Ok tt, s', ev) /\
    ev = [].
Proof.
  destruct (rebuildIndex_once flaky_backend false (logged_in (lit "t")))
    as [s' [ev [H1 [_ [_ [_ [_ H]]]]]]].
  exists s', ev. split; [exact H1 | apply H; reflexivity].
Defined.

Lemma systemStatus_ignores_status_witness :
  Admin.systemStatusBtn_click
    {| Admin.upload_reply := reply_status 500;
       Admin.documents_reply := reply_status 500;
       Admin.delete_reply := reply_status 500;
       Admin.rebuild_reply := reply_status 500;
       Admin.health_reply := fun _ _ =>
         Responded {| status := 503; text := [];
                      json := Body {| Admin.health_status := Some (lit "degraded");
                                      Admin.health_version := None |} |} |}
    (logged_in (lit "t")) =
  (Ok tt, sent (logged_in (lit "t")),
   [ Fetch health_request;
     Settled health_request (Fulfilled 503);
     Alert (lit "System Status: degraded" ++ [10%N] ++ lit "Version: undefined") ]).
Proof.
  apply (systemStatus_ignores_status _ (logged_in (lit "t"))
           {| status := 503; text := [];
              json := Body {| Admin.health_status := Some (lit "degraded");
                              Admin.health_version := None |} |}
           {| Admin.health_status := Some (lit "degraded");
              Admin.health_version := None |});
    reflexivity.
Defined.

Lemma submitQuery_lifecycle_witness :
  exists ev,
    App.submitQuery offline (fun x => x) (fun _ => []) (app_page (lit " price? ")) =
      (Ok tt, requested (app_page (lit " price? ")), ev) /\
    requests ev = [query_request (lit "price?")] /\
    written "submitBtn" "disabled" ev = [lit "true"; lit "false"] /\
    alerts ev = [lit "Failed to process query. Please try again."] /\
    written "resultsSection" "style.display" ev = [lit "none"] /\
    written "answerContent" "textContent" ev = [].
Proof.
  apply (submitQuery_lifecycle offline (fun x => x) (fun _ => [])
           (app_page (lit " price? "))).
  vm_compute. discriminate.
Defined.

Lemma sendMessage_lifecycle_witness :
  exists ev,
    Chat.sendMessage offline (fun _ => []) 7 (chat_page (lit " price? ")) =
      (Ok tt,
       {| stored_token := None;
          issued := 1;
          page := {| Chat.chatInput_value := [];
                     Chat.chatHistory := [];
                     Chat.welcome := false |} |},
       ev) /\
    requests ev = [query_request (lit "price?")] /\
    removed ev = [lit ".welcome-message"; lit "loading-7"] /\
    written "sendBtn" "disabled" ev = [lit "true"; lit "false"] /\
    written "chatInput" "disabled" ev = [lit "true"; lit "false"] /\
    map e_className (appended "chatContainer" ev) =
      [ lit "chat-message user-message";
        lit "chat-message assistant-message";
        lit "chat-message assistant-message error-message" ] /\
    alerts ev = [].
Proof.
  apply (sendMessage_lifecycle offline (fun _ => []) 7 (chat_page (lit " price? "))).
  vm_compute. discriminate.
Defined.

Lemma app_example_submits_witness :
  exists r s' ev,
    App.exampleBtn_click offline (fun x => x) (fun _ => []) (lit "price?") (app_page []) =
      (r, s', ev) /\
    r = Ok tt /\
    requests ev = [query_request (lit "price?")] /\
    App.queryInput_value (page s') = lit "price?".
Proof.
  apply (app_example_submits offline (fun x => x) (fun _ => []) (lit "price?") (app_page [])).
  vm_compute. discriminate.
Defined.

Lemma chat_keydown_sends_only_on_enter_witness :
  lit "Enter" = lit "Enter" /\ false = false /\
  trim (Chat.chatInput_value (page (chat_page (lit "price?")))) <> [].
Proof.
  eapply (chat_keydown_sends_only_on_enter offline (fun _ => []) 7
            (lit "Enter") false (chat_page (lit "price?"))).
  - reflexivity.
  - vm_compute. discriminate.
Defined.

Lemma app_keydown_sends_only_on_ctrl_enter_witness :
  lit "Enter" = lit "Enter" /\ true = true /\
  trim (App.queryInput_value (page (app_page (lit "price?")))) <> [].
Proof.
  eapply (app_keydown_sends_only_on_ctrl_enter offline (fun x => x) (fun _ => [])
            (lit "Enter") true (app_page (lit "price?"))).
  - reflexivity.
  - vm_compute. discriminate.
Defined.

Lemma displayResults_sources_witness :
  exists ev,
    App.displayResults (fun x => x) (fun _ => [])
      {| answer := lit "42"; sources := None; processing_time := 5 # 4 |}
      (app_page []) = (Ok tt, app_page [], ev) /\
    written "processingTime" "textContent" ev = [lit "1.25"].
Proof.
  destruct (displayResults_sources (fun x => x) (fun _ => [])
              {| answer := lit "42"; sources := None; processing_time := 5 # 4 |}
              (app_page [])) as [ev [H1 [_ [_ [H [_ _]]]]]].
  exists ev. split; [exact H1|]. apply H. reflexivity.
Defined.

(** A file name that opens a comment: the row loses its delete button,
    [displayDocuments] throws after the table and the first row were
    appended, and the rows behind it are not shown. *)
Example displayDocuments_swallowed_button :
  exists ev,
    Admin.displayDocuments (fun x => x) (fun x => x) comment_swallows
      (lit "tr.querySelector(...) is null")
      [pdf (lit "a.pdf"); pdf (lit "<!--"); pdf (lit "b.pdf")]
      (logged_in (lit "t")) =
      (Throw (Error (lit "tr.querySelector(...) is null")), logged_in (lit "t"), ev) /\
    List.length (appended "documentsTable" ev) = 1%nat /\
    appended "documentsList" ev = [row (fun x => x) (fun x => x) (pdf (lit "a.pdf"))].
Proof.
  eexists. split; [vm_compute; reflexivity|]. split; vm_compute; reflexivity.
Qed.
